(** * siteaudit: the on-page classifier, the flat-table parser and the
      site-audit aggregators of [filex2.py]

    The development embeds five functions of the module:
    [crawl_website_onpage], [parse_response], [make_request],
    [get_all_issues_summary] and [get_issue_details]; then the endpoints
    built on them and the part of [generate_ai_recommendations] that ranks
    the issues.

    - Python values are a small inductive type; dictionaries are association
      lists kept in insertion order with unique keys, as Python keeps them.
    - Exceptions are explicit: a computation returns [Ok v] or [Raise e].
    - HTTP is a function from requests to outcomes; every request a function
      sends is appended to a log that is threaded through the computation.
    - The HTML parser is an interface ([SoupAPI]); the results hold for every
      implementation of it. Floating-point numbers are an interface too
      ([FloatAPI]), used by one endpoint.
    - The standard output is an interface ([Console]): [print] returns, or
      raises what writing the line raises. The lines written are not
      kept. *)

From Stdlib Require Import String Ascii List ZArith Lia Bool Sorted Permutation.
From Stdlib Require DecimalString.
Import ListNotations.
Open Scope string_scope.

(* ===================================================================== *)
(** * Python strings *)
(* ===================================================================== *)

(** A [string] is read as a sequence of code points below 256. *)
Module PyStr.

Definition LF : ascii := "010"%char.
Definition SEMI : ascii := ";"%char.

Definition len (s : string) : Z := Z.of_nat (String.length s).

(** [str.isspace] on one code point below 256; the regular expression
    class [\s] accepts the same code points. *)
Definition is_space (c : ascii) : bool :=
  let n := nat_of_ascii c in
  (((9 <=? n) && (n <=? 13)) || ((28 <=? n) && (n <=? 32))
   || (n =? 133) || (n =? 160))%nat.

Fixpoint lstrip (s : string) : string :=
  match s with
  | String c s' => if is_space c then lstrip s' else s
  | EmptyString => EmptyString
  end.

Fixpoint rstrip (s : string) : string :=
  match s with
  | String c s' =>
      match rstrip s' with
      | EmptyString => if is_space c then EmptyString else String c EmptyString
      | r => String c r
      end
  | EmptyString => EmptyString
  end.

(** [s.strip()] *)
Definition strip (s : string) : string := rstrip (lstrip s).

(** [s.split(sep)] for a one-character separator: never empty. *)
Fixpoint split (sep : ascii) (s : string) : list string :=
  match s with
  | EmptyString => [EmptyString]
  | String c s' =>
      if Ascii.eqb c sep then EmptyString :: split sep s'
      else match split sep s' with
           | h :: t => String c h :: t
           | [] => [String c EmptyString]
           end
  end.

(** [sep.join(l)] *)
Fixpoint join (sep : ascii) (l : list string) : string :=
  match l with
  | [] => EmptyString
  | [x] => x
  | x :: rest => x ++ String sep (join sep rest)
  end.

(** [s.split()]: the maximal runs of characters that are not spaces. *)
Fixpoint split_ws (s : string) : list string :=
  match s with
  | EmptyString => []
  | String c s' =>
      if is_space c then split_ws s'
      else match s' with
           | EmptyString => [String c EmptyString]
           | String c' _ =>
               if is_space c' then String c EmptyString :: split_ws s'
               else match split_ws s' with
                    | h :: t => String c h :: t
                    | [] => [String c EmptyString]
                    end
           end
  end.

(** [re.sub(r'\s+', ' ', s)]: every run of spaces becomes one blank. *)
Fixpoint collapse_ws (s : string) : string :=
  match s with
  | EmptyString => EmptyString
  | String c s' =>
      if is_space c then
        match s' with
        | EmptyString => String " "%char EmptyString
        | String c' _ =>
            if is_space c' then collapse_ws s'
            else String " "%char (collapse_ws s')
        end
      else String c (collapse_ws s')
  end.

Definition upper_char (c : ascii) : ascii :=
  let n := nat_of_ascii c in
  if ((97 <=? n) && (n <=? 122))%nat then ascii_of_nat (n - 32) else c.

(** [s.upper()] on the ASCII letters. Code points from 128 on are kept as
    they are: Python changes some of them, but none into a letter of
    ERROR, the only word the module looks for in an upper-cased text. *)
Fixpoint upper (s : string) : string :=
  match s with
  | EmptyString => EmptyString
  | String c s' => String (upper_char c) (upper s')
  end.

(** [s.startswith(p)] *)
Definition startswith (p s : string) : bool := String.prefix p s.

(** [needle in s] *)
Fixpoint contains (needle s : string) : bool :=
  String.prefix needle s
  || match s with
     | EmptyString => false
     | String _ s' => contains needle s'
     end.

(** [str(n)] for an integer. *)
Definition of_int (z : Z) : string :=
  DecimalString.NilZero.string_of_int (Z.to_int z).

End PyStr.

(* ===================================================================== *)
(** * Python values, dictionaries and exceptions *)
(* ===================================================================== *)

(** The values JSON decoding produces and the module passes around.
    Floating-point numbers are left out. *)
#[warnings="-register-all"]
Inductive value : Type :=
  | VNone
  | VBool (b : bool)
  | VInt (z : Z)
  | VStr (s : string)
  | VList (l : list value)
  | VDict (d : list (string * value)).

Definition dict := list (string * value).

Fixpoint dict_get (d : dict) (k : string) : option value :=
  match d with
  | [] => None
  | (k', v) :: d' => if String.eqb k' k then Some v else dict_get d' k
  end.

(** [d[k] = v]: a key already present keeps its place. *)
Fixpoint dict_set (d : dict) (k : string) (v : value) : dict :=
  match d with
  | [] => [(k, v)]
  | (k', v') :: d' =>
      if String.eqb k' k then (k', v) :: d' else (k', v') :: dict_set d' k v
  end.

(** [dict(pairs)] and dictionary displays: later pairs win. *)
Definition dict_of (pairs : list (string * value)) : dict :=
  fold_left (fun d kv => dict_set d (fst kv) (snd kv)) pairs [].

Definition dict_keys (d : dict) : list string := map fst d.

(** An exception, by class name and by the text [str(e)] gives. *)
Record exn : Type := Exn { exn_class : string; exn_str : string }.

Inductive result (A : Type) : Type :=
  | Ok (a : A)
  | Raise (e : exn).
Arguments Ok {A} a.
Arguments Raise {A} e.

Definition type_name (v : value) : string :=
  match v with
  | VNone => "NoneType"
  | VBool _ => "bool"
  | VInt _ => "int"
  | VStr _ => "str"
  | VList _ => "list"
  | VDict _ => "dict"
  end.

Definition KeyError (k : string) : exn := Exn "KeyError" ("'" ++ k ++ "'").
Definition TypeError (msg : string) : exn := Exn "TypeError" msg.
Definition AttributeError (msg : string) : exn := Exn "AttributeError" msg.

Module Py.

(** [bool(v)] *)
Definition truthy (v : value) : bool :=
  match v with
  | VNone => false
  | VBool b => b
  | VInt z => negb (Z.eqb z 0)
  | VStr s => negb (String.eqb s "")
  | VList l => match l with [] => false | _ => true end
  | VDict d => match d with [] => false | _ => true end
  end.

Definition chars (s : string) : list value :=
  map (fun c => VStr (String c EmptyString)) (list_ascii_of_string s).

(** [v[key]] for a string key *)
Definition subscript (v : value) (key : string) : result value :=
  match v with
  | VDict d =>
      match dict_get d key with
      | Some x => Ok x
      | None => Raise (KeyError key)
      end
  | VStr _ => Raise (TypeError "string indices must be integers, not 'str'")
  | VList _ =>
      Raise (TypeError "list indices must be integers or slices, not str")
  | _ => Raise (TypeError ("'" ++ type_name v ++ "' object is not subscriptable"))
  end.

(** [v.get(key, default)] *)
Definition get (v : value) (key : string) (default : value) : result value :=
  match v with
  | VDict d =>
      match dict_get d key with
      | Some x => Ok x
      | None => Ok default
      end
  | _ => Raise (AttributeError
                  ("'" ++ type_name v ++ "' object has no attribute 'get'"))
  end.

Definition is_str (key : string) (v : value) : bool :=
  match v with
  | VStr s => String.eqb s key
  | _ => false
  end.

(** [key in v] for a string key *)
Definition contains (key : string) (v : value) : result bool :=
  match v with
  | VDict d => Ok (match dict_get d key with Some _ => true | None => false end)
  | VList l => Ok (existsb (is_str key) l)
  | VStr s => Ok (PyStr.contains key s)
  | _ => Raise (TypeError
                  ("argument of type '" ++ type_name v ++ "' is not iterable"))
  end.

(** The elements a [for] loop or [list.extend] draws from [v]. *)
Definition iter (v : value) : result (list value) :=
  match v with
  | VList l => Ok l
  | VDict d => Ok (map VStr (dict_keys d))
  | VStr s => Ok (chars s)
  | _ => Raise (TypeError ("'" ++ type_name v ++ "' object is not iterable"))
  end.

Definition not_supported (op l r : string) : exn :=
  TypeError ("'" ++ op ++ "' not supported between instances of '"
             ++ l ++ "' and '" ++ r ++ "'").

(** [v > 0] *)
Definition gt_zero (v : value) : result bool :=
  match v with
  | VInt z => Ok (Z.ltb 0 z)
  | VBool b => Ok b
  | _ => Raise (not_supported ">" (type_name v) "int")
  end.

(** [n >= v] for an integer [n] *)
Definition int_ge (n : Z) (v : value) : result bool :=
  match v with
  | VInt z => Ok (Z.leb z n)
  | VBool b => Ok (Z.leb (if b then 1 else 0) n)
  | _ => Raise (not_supported ">=" "int" (type_name v))
  end.

End Py.

(* ===================================================================== *)
(** * Computations: exceptions and the request log *)
(* ===================================================================== *)

Class Monad (m : Type -> Type) : Type :=
  { ret : forall {A}, A -> m A;
    bind : forall {A B}, m A -> (A -> m B) -> m B }.

Declare Scope py_scope.
Notation "x <- c ;; k" := (bind c (fun x => k))
  (at level 100, c at next level, right associativity) : py_scope.
Open Scope py_scope.

#[export] Instance result_monad : Monad result :=
  { ret := fun A a => Ok a;
    bind := fun A B c k => match c with Ok a => k a | Raise e => Raise e end }.

(** [requests.get(url, params=..., headers=..., timeout=...,
    allow_redirects=...)]; an absent timeout is [None]. *)
Record request : Type := Request
  { req_url : string;
    req_params : dict;
    req_headers : list (string * string);
    req_timeout : option Z;
    req_allow_redirects : bool }.

(** What the module reads of a [requests.Response]; [json] is the outcome of
    [response.json()]. *)
Record response : Type := Response
  { status_code : Z;
    reason : string;
    url : string;
    text : string;
    json : result value }.

Definition HTTPError (msg : string) : exn := Exn "HTTPError" msg.

(** [response.raise_for_status()] *)
Definition raise_for_status (r : response) : result unit :=
  if ((400 <=? status_code r) && (status_code r <? 500))%Z then
    Raise (HTTPError (PyStr.of_int (status_code r) ++ " Client Error: "
                      ++ reason r ++ " for url: " ++ url r))
  else if ((500 <=? status_code r) && (status_code r <? 600))%Z then
    Raise (HTTPError (PyStr.of_int (status_code r) ++ " Server Error: "
                      ++ reason r ++ " for url: " ++ url r))
  else Ok tt.

(** A computation reads the log of the requests sent so far and returns its
    outcome with the log extended. *)
Definition M (A : Type) : Type := list request -> result A * list request.

#[export] Instance M_monad : Monad M :=
  { ret := fun A a log => (Ok a, log);
    bind := fun A B c k log =>
              match c log with
              | (Ok a, log') => k a log'
              | (Raise e, log') => (Raise e, log')
              end }.

Definition lift {A : Type} (r : result A) : M A := fun log => (r, log).

(** [try: c  except: handler], the clause that catches everything. *)
Definition try_except {A : Type} (c : M A) (handler : exn -> M A) : M A :=
  fun log =>
    match c log with
    | (Ok a, log') => (Ok a, log')
    | (Raise e, log') => handler e log'
    end.

(** The classes that derive from [BaseException] and not from [Exception]:
    [except Exception] lets them through. *)
Definition BASE_ONLY : list string :=
  [ "BaseException"; "KeyboardInterrupt"; "SystemExit"; "GeneratorExit";
    "CancelledError" ].

(** [isinstance(e, Exception)] *)
Definition is_Exception (e : exn) : bool :=
  negb (existsb (String.eqb (exn_class e)) BASE_ONLY).

(** [try: c  except Exception as e: handler e] *)
Definition except_Exception {A : Type} (c : M A) (handler : exn -> M A) : M A :=
  fun log =>
    match c log with
    | (Ok a, log') => (Ok a, log')
    | (Raise e, log') => if is_Exception e then handler e log' else (Raise e, log')
    end.

(** The standard output of the process. [print line] is [print(line)] with
    one argument: it returns, or it raises what writing the line raises, as
    [UnicodeEncodeError] when the encoding of the output has no code for a
    character of the line. *)
Class Console : Type :=
  { print : string -> result unit }.

(** [for x in l: s = body s x], stopping at the first exception. *)
Fixpoint for_each {A S : Type} (body : S -> A -> result S) (l : list A) (s : S)
  : result S :=
  match l with
  | [] => Ok s
  | x :: l' => s' <- body s x ;; for_each body l' s'
  end.

(* ===================================================================== *)
(** * Configuration and the issue taxonomy *)
(* ===================================================================== *)

Definition BASE_URL : string := "https://api.semrush.com/".
Definition BACKLINKS_URL : string := "https://api.semrush.com/analytics/v1/".
Definition SITE_AUDIT_URL : string := "https://api.semrush.com/reports/v1".

(** Complete issue id mapping, in the order of the source. *)
Definition ISSUE_MAPPING : list (Z * string) :=
  [
    (* Errors *)
    (1%Z, "5xx errors");
    (2%Z, "4xx errors");
    (3%Z, "Title tag is missing or empty");
    (4%Z, "Blocked from crawling");
    (6%Z, "Duplicate title tag");
    (7%Z, "Duplicate content");
    (8%Z, "Broken internal links");
    (9%Z, "Pages not crawled");
    (10%Z, "DNS resolution issue");
    (11%Z, "We couldn't open the page's URL");
    (13%Z, "Broken internal images");
    (15%Z, "Duplicate meta descriptions");
    (16%Z, "Invalid robots.txt format");
    (17%Z, "Invalid sitemap.xml format");
    (18%Z, "Incorrect pages found in");
    (19%Z, "www resolve issues");
    (20%Z, "Viewport not configured");
    (21%Z, "Large HTML page size");
    (22%Z, "Missing canonical tags in AMP pages");
    (26%Z, "Non-secure pages");
    (27%Z, "Certificate Expiration");
    (28%Z, "Old security protocol version");
    (29%Z, "Certificate registered to incorrect");
    (30%Z, "Issues with mixed content");
    (32%Z, "Neither canonical URL nor 301 redirect from HTTP homepage");
    (33%Z, "Redirect chains and loops");
    (34%Z, "AMP Pages with HTML Issues");
    (35%Z, "AMP Pages with Style and Layout");
    (36%Z, "AMP Pages with Templating Issues");
    (38%Z, "Broken canonical URLs");
    (39%Z, "Multiple canonical URLs");
    (40%Z, "Meta refresh redirects");
    (41%Z, "Broken internal JavaScript and CSS");
    (42%Z, "Insecure encryption algorithms");
    (43%Z, "Sitemap file too large");
    (44%Z, "Malformed links");
    (45%Z, "Structured data that contains");
    (46%Z, "Viewport width not set");
    (111%Z, "Slow page load speed");
    (* Warnings *)
    (12%Z, "Broken external links");
    (14%Z, "Broken external images");
    (31%Z, "Links lead to HTTP pages for HTTPS");
    (101%Z, "Title element is too short");
    (102%Z, "Title element is too long");
    (103%Z, "Missing h1");
    (104%Z, "Multiple h1 tags");
    (105%Z, "Duplicate content in h1 and title");
    (106%Z, "Missing meta description");
    (108%Z, "Too many on-page links");
    (109%Z, "Temporary redirects");
    (110%Z, "Missing ALT attributes");
    (112%Z, "Low text to HTML ratio");
    (113%Z, "Too many URL parameters");
    (114%Z, "Missing hreflang and lang attributes");
    (115%Z, "Encoding not declared");
    (116%Z, "Doctype not declared");
    (117%Z, "Low word count");
    (120%Z, "Incompatible plugins used");
    (121%Z, "Frames used");
    (122%Z, "Underscores in URL");
    (123%Z, "Nofollow attributes in internal links");
    (124%Z, "Sitemap.xml not specified in");
    (125%Z, "Sitemap.xml not found");
    (126%Z, "HTTPS encryption not used");
    (127%Z, "No SNI support");
    (128%Z, "HTTP URLs in sitemap.xml for HTTPS");
    (129%Z, "Uncompressed pages");
    (130%Z, "Disallowed internal resources");
    (131%Z, "Uncompressed JavaScript and CSS");
    (132%Z, "Uncached JavaScript and CSS files");
    (133%Z, "Too large JavaScript and CSS total");
    (134%Z, "Too many JavaScript and CSS files");
    (135%Z, "Unminified JavaScript and CSS files");
    (136%Z, "Warning - Too long URLs");
    (137%Z, "Llms.txt not found");
    (* Notices *)
    (201%Z, "Too long URLs");
    (202%Z, "Nofollow attributes in external links");
    (203%Z, "Robots.txt not found");
    (205%Z, "No HSTS support");
    (206%Z, "Orphaned pages (Google Analytics)");
    (207%Z, "Orphaned sitemap pages");
    (208%Z, "Pages have high Document");
    (209%Z, "Blocked by X-Robots-Tag: noindex HTTP header");
    (210%Z, "Disallowed external resources");
    (211%Z, "Broken external JavaScript and CSS");
    (212%Z, "Page crawl depth");
    (213%Z, "Pages with only one internal link");
    (214%Z, "Permanent redirects");
    (215%Z, "Resources formatted as page links");
    (216%Z, "Links with no anchor text");
    (217%Z, "Links with non-descriptive anchor");
    (218%Z, "External pages or resources with 403 HTTP status code");
    (219%Z, "Llms.txt has formatting issues");
    (220%Z, "Too much content");
    (221%Z, "Outdated content");
    (222%Z, "Low semantic HTML usage");
    (223%Z, "Content not optimized")
  ].

Fixpoint mapping_find (m : list (Z * string)) (k : Z) : option string :=
  match m with
  | [] => None
  | (k', name) :: m' => if Z.eqb k' k then Some name else mapping_find m' k
  end.

(** [ISSUE_MAPPING.get(issue_id, f"Unknown Issue {issue_id}")]. The keys are
    integers: a boolean is looked up as 0 or 1, a string or [None] is never
    found, a list or a dictionary cannot be hashed. *)
Definition ISSUE_MAPPING_get (issue_id : value) : result value :=
  let found (k : Z) (shown : string) :=
    match mapping_find ISSUE_MAPPING k with
    | Some name => VStr name
    | None => VStr ("Unknown Issue " ++ shown)
    end in
  match issue_id with
  | VInt z => Ok (found z (PyStr.of_int z))
  | VBool true => Ok (found 1%Z "True")
  | VBool false => Ok (found 0%Z "False")
  | VStr s => Ok (VStr ("Unknown Issue " ++ s))
  | VNone => Ok (VStr "Unknown Issue None")
  | VList _ => Raise (TypeError "unhashable type: 'list'")
  | VDict _ => Raise (TypeError "unhashable type: 'dict'")
  end.

(* ===================================================================== *)
(** * parse_response *)
(* ===================================================================== *)

(** [dict(zip(headers, values))] *)
Definition dict_zip (headers values : list string) : dict :=
  dict_of (combine headers (map VStr values)).

Definition parse_response (text : string) : value :=
  let lines := PyStr.split PyStr.LF (PyStr.strip text) in
  if (length lines <? 2)%nat then VNone
  else
    let headers := PyStr.split PyStr.SEMI (nth 0 lines "") in
    if (length lines =? 2)%nat then
      VDict (dict_zip headers (PyStr.split PyStr.SEMI (nth 1 lines "")))
    else
      VList (map (fun line => VDict (dict_zip headers (PyStr.split PyStr.SEMI line)))
                 (tl lines)).

(* ===================================================================== *)
(** * The HTML parser, as the crawler uses it *)
(* ===================================================================== *)

(** The operations of BeautifulSoup that [crawl_website_onpage] calls.
    [decompose] returns the tree without the element: the calls that follow
    it in the source see the tree it leaves. *)
Class SoupAPI : Type :=
  { soup : Type;
    tag : Type;
    (** [BeautifulSoup(markup, 'html.parser')] *)
    BeautifulSoup : string -> result soup;
    (** [soup.find(name, attrs=attrs)] *)
    find : soup -> string -> list (string * string) -> option tag;
    (** [soup.find_all(name)], and [soup(names)] for several names *)
    find_all : soup -> list string -> list tag;
    (** [tag.get(attr)] *)
    tag_get : tag -> string -> option string;
    (** [tag.string] *)
    tag_string : tag -> option string;
    (** [tag.get_text(strip=True)] *)
    tag_get_text : tag -> string;
    (** [tag.decompose()] *)
    decompose : soup -> tag -> soup;
    (** [soup.get_text(separator=' ', strip=True)] *)
    get_text : soup -> string }.

Definition opt_str (o : option string) : value :=
  match o with
  | Some s => VStr s
  | None => VNone
  end.

Definition nonempty (o : option string) : bool :=
  match o with
  | Some s => negb (String.eqb s "")
  | None => false
  end.

(** [len(l)] *)
Definition list_len {A : Type} (l : list A) : Z := Z.of_nat (length l).

Section Program.

(** The outside world: what each request is answered with, and the
    provider key of the environment ([None] when it is not set). *)
Variable network : request -> result response.
Variable SEMRUSH_API_KEY : option string.
Context {bs4 : SoupAPI} {con : Console}.

Definition requests_get (r : request) : M response :=
  fun log => (network r, (log ++ [r])%list).

(* ------------------------------------------------------------------- *)
(** ** On-page crawler *)

Definition USER_AGENT : string :=
  "Mozilla/5.0 (Windows NT 10.0; Win64; x64) AppleWebKit/537.36".

(** [domain if domain.startswith('http') else f'https://{domain}'] *)
Definition crawl_url (domain : string) : string :=
  if PyStr.startswith "http" domain then domain else "https://" ++ domain.

Definition crawl_request (domain : string) : request :=
  Request (crawl_url domain) [] [("User-Agent", USER_AGENT)] (Some 10%Z) true.

(** The tree after the loop that decomposes the elements that hold no
    content. *)
Definition content_tree (soup0 : soup) : soup :=
  fold_left decompose
    (find_all soup0 ["script"; "style"; "nav"; "footer"; "header"]) soup0.

(** [img.get('alt')] as a condition *)
Definition has_alt (img : tag) : bool := nonempty (tag_get img "alt").

(** The body of the [try] from the parsed tree on. *)
Definition page_signals (soup0 : soup) : dict :=
  (* Meta Description *)
  let meta_desc := find soup0 "meta" [("name", "description")] in
  let meta_description :=
    match meta_desc with
    | Some t => if nonempty (tag_get t "content") then tag_get t "content"
                else None
    | None => None
    end in
  let meta_desc_length :=
    match meta_description with
    | Some s => PyStr.len s
    | None => 0%Z
    end in
  (* Title *)
  let title_tag := find soup0 "title" [] in
  let title :=
    match title_tag with
    | Some t => tag_string t
    | None => None
    end in
  let title_length :=
    match title with
    | Some s => if negb (String.eqb s "") then PyStr.len s else 0%Z
    | None => 0%Z
    end in
  (* Headers *)
  let h1_tags := find_all soup0 ["h1"] in
  let h2_tags := find_all soup0 ["h2"] in
  let h3_tags := find_all soup0 ["h3"] in
  let h4_tags := find_all soup0 ["h4"] in
  let h1_count := list_len h1_tags in
  let h1_text := map (fun h => VStr (tag_get_text h)) h1_tags in
  (* Content *)
  let soup1 := content_tree soup0 in
  let text_content := get_text soup1 in
  let text_content := PyStr.collapse_ws text_content in
  let word_count := list_len (PyStr.split_ws text_content) in
  (* Images *)
  let images := find_all soup1 ["img"] in
  let images_with_alt := filter has_alt images in
  let images_without_alt := (list_len images - list_len images_with_alt)%Z in
  [ ("meta_description", opt_str meta_description);
    ("meta_desc_length", VInt meta_desc_length);
    ("meta_desc_status",
      VStr (if ((150 <=? meta_desc_length) && (meta_desc_length <=? 160))%Z
            then "Good" else "Needs Fix"));
    ("title_tag", opt_str title);
    ("title_length", VInt title_length);
    ("title_status",
      VStr (if ((50 <=? title_length) && (title_length <=? 60))%Z
            then "Good" else "Needs Fix"));
    ("h1_count", VInt h1_count);
    ("h1_status",
      VStr (if (h1_count =? 1)%Z then "Good"
            else if (1 <? h1_count)%Z then "Multiple" else "Missing"));
    ("h1_text", VList h1_text);
    ("h2_count", VInt (list_len h2_tags));
    ("h3_count", VInt (list_len h3_tags));
    ("h4_count", VInt (list_len h4_tags));
    ("word_count", VInt word_count);
    ("content_status",
      VStr (if (1000 <=? word_count)%Z then "Good"
            else if (word_count <? 300)%Z then "Thin" else "Moderate"));
    ("images_total", VInt (list_len images));
    ("images_without_alt", VInt images_without_alt);
    ("crawl_success", VBool true) ].

Definition crawl_website_onpage (domain : string) : M dict :=
  except_Exception
    (response <- requests_get (crawl_request domain) ;;
     _ <- lift (raise_for_status response) ;;
     soup0 <- lift (BeautifulSoup (text response)) ;;
     ret (page_signals soup0))
    (fun e =>
       _ <- lift (print ("Crawl error: " ++ exn_str e)) ;;
       ret [("crawl_success", VBool false); ("error", VStr (exn_str e))]).

(* ------------------------------------------------------------------- *)
(** ** Flat-text provider requests *)

Definition api_key : value := opt_str SEMRUSH_API_KEY.

Definition make_request_request (url report_type : string) (kwargs : dict)
  : request :=
  let params := dict_of ([("key", api_key); ("type", VStr report_type)] ++ kwargs)%list in
  Request url params [] (Some 30%Z) true.

Definition make_request (url report_type : string) (kwargs : dict) : M value :=
  try_except
    (response <- requests_get (make_request_request url report_type kwargs) ;;
     if (status_code response =? 200)%Z
        && negb (PyStr.contains "ERROR" (PyStr.upper (text response)))
     then ret (parse_response (text response))
     else ret VNone)
    (fun _ => ret VNone).

(* ------------------------------------------------------------------- *)
(** ** Site audit: issue summary *)

(** The body of one of the three loops: appends a record when the entry
    counts at least one page. *)
Definition add_issue (severity : string) (issues_data : list value)
           (entry : value) : result (list value) :=
  issue_id <- Py.subscript entry "id" ;;
  count <- Py.subscript entry "count" ;;
  positive <- Py.gt_zero count ;;
  if (positive : bool) then
    issue_name <- ISSUE_MAPPING_get issue_id ;;
    delta <- Py.get entry "delta" (VInt 0%Z) ;;
    ret (issues_data ++
           [VDict [ ("issue_id", issue_id);
                    ("issue_name", issue_name);
                    ("severity", VStr severity);
                    ("count", count);
                    ("delta", delta) ]])%list
  else ret issues_data.

(** [if section in data: for entry in data[section]: ...] *)
Definition process_section (section severity : string) (data : value)
           (issues_data : list value) : result (list value) :=
  present <- Py.contains section data ;;
  if (present : bool) then
    entries <- Py.subscript data section ;;
    entries <- Py.iter entries ;;
    for_each (add_issue severity) entries issues_data
  else ret issues_data.

Definition snapshot_request (project_id : string) : request :=
  Request (SITE_AUDIT_URL ++ "/projects/" ++ project_id ++ "/siteaudit/snapshot")
          [("key", api_key)] [] None true.

Definition get_all_issues_summary (project_id : string)
  : M (list value * value) :=
  except_Exception
    (response <- requests_get (snapshot_request project_id) ;;
     _ <- lift (raise_for_status response) ;;
     data <- lift (json response) ;;
     snapshot_id <- lift (Py.get data "snapshot_id" VNone) ;;
     issues_data <- lift (process_section "errors" "Error" data []) ;;
     issues_data <- lift (process_section "warnings" "Warning" data issues_data) ;;
     issues_data <- lift (process_section "notices" "Notice" data issues_data) ;;
     ret (issues_data, snapshot_id))
    (fun e =>
       _ <- lift (print ("Error fetching issues summary: " ++ exn_str e)) ;;
       ret ([], VNone)).

(* ------------------------------------------------------------------- *)
(** ** Site audit: pages of one issue *)

Definition issue_url (project_id snapshot_id : string) (issue_id : Z) : string :=
  SITE_AUDIT_URL ++ "/projects/" ++ project_id ++ "/siteaudit/snapshot/"
  ++ snapshot_id ++ "/issue/" ++ PyStr.of_int issue_id.

Definition page_request (url : string) (limit current_page : Z) : request :=
  Request url [("key", api_key); ("limit", VInt limit); ("page", VInt current_page)]
          [] None true.

(** [return all_pages, data.get('total', 0)] *)
Definition finish (all_pages : list value) (data : value)
  : M (option (list value * value)) :=
  total <- lift (Py.get data "total" (VInt 0%Z)) ;;
  ret (Some (all_pages, total)).

(** The [while True] loop. [fuel] bounds the number of iterations; the
    outcome is [None] when it runs out before the loop is left. *)
Fixpoint fetch_pages (fuel : nat) (url : string) (limit : Z)
         (all_pages : list value) (current_page : Z)
  : M (option (list value * value)) :=
  match fuel with
  | O => ret None
  | S fuel' =>
      response <- requests_get (page_request url limit current_page) ;;
      _ <- lift (raise_for_status response) ;;
      data <- lift (json response) ;;
      has_data <- lift (Py.contains "data" data) ;;
      if (has_data : bool) then
        pages_data <- lift (Py.subscript data "data") ;;
        total_count <- lift (Py.get data "total" (VInt 0%Z)) ;;
        if negb (Py.truthy pages_data) then finish all_pages data
        else
          more <- lift (Py.iter pages_data) ;;
          let all_pages := (all_pages ++ more)%list in
          enough <- lift (Py.int_ge (list_len all_pages) total_count) ;;
          if (enough : bool) then finish all_pages data
          else fetch_pages fuel' url limit all_pages (current_page + 1)%Z
      else finish all_pages data
  end.

Definition get_issue_details (fuel : nat) (project_id snapshot_id : string)
           (issue_id limit : Z) : M (option (list value * value)) :=
  except_Exception
    (fetch_pages fuel (issue_url project_id snapshot_id issue_id) limit [] 1%Z)
    (fun e =>
       _ <- lift (print ("Error fetching issue details: " ++ exn_str e)) ;;
       ret (Some ([], VInt 0%Z))).

End Program.

Arguments requests_get network r log /.

(* ===================================================================== *)
(** * Vocabulary of the specification *)
(* ===================================================================== *)

(** ** Flat tables *)

(** The lines [parse_response] works on. *)
Definition table_lines (text : string) : list string :=
  PyStr.split PyStr.LF (PyStr.strip text).

(** The mapping of one data line under a header line. *)
Definition table_row (header line : string) : value :=
  VDict (dict_zip (PyStr.split PyStr.SEMI header) (PyStr.split PyStr.SEMI line)).

(** The value [pairs] gives a key: the one of its last occurrence. *)
Fixpoint assoc_last (pairs : list (string * value)) (k : string) : option value :=
  match pairs with
  | [] => None
  | (k', v) :: rest =>
      match assoc_last rest k with
      | Some x => Some x
      | None => if String.eqb k' k then Some v else None
      end
  end.

Definition no_char (c : ascii) (s : string) : Prop :=
  ~ In c (list_ascii_of_string s).

(** A field of a table holds neither the delimiter nor a line feed. *)
Definition field_ok (f : string) : Prop :=
  no_char PyStr.SEMI f /\ no_char PyStr.LF f.

Fixpoint last_char (s : string) : option ascii :=
  match s with
  | EmptyString => None
  | String c EmptyString => Some c
  | String _ s' => last_char s'
  end.

(** The code points below 256 that count as white space: the controls from
    tab to carriage return, the four separators, the blank, next line and
    the blank that does not break. *)
Definition WHITE_SPACE : list nat :=
  [9; 10; 11; 12; 13; 28; 29; 30; 31; 32; 133; 160].

Definition white (c : ascii) : bool :=
  existsb (Nat.eqb (nat_of_ascii c)) WHITE_SPACE.

(** The text holds white space only. *)
Definition blank (s : string) : Prop :=
  Forall (fun c => white c = true) (list_ascii_of_string s).

(** The text neither begins nor ends with white space. *)
Definition trimmed (s : string) : bool :=
  match s, last_char s with
  | String c _, Some c' => negb (white c) && negb (white c')
  | _, _ => true
  end.

(** The flat text of a table: fields joined by the delimiter, lines joined
    by line feeds. *)
Definition render_table (header : list string) (rows : list (list string))
  : string :=
  PyStr.join PyStr.LF (map (PyStr.join PyStr.SEMI) (header :: rows)).

(** ** Issue summaries *)

(** One entry of a section of the audit response: [{id, count, delta?}]. *)
Record entry : Type := Entry
  { entry_id : Z;
    entry_count : Z;
    entry_delta : option Z }.

(** [v] is the JSON object of the entry [e]. *)
Definition describes (v : value) (e : entry) : Prop :=
  exists d, v = VDict d
    /\ dict_get d "id" = Some (VInt (entry_id e))
    /\ dict_get d "count" = Some (VInt (entry_count e))
    /\ dict_get d "delta" = option_map VInt (entry_delta e).

(** The section [name] of the response [data] lists the entries [es]; a
    section that is absent lists none. *)
Definition section_is (data : dict) (name : string) (es : list entry) : Prop :=
  match dict_get data name with
  | Some v => exists l, v = VList l /\ Forall2 describes l es
  | None => es = []
  end.

(** The name the taxonomy gives an id, or the fallback. *)
Definition issue_name (id : Z) : string :=
  match mapping_find ISSUE_MAPPING id with
  | Some name => name
  | None => "Unknown Issue " ++ PyStr.of_int id
  end.

(** The record of an entry reported under [severity]. *)
Definition issue_record (severity : string) (e : entry) : value :=
  VDict [ ("issue_id", VInt (entry_id e));
          ("issue_name", VStr (issue_name (entry_id e)));
          ("severity", VStr severity);
          ("count", VInt (entry_count e));
          ("delta", VInt (match entry_delta e with Some d => d | None => 0%Z end)) ].

Definition counted (e : entry) : bool := (0 <? entry_count e)%Z.

(** The records of a section: one per entry that counts a page, in order. *)
Definition emitted (severity : string) (es : list entry) : list value :=
  map (issue_record severity) (filter counted es).

Definition severity_of (record : value) : option value :=
  match record with
  | VDict d => dict_get d "severity"
  | _ => None
  end.

Definition has_severity (severity : string) (record : value) : bool :=
  match severity_of record with
  | Some (VStr s) => String.eqb s severity
  | _ => false
  end.

(** Error before Warning before Notice. *)
Definition severity_rank (record : value) : nat :=
  if has_severity "Error" record then 0
  else if has_severity "Warning" record then 1 else 2.

(** A response that passes [raise_for_status]. *)
Definition status_ok (r : response) : Prop :=
  ~ (400 <= status_code r < 600)%Z.

(** ** Paged issue details *)

(** A provider that serves the records [pages p] for page [p] and reports
    [total] with every page. *)
Definition paged_provider (pages : Z -> list value) (total : Z)
  : request -> result response :=
  fun r =>
    match dict_get (req_params r) "page" with
    | Some (VInt p) =>
        Ok (Response 200 "OK" (req_url r) ""
              (Ok (VDict [("data", VList (pages p)); ("total", VInt total)])))
    | _ => Raise (Exn "ConnectionError" "no such page")
    end.

(** The records of pages 1 to [k], in order. *)
Definition pages_upto (pages : Z -> list value) (k : nat) : list value :=
  flat_map (fun i => pages (Z.of_nat i)) (seq 1 k).

(** After page [n] the loop of [get_issue_details] is left: the page holds
    no record, or the records of pages 1 to [n] reach the total. *)
Definition stops_at (pages : Z -> list value) (total : Z) (n : nat) : Prop :=
  pages (Z.of_nat n) = [] \/ (total <= list_len (pages_upto pages n))%Z.

(** After page [n] the loop goes on. *)
Definition continues_at (pages : Z -> list value) (total : Z) (n : nat) : Prop :=
  pages (Z.of_nat n) <> [] /\ (list_len (pages_upto pages n) < total)%Z.

(** ** Handlers *)

(** The console writes the line. *)
Definition prints {con : Console} (line : string) : Prop :=
  print line = Ok tt.

(** What a handler gives that prints [line] and then returns [v]. *)
Definition printed {con : Console} {A : Type} (line : string) (v : A)
  : result A :=
  match print line with
  | Ok _ => Ok v
  | Raise e => Raise e
  end.

(** What [except Exception as e] makes of [e] with a handler that prints
    [e] after [label] and then returns [v]. *)
Definition handled {con : Console} {A : Type} (label : string) (v : A) (e : exn)
  : result A :=
  if is_Exception e then printed (label ++ exn_str e) v else Raise e.

(** ** Page signals *)

(** The result of a crawl that failed with the exception [e]. *)
Definition crawl_failure (e : exn) : dict :=
  [("crawl_success", VBool false); ("error", VStr (exn_str e))].

(** The description of the page: the content of its first meta element
    named description, when there is one and it is not empty. *)
Definition meta_description_of {bs4 : SoupAPI} (page : soup) : option string :=
  match find page "meta" [("name", "description")] with
  | Some element =>
      match tag_get element "content" with
      | Some content => if String.eqb content "" then None else Some content
      | None => None
      end
  | None => None
  end.

(** The title of the page: the string of its first title element. *)
Definition title_of {bs4 : SoupAPI} (page : soup) : option string :=
  match find page "title" [] with
  | Some element => tag_string element
  | None => None
  end.

(** The length of a text that may be absent. *)
Definition text_length (o : option string) : Z :=
  match o with
  | Some s => PyStr.len s
  | None => 0%Z
  end.

(** The words of the page: the runs of characters between white space in
    the text of the tree without its script, style, nav, footer and header
    elements. *)
Definition words_of {bs4 : SoupAPI} (page : soup) : list string :=
  PyStr.split_ws (get_text (content_tree page)).

(** The fields of a successful crawl. *)
Definition signal_fields : list string :=
  [ "meta_description"; "meta_desc_length"; "meta_desc_status";
    "title_tag"; "title_length"; "title_status";
    "h1_count"; "h1_status"; "h1_text"; "h2_count"; "h3_count"; "h4_count";
    "word_count"; "content_status"; "images_total"; "images_without_alt" ].

(** The field [field] of [d] holds the status [status]. *)
Definition status_is (d : dict) (field status : string) : Prop :=
  dict_get d field = Some (VStr status).

(** The field [field] of [d] holds the text [s], or [None] with [s] absent. *)
Definition text_is (d : dict) (field : string) (s : option string) : Prop :=
  dict_get d field = Some (opt_str s).

(** ** Requests *)

(** The request is sent without a timeout. *)
Definition no_timeout (r : request) : Prop := req_timeout r = None.

(** ** URL schemes *)

(** The input names its scheme. *)
Definition has_scheme_prefix (s : string) : bool :=
  PyStr.startswith "http://" s || PyStr.startswith "https://" s.

(* ===================================================================== *)
(** * A small implementation of the parser interface *)
(* ===================================================================== *)

(** Documents without nesting: a sequence of elements, each with its name,
    its attributes and its text. Enough to run the crawler on examples. *)
Module FlatSoup.

Record element : Type := Element
  { el_id : nat;
    el_name : string;
    el_attrs : list (string * string);
    el_text : string }.

Definition document := list element.

Fixpoint attr (attrs : list (string * string)) (a : string) : option string :=
  match attrs with
  | [] => None
  | (k, v) :: rest => if String.eqb k a then Some v else attr rest a
  end.

Definition named (names : list string) (e : element) : bool :=
  existsb (String.eqb (el_name e)) names.

Definition matches (attrs : list (string * string)) (e : element) : bool :=
  forallb (fun kv => match attr (el_attrs e) (fst kv) with
                     | Some v => String.eqb v (snd kv)
                     | None => false
                     end) attrs.

Definition texts (d : document) : list string :=
  filter (fun s => negb (String.eqb s ""))
         (map (fun e => PyStr.strip (el_text e)) d).

(** The interface over flat documents, for a parser [parse]. *)
Definition api (parse : string -> result document) : SoupAPI :=
  {| soup := document;
     tag := element;
     BeautifulSoup := parse;
     find := fun d name attrs =>
               List.find (fun e => named [name] e && matches attrs e) d;
     find_all := fun d names => filter (named names) d;
     tag_get := fun e a => attr (el_attrs e) a;
     tag_string := fun e => Some (el_text e);
     tag_get_text := fun e => PyStr.strip (el_text e);
     decompose := fun d e => filter (fun x => negb (Nat.eqb (el_id x) (el_id e))) d;
     get_text := fun d => PyStr.join " "%char (texts d) |}.

End FlatSoup.

(* ===================================================================== *)
(** * Sample inputs *)
(* ===================================================================== *)

Module Samples.

Definition ok_response (body : string) (js : result value) : response :=
  Response 200 "OK" "" body js.

Definition no_json : result value :=
  Raise (Exn "JSONDecodeError" "Expecting value: line 1 column 1 (char 0)").

(** A two-line table. *)
Definition table1 : string :=
  "Domain;Rank" ++ String PyStr.LF "example.com;5".

(** A table with two data lines. *)
Definition table2 : string :=
  "Domain;Rank" ++ String PyStr.LF "example.com;5"
  ++ String PyStr.LF "example.org;7".

(** A table whose data mention a domain with the letters of the word
    error, in lower case. *)
Definition table_terror : string :=
  "Domain;Rank" ++ String PyStr.LF "terror.com;5".

(** The audit response of the specification's example. *)
Definition audit_data : dict :=
  [ ("snapshot_id", VStr "S1");
    ("errors", VList [ VDict [("id", VInt 3); ("count", VInt 5)];
                       VDict [("id", VInt 999); ("count", VInt 0)] ]);
    ("warnings", VList [ VDict [("id", VInt 101); ("count", VInt 2);
                                ("delta", VInt (-1))] ]) ].

Definition audit_network : request -> result response :=
  fun _ => Ok (ok_response "" (Ok (VDict audit_data))).

(** An audit response with an id the taxonomy does not know. *)
Definition unknown_network : request -> result response :=
  fun _ => Ok (ok_response ""
                 (Ok (VDict [("notices", VList [VDict [("id", VInt 9999);
                                                       ("count", VInt 1)]])]))).

(** Pages of 100, 100 and 37 records; any further page would hold 50. *)
Definition record (p : Z) (i : nat) : value :=
  VDict [("url", VStr "https://example.com/");
         ("page", VInt p); ("row", VInt (Z.of_nat i))].

Definition pages_237 (p : Z) : list value :=
  map (record p)
      (seq 0 (if (p =? 1)%Z then 100 else if (p =? 2)%Z then 100
              else if (p =? 3)%Z then 37 else 50)).

(** A provider whose first page holds 100 records of 237 and whose second
    page cannot be fetched. *)
Definition broken_provider : request -> result response :=
  fun r =>
    match dict_get (req_params r) "page" with
    | Some (VInt 1) => paged_provider pages_237 237 r
    | _ => Raise (Exn "ConnectionError" "Connection aborted.")
    end.

(** A console that writes every line. *)
Definition terminal : Console := {| print := fun _ => Ok tt |}.




Definition not_found_network : request -> result response :=
  fun r => Ok (Response 404 "Not Found" (req_url r) "" no_json).

(** A page with a title, a meta description, one heading, a script and
    two images, one of them without a text. *)
Definition page : FlatSoup.document :=
  [ FlatSoup.Element 0 "title" [] "Example Domain";
    FlatSoup.Element 1 "meta" [("name", "description"); ("content", "An example page")] "";
    FlatSoup.Element 2 "script" [] "var x = 1;";
    FlatSoup.Element 3 "h1" [] " Example Domain ";
    FlatSoup.Element 4 "p" [] "This domain is for use in   examples.";
    FlatSoup.Element 5 "img" [("src", "a.png"); ("alt", "A logo")] "";
    FlatSoup.Element 6 "img" [("src", "b.png"); ("alt", "")] "" ].

Definition page_api : SoupAPI := FlatSoup.api (fun _ => Ok page).

Definition page_network : request -> result response :=
  fun r => Ok (Response 200 "OK" (req_url r) "<html>...</html>" no_json).

(** What the crawler reports for that page. *)
Definition page_result : dict := page_signals (bs4 := page_api) page.

Definition table_network (body : string) : request -> result response :=
  fun _ => Ok (ok_response body no_json).

End Samples.

(* ===================================================================== *)
(** * Formatting values *)
(* ===================================================================== *)

(** [str(v)] and [repr(v)], as f-strings and [print] show a value. *)
Module PyFmt.

Definition DQUOTE : ascii := "034"%char.
Definition SQUOTE : ascii := "039"%char.
Definition BACKSLASH : ascii := "092"%char.

Definition hex_digit (n : nat) : ascii :=
  if (n <? 10)%nat then ascii_of_nat (48 + n) else ascii_of_nat (87 + n).

(** [str.isprintable] on one code point below 256 *)
Definition printable (c : ascii) : bool :=
  let n := nat_of_ascii c in
  (((32 <=? n) && (n <=? 126))
   || ((161 <=? n) && (n <=? 255) && negb (n =? 173)))%nat.

Fixpoint has_char (c : ascii) (s : string) : bool :=
  match s with
  | EmptyString => false
  | String x s' => Ascii.eqb x c || has_char c s'
  end.

Definition repr_char (quote c : ascii) : string :=
  let n := nat_of_ascii c in
  if Ascii.eqb c quote || Ascii.eqb c BACKSLASH then
    String BACKSLASH (String c EmptyString)
  else if (n =? 9)%nat then String BACKSLASH "t"
  else if (n =? 10)%nat then String BACKSLASH "n"
  else if (n =? 13)%nat then String BACKSLASH "r"
  else if printable c then String c EmptyString
  else String BACKSLASH
         (String "x" (String (hex_digit (n / 16))
                        (String (hex_digit (n mod 16)) EmptyString))).

Fixpoint repr_chars (quote : ascii) (s : string) : string :=
  match s with
  | EmptyString => EmptyString
  | String c s' => repr_char quote c ++ repr_chars quote s'
  end.

(** [repr(s)] for a string: single quotes, unless the text holds one and
    no double quote. *)
Definition repr_str (s : string) : string :=
  let quote :=
    if has_char SQUOTE s && negb (has_char DQUOTE s) then DQUOTE else SQUOTE in
  String quote (repr_chars quote s ++ String quote EmptyString).

(** [repr(v)] *)
Fixpoint repr (v : value) : string :=
  match v with
  | VNone => "None"
  | VBool true => "True"
  | VBool false => "False"
  | VInt z => PyStr.of_int z
  | VStr s => repr_str s
  | VList l =>
      "[" ++ (fix items (l : list value) : string :=
                match l with
                | [] => ""
                | x :: rest =>
                    match rest with
                    | [] => repr x
                    | _ => repr x ++ ", " ++ items rest
                    end
                end) l ++ "]"
  | VDict d =>
      "{" ++ (fix items (d : list (string * value)) : string :=
                match d with
                | [] => ""
                | (k, x) :: rest =>
                    match rest with
                    | [] => repr_str k ++ ": " ++ repr x
                    | _ => repr_str k ++ ": " ++ repr x ++ ", " ++ items rest
                    end
                end) d ++ "}"
  end.

(** [str(v)], which is what [f"{v}"] puts into a text. *)
Definition str (v : value) : string :=
  match v with
  | VStr s => s
  | _ => repr v
  end.

(** [f"{o}"] for an optional string *)
Definition str_opt (o : option string) : string := str (opt_str o).

End PyFmt.

(* ===================================================================== *)
(** * Requests and replies of the endpoints *)
(* ===================================================================== *)

(** What an endpoint hands back: the JSON body it returns, or the
    [HTTPException] it raises. *)
Inductive reply : Type :=
  | Reply (body : value)
  | HTTPException (status : Z) (detail : string).

Module DomainRequest.
Record t : Type := Make { domain : string; database : string }.
End DomainRequest.

Module KeywordRequest.
Record t : Type := Make { keyword : string; database : string; limit : Z }.
End KeywordRequest.

Module SiteAuditRequest.
Record t : Type :=
  Make { project_id : option string; issue_id : option Z; limit : Z }.
End SiteAuditRequest.

(** Floating-point numbers, as [get_referring_domains] uses them: [float(s)],
    [float(n)] and the comparison [x < n] with an integer. *)
Class FloatAPI : Type :=
  { pyfloat : Type;
    float_of_str : string -> result pyfloat;
    float_of_int : Z -> result pyfloat;
    float_lt : pyfloat -> Z -> bool }.

Module Py2.

(** [v == n] for an integer [n] *)
Definition eq_int (v : value) (n : Z) : bool :=
  match v with
  | VInt z => Z.eqb z n
  | VBool b => Z.eqb (if b then 1 else 0) n
  | _ => false
  end.

(** [-v] *)
Definition neg (v : value) : result Z :=
  match v with
  | VInt z => Ok (- z)%Z
  | VBool b => Ok (if b then -1 else 0)%Z
  | _ => Raise (TypeError ("bad operand type for unary -: '"
                           ++ type_name v ++ "'"))
  end.

(** [float(v)] *)
Definition float {fl : FloatAPI} (v : value) : result pyfloat :=
  match v with
  | VStr s => float_of_str s
  | VInt z => float_of_int z
  | VBool b => float_of_int (if b then 1 else 0)%Z
  | _ => Raise (TypeError
                  ("float() argument must be a string or a real number, not '"
                   ++ type_name v ++ "'"))
  end.

(** Tuples of two integers, as [sorted] compares them. *)
Definition key_le (a b : Z * Z) : bool :=
  (fst a <? fst b)%Z || ((fst a =? fst b)%Z && (snd a <=? snd b)%Z).

(** One step of a stable sort: [x] goes before the first element whose
    key is not below its own. *)
Fixpoint insert (kx : Z * Z) (x : value) (l : list ((Z * Z) * value))
  : list ((Z * Z) * value) :=
  match l with
  | [] => [(kx, x)]
  | (ky, y) :: rest =>
      if key_le kx ky then (kx, x) :: l else (ky, y) :: insert kx x rest
  end.

(** [sorted] on elements paired with their keys: ascending, and elements
    with equal keys stay in their order. *)
Definition sorted (keyed : list ((Z * Z) * value)) : list ((Z * Z) * value) :=
  fold_right (fun kx acc => insert (fst kx) (snd kx) acc) [] keyed.

End Py2.

Section Endpoints.

Variable network : request -> result response.
Variable SEMRUSH_API_KEY : option string.
(** [os.environ.get("PROJECT_ID", "26460775")] *)
Variable PROJECT_ID : string.
Context {bs4 : SoupAPI} {fl : FloatAPI} {con : Console}.

Let api_key := api_key SEMRUSH_API_KEY.
Let requests_get := requests_get network.
Let make_request := make_request network SEMRUSH_API_KEY.

(* ------------------------------------------------------------------- *)
(** ** Endpoints over [make_request] *)

(** [if result: return {"success": True, "data": result}] and then
    [raise HTTPException(404, "Not found")] *)
Definition found_or_404 (result : value) : reply :=
  if Py.truthy result
  then Reply (VDict [("success", VBool true); ("data", result)])
  else HTTPException 404 "Not found".

Definition get_domain_overview (req : DomainRequest.t) : M reply :=
  result <- make_request BASE_URL "domain_rank"
              [ ("domain", VStr (DomainRequest.domain req));
                ("database", VStr (DomainRequest.database req)) ] ;;
  ret (found_or_404 result).

Definition get_organic_keywords (req : DomainRequest.t) : M reply :=
  result <- make_request BASE_URL "domain_organic"
              [ ("domain", VStr (DomainRequest.domain req));
                ("database", VStr (DomainRequest.database req));
                ("display_limit", VInt 100); ("export_escape", VInt 1) ] ;;
  ret (found_or_404 result).

Definition get_competitors (req : DomainRequest.t) : M reply :=
  result <- make_request BASE_URL "domain_organic_organic"
              [ ("domain", VStr (DomainRequest.domain req));
                ("database", VStr (DomainRequest.database req));
                ("display_limit", VInt 20) ] ;;
  ret (found_or_404 result).

Definition get_keyword_overview (req : KeywordRequest.t) : M reply :=
  result <- make_request BASE_URL "phrase_this"
              [ ("phrase", VStr (KeywordRequest.keyword req));
                ("database", VStr (KeywordRequest.database req));
                ("export_escape", VInt 1) ] ;;
  ret (found_or_404 result).

Definition get_related_keywords (req : KeywordRequest.t) : M reply :=
  result <- make_request BASE_URL "phrase_related"
              [ ("phrase", VStr (KeywordRequest.keyword req));
                ("database", VStr (KeywordRequest.database req));
                ("display_limit", VInt (KeywordRequest.limit req));
                ("export_escape", VInt 1) ] ;;
  ret (found_or_404 result).

Definition get_serp (req : KeywordRequest.t) : M reply :=
  result <- make_request BASE_URL "phrase_organic"
              [ ("phrase", VStr (KeywordRequest.keyword req));
                ("database", VStr (KeywordRequest.database req));
                ("display_limit", VInt (KeywordRequest.limit req));
                ("export_escape", VInt 1) ] ;;
  ret (found_or_404 result).

(* ------------------------------------------------------------------- *)
(** ** Backlinks endpoints *)

Definition refdomains_request (req : DomainRequest.t) : request :=
  Request BACKLINKS_URL
          [ ("key", api_key); ("type", VStr "backlinks_refdomains");
            ("target", VStr (DomainRequest.domain req));
            ("target_type", VStr "root_domain");
            ("export_columns",
              VStr "domain_ascore,domain,backlinks_num,ip,country");
            ("display_limit", VInt 500) ]
          [] (Some 30%Z) true.

(** The body of the loop over the referring domains: the three lists. *)
Definition sort_domain (lists : list value * list value * list value)
           (domain : value) : result (list value * list value * list value) :=
  let '(toxic, potentially_toxic, healthy) := lists in
  ascore <- Py.get domain "domain_ascore" (VInt 0%Z) ;;
  score <- Py2.float ascore ;;
  if float_lt score 30 then
    ret ((toxic ++ [domain])%list, potentially_toxic, healthy)
  else if float_lt score 50 then
    ret (toxic, (potentially_toxic ++ [domain])%list, healthy)
  else ret (toxic, potentially_toxic, (healthy ++ [domain])%list).

Definition len_of (v : value) : result Z :=
  items <- Py.iter v ;; ret (list_len items).

Definition get_referring_domains (req : DomainRequest.t) : M reply :=
  try_except
    (response <- requests_get (refdomains_request req) ;;
     if (status_code response =? 200)%Z then
       let result := parse_response (text response) in
       if Py.truthy result then
         domains <- lift (Py.iter result) ;;
         lists <- lift (for_each sort_domain domains ([], [], [])) ;;
         let '(toxic, potentially_toxic, healthy) := lists in
         total <- lift (len_of result) ;;
         ret (Reply
                (VDict
                   [ ("success", VBool true);
                     ("data", result);
                     ("analysis",
                       VDict [ ("total", VInt total);
                               ("toxic", VInt (list_len toxic));
                               ("potentially_toxic",
                                 VInt (list_len potentially_toxic));
                               ("healthy", VInt (list_len healthy)) ]) ]))
       else ret (HTTPException 404 "Not found")
     else ret (HTTPException 404 "Not found"))
    (fun _ => ret (HTTPException 404 "Not found")).

Definition anchors_request (req : DomainRequest.t) : request :=
  Request BACKLINKS_URL
          [ ("key", api_key); ("type", VStr "backlinks_anchors");
            ("target", VStr (DomainRequest.domain req));
            ("target_type", VStr "root_domain");
            ("export_columns", VStr "anchor,domains_num,backlinks_num");
            ("display_limit", VInt 100) ]
          [] (Some 30%Z) true.

Definition get_anchors (req : DomainRequest.t) : M reply :=
  try_except
    (response <- requests_get (anchors_request req) ;;
     if (status_code response =? 200)%Z then
       let result := parse_response (text response) in
       if Py.truthy result
       then ret (Reply (VDict [("success", VBool true); ("data", result)]))
       else ret (HTTPException 404 "Not found")
     else ret (HTTPException 404 "Not found"))
    (fun _ => ret (HTTPException 404 "Not found")).

(* ------------------------------------------------------------------- *)
(** ** Complete analysis *)

Definition backlinks_overview_request (req : DomainRequest.t) : request :=
  Request BACKLINKS_URL
          [ ("key", api_key); ("type", VStr "backlinks_overview");
            ("target", VStr (DomainRequest.domain req));
            ("target_type", VStr "root_domain") ]
          [] (Some 30%Z) true.

Definition complete_analysis (req : DomainRequest.t) : M reply :=
  let domain := VStr (DomainRequest.domain req) in
  let database := VStr (DomainRequest.database req) in
  let results : dict := [] in
  r <- make_request BASE_URL "domain_rank"
         [("domain", domain); ("database", database)] ;;
  let results := dict_set results "domain_overview" r in
  r <- make_request BASE_URL "domain_organic"
         [ ("domain", domain); ("database", database);
           ("display_limit", VInt 50); ("export_escape", VInt 1) ] ;;
  let results := dict_set results "organic_keywords" r in
  r <- make_request BASE_URL "domain_organic_organic"
         [ ("domain", domain); ("database", database);
           ("display_limit", VInt 10) ] ;;
  let results := dict_set results "competitors" r in
  results <- try_except
               (response <- requests_get (backlinks_overview_request req) ;;
                if (status_code response =? 200)%Z
                then ret (dict_set results "backlinks_overview"
                                   (parse_response (text response)))
                else ret results)
               (fun _ => ret (dict_set results "backlinks_overview" VNone)) ;;
  onpage <- crawl_website_onpage network (DomainRequest.domain req) ;;
  let results := dict_set results "onpage_analysis" (VDict onpage) in
  (* Add site audit data *)
  summary <- get_all_issues_summary network SEMRUSH_API_KEY PROJECT_ID ;;
  let issues := fst summary in
  let results :=
    if Py.truthy (VList issues)
    then dict_set results "site_audit" (VDict [("issues", VList issues)])
    else results in
  ret (Reply (VDict [("success", VBool true); ("data", VDict results)])).

(* ------------------------------------------------------------------- *)
(** ** Site audit endpoints *)

Definition get_site_audit_issues (req : SiteAuditRequest.t) : M reply :=
  summary <- get_all_issues_summary network SEMRUSH_API_KEY
               (PyFmt.str_opt (SiteAuditRequest.project_id req)) ;;
  let '(issues, snapshot_id) := summary in
  if Py.truthy (VList issues) && Py.truthy snapshot_id then
    ret (Reply (VDict [ ("success", VBool true); ("data", VList issues);
                        ("snapshot_id", snapshot_id) ]))
  else
    ret (Reply (VDict [ ("success", VBool false);
                        ("message",
                          VStr "No issues found or error fetching issues") ])).

(** The loop that looks the name of the issue up: the name of the first
    record with the id, or the default. *)
Fixpoint find_issue_name (issues : list value) (issue_id : Z) : result value :=
  match issues with
  | [] => Ok (VStr "Unknown Issue")
  | issue :: rest =>
      id <- Py.subscript issue "issue_id" ;;
      if Py2.eq_int id issue_id then Py.subscript issue "issue_name"
      else find_issue_name rest issue_id
  end.

(** [fuel] bounds the iterations of the loop of [get_issue_details]; the
    outcome is [None] when it runs out. *)
Definition get_site_audit_issue_details (fuel : nat) (req : SiteAuditRequest.t)
  : M (option reply) :=
  match SiteAuditRequest.issue_id req with
  | None => ret (Some (HTTPException 400 "Issue ID is required"))
  | Some issue_id =>
      if (issue_id =? 0)%Z then
        ret (Some (HTTPException 400 "Issue ID is required"))
      else
        (* First get the snapshot ID *)
        summary <- get_all_issues_summary network SEMRUSH_API_KEY
                     (PyFmt.str_opt (SiteAuditRequest.project_id req)) ;;
        let '(issues, snapshot_id) := summary in
        if negb (Py.truthy snapshot_id) then
          ret (Some (Reply (VDict [ ("success", VBool false);
                                    ("message",
                                      VStr "Could not retrieve snapshot ID") ])))
        else
          (* Get issue details *)
          details <- get_issue_details network SEMRUSH_API_KEY fuel
                       (PyFmt.str_opt (SiteAuditRequest.project_id req))
                       (PyFmt.str snapshot_id) issue_id
                       (SiteAuditRequest.limit req) ;;
          match details with
          | None => ret None
          | Some (pages, total) =>
              if Py.truthy (VList pages) then
                issue_name <- lift (find_issue_name issues issue_id) ;;
                ret (Some (Reply (VDict [ ("success", VBool true);
                                          ("data", VList pages);
                                          ("total", total);
                                          ("issue_name", issue_name);
                                          ("snapshot_id", snapshot_id) ])))
              else
                ret (Some (Reply (VDict
                                    [ ("success", VBool false);
                                      ("message",
                                        VStr ("No data found for issue ID "
                                              ++ PyStr.of_int issue_id)) ])))
          end
  end.

End Endpoints.

(* ===================================================================== *)
(** * The audit context of the recommendation prompt *)
(* ===================================================================== *)

(** The part of [generate_ai_recommendations] that turns the issues into
    text: the counts by severity and the ten issues that rank first. *)
Module AuditContext.

(** [[i for i in issues if i.get('severity') == severity]] *)
Definition with_severity (severity : string) (issues : list value)
  : result (list value) :=
  for_each (fun acc i =>
              s <- Py.get i "severity" VNone ;;
              ret (if Py.is_str severity s then (acc ++ [i])%list else acc))
           issues [].

(** The key of the sort:
    [(0 if Error else 1 if Warning else 2, -x.get('count', 0))] *)
Definition sort_key (x : value) : result (Z * Z) :=
  s <- Py.get x "severity" VNone ;;
  rank <- (if Py.is_str "Error" s then Ok 0%Z
           else s' <- Py.get x "severity" VNone ;;
                ret (if Py.is_str "Warning" s' then 1%Z else 2%Z)) ;;
  c <- Py.get x "count" (VInt 0%Z) ;;
  n <- Py2.neg c ;;
  ret (rank, n).

Definition keyed (issues : list value) : result (list ((Z * Z) * value)) :=
  for_each (fun acc x => k <- sort_key x ;; ret (acc ++ [(k, x)])%list)
           issues [].

(** [sorted(issues, key=...)] *)
Definition sorted_issues (issues : list value) : result (list value) :=
  ks <- keyed issues ;;
  ret (map snd (Py2.sorted ks)).

(** One line of the list of issues. *)
Definition issue_line (issue : value) : result string :=
  severity <- Py.get issue "severity" VNone ;;
  name <- Py.get issue "issue_name" VNone ;;
  count <- Py.get issue "count" VNone ;;
  ret ("- [" ++ PyFmt.str severity ++ "] " ++ PyFmt.str name ++ ": "
       ++ PyFmt.str count ++ " pages affected" ++ String PyStr.LF "").

Definition NL : string := String PyStr.LF "".

(** [audit_context], from [site_audit_data]; empty when there are no
    issues. *)
Definition audit_context (site_audit_data : value) : result string :=
  if Py.truthy site_audit_data then
    present <- Py.get site_audit_data "issues" VNone ;;
    if Py.truthy present then
      issues <- Py.subscript site_audit_data "issues" ;;
      items <- Py.iter issues ;;
      errors <- with_severity "Error" items ;;
      warnings <- with_severity "Warning" items ;;
      notices <- with_severity "Notice" items ;;
      let head :=
        NL ++ "SITE AUDIT DATA:" ++ NL
        ++ "- Total Issues: " ++ PyStr.of_int (list_len items) ++ NL
        ++ "- Errors: " ++ PyStr.of_int (list_len errors)
        ++ " critical issues" ++ NL
        ++ "- Warnings: " ++ PyStr.of_int (list_len warnings) ++ " issues" ++ NL
        ++ "- Notices: " ++ PyStr.of_int (list_len notices)
        ++ " minor issues" ++ NL ++ NL
        ++ "Top Critical Issues:" ++ NL in
      (* Add top 10 critical issues *)
      sorted_issues <- sorted_issues items ;;
      for_each (fun text issue => line <- issue_line issue ;; ret (text ++ line))
               (firstn 10 sorted_issues) head
    else Ok ""
  else Ok "".

End AuditContext.

(* ===================================================================== *)
(** * Vocabulary for the endpoints *)
(* ===================================================================== *)

(** The body holds the word error in some mix of upper and lower case. *)
Definition mentions_error (body : string) : bool :=
  PyStr.contains "ERROR" (PyStr.upper body).

(** The text has a header line and at least one data line. *)
Definition has_rows (body : string) : bool :=
  (2 <=? length (table_lines body))%nat.

Definition success_reply (data : value) : reply :=
  Reply (VDict [("success", VBool true); ("data", data)]).

Definition not_found : reply := HTTPException 404 "Not found".

(** What an endpoint over [make_request] makes of the outcome of its
    request. *)
Definition flat_reply (outcome : result response) : reply :=
  match outcome with
  | Ok r =>
      if (status_code r =? 200)%Z && negb (mentions_error (text r))
         && has_rows (text r)
      then success_reply (parse_response (text r))
      else not_found
  | Raise _ => not_found
  end.

(** What [get_anchors] makes of the outcome of its request. *)
Definition anchors_reply (outcome : result response) : reply :=
  match outcome with
  | Ok r =>
      if (status_code r =? 200)%Z && has_rows (text r)
      then success_reply (parse_response (text r))
      else not_found
  | Raise _ => not_found
  end.

(** The score of a referring domain: [float(domain.get('domain_ascore', 0))] *)
Definition score_of {fl : FloatAPI} (domain : value) : result pyfloat :=
  ascore <- Py.get domain "domain_ascore" (VInt 0%Z) ;;
  Py2.float ascore.

(** The score of the domain is read and satisfies [p]. *)
Definition scored {fl : FloatAPI} (p : pyfloat -> bool) (domain : value) : Prop :=
  exists score, score_of domain = Ok score /\ p score = true.

(** The data of a complete analysis, from what its parts return and from
    the outcome of the backlinks request. *)
Definition analysis_results (overview keywords competitors : value)
           (backlinks : result response) (onpage : dict) (issues : list value)
  : dict :=
  ([ ("domain_overview", overview); ("organic_keywords", keywords);
     ("competitors", competitors) ]
   ++ match backlinks with
      | Ok r => if (status_code r =? 200)%Z
                then [("backlinks_overview", parse_response (text r))]
                else []
      | Raise _ => [("backlinks_overview", VNone)]
      end
   ++ [("onpage_analysis", VDict onpage)]
   ++ match issues with
      | [] => []
      | _ => [("site_audit", VDict [("issues", VList issues)])]
      end)%list.

(** The answers of the site-audit endpoints. *)
Definition issues_found (issues : list value) (snapshot_id : value) : reply :=
  Reply (VDict [ ("success", VBool true); ("data", VList issues);
                 ("snapshot_id", snapshot_id) ]).

Definition no_issues : reply :=
  Reply (VDict [ ("success", VBool false);
                 ("message", VStr "No issues found or error fetching issues") ]).

Definition no_snapshot : reply :=
  Reply (VDict [ ("success", VBool false);
                 ("message", VStr "Could not retrieve snapshot ID") ]).


Definition no_pages (issue_id : Z) : reply :=
  Reply (VDict [ ("success", VBool false);
                 ("message",
                   VStr ("No data found for issue ID " ++ PyStr.of_int issue_id)) ]).

Definition pages_found (pages : list value) (total issue_name snapshot_id : value)
  : reply :=
  Reply (VDict [ ("success", VBool true); ("data", VList pages);
                 ("total", total); ("issue_name", issue_name);
                 ("snapshot_id", snapshot_id) ]).

(** The project id as it is put into a URL: the text [None] stands for a
    missing id. *)
Definition project_text (project_id : option string) : string :=
  match project_id with
  | Some p => p
  | None => "None"
  end.

(** The records of a summary whose sections list these entries. *)
Definition records_of (errors warnings notices : list entry) : list value :=
  (emitted "Error" errors ++ emitted "Warning" warnings
   ++ emitted "Notice" notices)%list.

(** The issue [id] counts at least one page in one of the sections. *)
Definition reported (id : Z) (errors warnings notices : list entry) : bool :=
  existsb (fun e => Z.eqb (entry_id e) id)
          (filter counted (errors ++ warnings ++ notices)).

(** The first [n] header fields, which are the ones that meet a value. *)
Definition paired_headers (headers values : list string) : list string :=
  firstn (length values) headers.

(** A provider that serves the records [pages p] for page [p] and reports
    no total. *)
Definition untotalled_provider (pages : Z -> list value)
  : request -> result response :=
  fun r =>
    match dict_get (req_params r) "page" with
    | Some (VInt p) =>
        Ok (Response 200 "OK" (req_url r) "" (Ok (VDict [("data", VList (pages p))])))
    | _ => Raise (Exn "ConnectionError" "no such page")
    end.

(** A provider that serves its pages like [paged_provider] and fails with
    [e] on page [bad]. *)
Definition failing_provider (pages : Z -> list value) (total : Z) (bad : Z)
           (e : exn) : request -> result response :=
  fun r =>
    match dict_get (req_params r) "page" with
    | Some (VInt p) => if (p =? bad)%Z then Raise e else paged_provider pages total r
    | _ => Raise (Exn "ConnectionError" "no such page")
    end.

Definition key_eqb (a b : Z * Z) : bool :=
  (fst a =? fst b)%Z && (snd a =? snd b)%Z.

(** The key of the sort is [k]. *)
Definition has_key (k : Z * Z) (x : value) : bool :=
  match AuditContext.sort_key x with
  | Ok k' => key_eqb k' k
  | Raise _ => false
  end.

(** [a] may stand before [b] in the sorted list. *)
Definition key_ordered (a b : value) : Prop :=
  exists ka kb,
    AuditContext.sort_key a = Ok ka /\ AuditContext.sort_key b = Ok kb
    /\ Py2.key_le ka kb = true.

Definition is_dict (v : value) : Prop := exists d, v = VDict d.

(** The count of a record. *)
Definition count_of (record : value) : Z :=
  match record with
  | VDict d => match dict_get d "count" with Some (VInt z) => z | _ => 0%Z end
  | _ => 0%Z
  end.

(** [a] ranks before [b], or beside it: a more severe section, or the same
    severity and at least as many pages. *)
Definition ranks_before (a b : value) : Prop :=
  severity_rank a < severity_rank b
  \/ (severity_rank a = severity_rank b /\ (count_of b <= count_of a)%Z).

(** The field holds one of the statuses. *)
Definition status_among (d : dict) (field : string) (statuses : list string)
  : Prop :=
  exists s, dict_get d field = Some (VStr s) /\ In s statuses.

(** The field holds an integer that is not negative. *)
Definition count_field (d : dict) (field : string) : Prop :=
  exists n, dict_get d field = Some (VInt n) /\ (0 <= n)%Z.

(** The head of the audit context, from the four counts. *)
Definition audit_head (total errors warnings notices : Z) : string :=
  AuditContext.NL ++ "SITE AUDIT DATA:" ++ AuditContext.NL
  ++ "- Total Issues: " ++ PyStr.of_int total ++ AuditContext.NL
  ++ "- Errors: " ++ PyStr.of_int errors ++ " critical issues" ++ AuditContext.NL
  ++ "- Warnings: " ++ PyStr.of_int warnings ++ " issues" ++ AuditContext.NL
  ++ "- Notices: " ++ PyStr.of_int notices ++ " minor issues"
  ++ AuditContext.NL ++ AuditContext.NL
  ++ "Top Critical Issues:" ++ AuditContext.NL.

(** The line of the audit context for a record of a summary. *)
Definition record_line (record : value) : string :=
  match record with
  | VDict d =>
      match dict_get d "severity", dict_get d "issue_name", dict_get d "count" with
      | Some (VStr severity), Some (VStr name), Some (VInt count) =>
          "- [" ++ severity ++ "] " ++ name ++ ": " ++ PyStr.of_int count
          ++ " pages affected" ++ AuditContext.NL
      | _, _, _ => ""
      end
  | _ => ""
  end.

Definition lines_text (lines : list string) : string :=
  fold_right String.append "" lines.

(** An entry of a section without its id or without its count. *)
Definition lacks_field (v : value) : Prop :=
  exists d, v = VDict d
            /\ (dict_get d "id" = None \/ dict_get d "count" = None).

(** A record as [get_all_issues_summary] builds them under [severity]: the
    five fields, a name that is not empty, a count above zero. *)
Definition is_record_of (severity : string) (v : value) : Prop :=
  exists id name count delta,
    v = VDict [ ("issue_id", id); ("issue_name", VStr name);
                ("severity", VStr severity); ("count", count);
                ("delta", delta) ]
    /\ name <> ""
    /\ Py.gt_zero count = Ok true.

(** Floating-point numbers cut down to the whole numbers written in
    decimal digits; enough to run examples. *)
Module WholeFloat.

Fixpoint digits (s : string) (acc : Z) : option Z :=
  match s with
  | EmptyString => Some acc
  | String c s' =>
      let n := nat_of_ascii c in
      if ((48 <=? n) && (n <=? 57))%nat
      then digits s' (10 * acc + Z.of_nat (n - 48))%Z
      else None
  end.

Definition of_str (s : string) : result Z :=
  match s, digits s 0%Z with
  | String _ _, Some z => Ok z
  | _, _ => Raise (Exn "ValueError"
                       ("could not convert string to float: " ++ PyFmt.repr_str s))
  end.

Definition api : FloatAPI :=
  {| pyfloat := Z;
     float_of_str := of_str;
     float_of_int := fun z => Ok z;
     float_lt := Z.ltb |}.

End WholeFloat.

Module Cases.

(** The number of code points from 128 on at the head of the text. *)
Fixpoint wide_run (s : string) : nat :=
  match s with
  | String c s' => if (128 <=? nat_of_ascii c)%nat then S (wide_run s') else 0
  | EmptyString => 0
  end.

(** [line.encode('ascii')], as far as its outcome goes: the error names
    the first code points that have no code. *)
Fixpoint encode_ascii (line : string) (position : nat) : result unit :=
  match line with
  | EmptyString => Ok tt
  | String c rest =>
      let n := nat_of_ascii c in
      if (n <? 128)%nat then encode_ascii rest (S position)
      else
        let start := PyStr.of_int (Z.of_nat position) in
        let run := wide_run line in
        Raise (Exn "UnicodeEncodeError"
                   ("'ascii' codec can't encode "
                    ++ (if (run =? 1)%nat
                        then "character '"
                             ++ String PyFmt.BACKSLASH
                                  (String "x" (String (PyFmt.hex_digit (n / 16))
                                     (String (PyFmt.hex_digit (n mod 16)) "")))
                             ++ "' in position " ++ start
                        else "characters in position " ++ start ++ "-"
                             ++ PyStr.of_int (Z.of_nat (position + run - 1)))
                    ++ ": ordinal not in range(128)"))
  end.

(** A console whose encoding is ASCII. *)
Definition ascii_terminal : Console :=
  {| print := fun line => encode_ascii line 0 |}.

(** The provider is reached through a proxy that answers 404 with a
    reason phrase in French, [Non trouv] and e with an acute accent. *)
Definition localized_network : request -> result response :=
  fun r => Ok (Response 404 ("Non trouv" ++ String "233"%char "")
                        (req_url r) "" Samples.no_json).

(** A domain with a letter u with two dots, which begins with [http]. *)
Definition UMLAUT_DOMAIN : string :=
  "http-m" ++ String "252"%char "nchen.de".

(** What [requests.get] raises for a URL without a scheme. *)
Definition missing_schema : exn :=
  Exn "MissingSchema"
      ("Invalid URL '" ++ UMLAUT_DOMAIN
       ++ "': No scheme supplied. Perhaps you meant https://"
       ++ UMLAUT_DOMAIN ++ "?").

Definition schema_network : request -> result response :=
  fun _ => Raise missing_schema.

(** What [print] raises on the ASCII console for the line that reports
    that failure. *)
Definition umlaut_error : exn :=
  Exn "UnicodeEncodeError"
      ("'ascii' codec can't encode character '" ++ String PyFmt.BACKSLASH "xfc"
       ++ "' in position 32: ordinal not in range(128)").

(** What [print] raises on the ASCII console for the line that reports
    that reply. *)
Definition localized_error : exn :=
  Exn "UnicodeEncodeError"
      ("'ascii' codec can't encode character '" ++ String PyFmt.BACKSLASH "xe9"
       ++ "' in position 58: ordinal not in range(128)").

(** Three referring domains with their scores. *)
Definition refdomains_body : string :=
  "domain_ascore;domain" ++ String PyStr.LF "12;a.example"
  ++ String PyStr.LF "45;b.example" ++ String PyStr.LF "80;c.example".

(** What [get_referring_domains] answers for them. *)
Definition refdomains_reply : value :=
  VDict
    [ ("success", VBool true);
      ("data",
        VList [ VDict [("domain_ascore", VStr "12"); ("domain", VStr "a.example")];
                VDict [("domain_ascore", VStr "45"); ("domain", VStr "b.example")];
                VDict [("domain_ascore", VStr "80"); ("domain", VStr "c.example")] ]);
      ("analysis",
        VDict [ ("total", VInt 3); ("toxic", VInt 1);
                ("potentially_toxic", VInt 1); ("healthy", VInt 1) ]) ].

(** One referring domain. *)
Definition one_refdomain_body : string :=
  "domain_ascore;domain" ++ String PyStr.LF "12;a.example".

Definition domain_request : DomainRequest.t :=
  DomainRequest.Make "example.com" "us".

(** A data line that is shorter and one that is longer than the header. *)
Definition ragged_header : list string := ["a"; "b"; "c"].

(** The snapshot answers with the audit of the specification's example;
    the pages of issue 3 are those of [Samples.pages_237]. *)
Definition audit_site : request -> result response :=
  fun r =>
    match dict_get (req_params r) "page" with
    | Some _ => paged_provider Samples.pages_237 237 r
    | None => Samples.audit_network r
    end.

Definition details_request : SiteAuditRequest.t :=
  SiteAuditRequest.Make (Some "26460775") (Some 3%Z) 100.

(** An audit whose second error has no count. *)
Definition broken_audit : dict :=
  [ ("snapshot_id", VStr "S1");
    ("errors", VList [ VDict [("id", VInt 3); ("count", VInt 5)];
                       VDict [("id", VInt 8)] ]) ].

Definition broken_audit_network : request -> result response :=
  fun _ => Ok (Samples.ok_response "" (Ok (VDict broken_audit))).

(** Records in the order of a summary, with their counts. *)
Definition issues : list value :=
  [ issue_record "Error" (Entry 3 5 None);
    issue_record "Error" (Entry 8 40 None);
    issue_record "Warning" (Entry 101 2 (Some (-1)%Z));
    issue_record "Notice" (Entry 201 7 None);
    issue_record "Warning" (Entry 103 2 None) ].

End Cases.

(* ===================================================================== *)
(** * Strings: splitting and joining *)
(* ===================================================================== *)

Lemma split_not_nil (sep : ascii) (s : string) : PyStr.split sep s <> [].
Proof.
  destruct s as [|c s]; simpl; [discriminate|].
  destruct (Ascii.eqb c sep); [discriminate|].
  destruct (PyStr.split sep s); discriminate.
Qed.

Lemma split_length (sep : ascii) (s : string) : 1 <= length (PyStr.split sep s).
Proof.
  pose proof (split_not_nil sep s) as H.
  destruct (PyStr.split sep s); [congruence | simpl; lia].
Qed.

(** Joining the pieces gives the string back. *)
Lemma join_split (sep : ascii) (s : string) :
  PyStr.join sep (PyStr.split sep s) = s.
Proof.
  induction s as [|c s IH]; simpl; [reflexivity|].
  destruct (Ascii.eqb_spec c sep) as [->|Hne].
  - pose proof (split_not_nil sep s) as Hnil.
    destruct (PyStr.split sep s) as [|h t] eqn:E; [congruence|].
    simpl. f_equal. exact IH.
  - pose proof (split_not_nil sep s) as Hnil.
    destruct (PyStr.split sep s) as [|h t] eqn:E; [congruence|].
    destruct t as [|h' t]; simpl in *; rewrite <- IH; reflexivity.
Qed.

(** No piece holds the separator. *)
Lemma split_no_sep (sep : ascii) (s : string) :
  Forall (no_char sep) (PyStr.split sep s).
Proof.
  induction s as [|c s IH]; simpl.
  - constructor; [intros [] | constructor].
  - destruct (Ascii.eqb_spec c sep) as [->|Hne].
    + constructor; [intros [] | exact IH].
    + destruct (PyStr.split sep s) as [|h t]; [constructor; [|constructor]|].
      * unfold no_char; simpl. intros [H|[]]; congruence.
      * inversion IH as [|? ? Hh Ht]; subst. constructor; [|exact Ht].
        unfold no_char in *; simpl. intros [H|H]; [congruence | tauto].
Qed.

Lemma split_whole (sep : ascii) (x : string) :
  no_char sep x -> PyStr.split sep x = [x].
Proof.
  unfold no_char. induction x as [|c x IH]; simpl; intros H; [reflexivity|].
  destruct (Ascii.eqb_spec c sep) as [->|Hne]; [tauto|].
  rewrite IH by tauto. reflexivity.
Qed.

Lemma split_app (sep : ascii) (x rest : string) :
  no_char sep x ->
  PyStr.split sep (x ++ String sep rest) = x :: PyStr.split sep rest.
Proof.
  unfold no_char. induction x as [|c x IH]; simpl; intros H.
  - rewrite Ascii.eqb_refl. reflexivity.
  - destruct (Ascii.eqb_spec c sep) as [->|Hne]; [tauto|].
    rewrite IH by tauto. reflexivity.
Qed.

(** Splitting what was joined gives the pieces back. *)
Lemma split_join (sep : ascii) (l : list string) :
  l <> [] -> Forall (no_char sep) l -> PyStr.split sep (PyStr.join sep l) = l.
Proof.
  induction l as [|x l IH]; intros Hnil Hall; [congruence|].
  inversion Hall as [|? ? Hx Hl]; subst.
  destruct l as [|y l].
  - simpl. apply split_whole; assumption.
  - change (PyStr.join sep (x :: y :: l))
      with (x ++ String sep (PyStr.join sep (y :: l))).
    rewrite split_app by assumption.
    rewrite IH; [reflexivity | discriminate | assumption].
Qed.

Lemma no_char_app (c : ascii) (a b : string) :
  no_char c a -> no_char c b -> no_char c (a ++ b).
Proof.
  unfold no_char. induction a as [|x a IH]; cbn; [tauto|].
  intros Ha Hb [H|H]; [tauto|]. apply IH; tauto.
Qed.

Lemma no_char_join (c sep : ascii) (l : list string) :
  c <> sep -> Forall (no_char c) l -> no_char c (PyStr.join sep l).
Proof.
  intros Hne. induction 1 as [|x l Hx Hl IH]; [intros []|].
  destruct l as [|y l]; [exact Hx|].
  change (PyStr.join sep (x :: y :: l))
    with (x ++ String sep (PyStr.join sep (y :: l))).
  apply no_char_app; [exact Hx|].
  unfold no_char in *. cbn [list_ascii_of_string In].
  intros [H|H]; [congruence | tauto].
Qed.

(** A field cut out of a text holds none of the characters the text lacks. *)
Lemma split_keeps (c sep : ascii) (s : string) :
  no_char c s -> Forall (no_char c) (PyStr.split sep s).
Proof.
  unfold no_char. induction s as [|x s IH]; cbn; intros H.
  - constructor; [intros [] | constructor].
  - assert (Hs : ~ In c (list_ascii_of_string s)) by tauto.
    specialize (IH Hs).
    destruct (Ascii.eqb x sep).
    + constructor; [intros [] | exact IH].
    + destruct (PyStr.split sep s) as [|h t]; [constructor; [|constructor]|].
      * cbn. intros [E|[]]. apply H. left. exact E.
      * inversion IH as [|? ? Hh Ht]; subst. constructor; [|exact Ht].
        cbn. intros [E|E]; [apply H; left; exact E | exact (Hh E)].
Qed.

(* ===================================================================== *)
(** * Strings: white space at the ends *)
(* ===================================================================== *)

(** [str.isspace] accepts the code points of [WHITE_SPACE] and no other. *)
Lemma is_space_white (c : ascii) : PyStr.is_space c = white c.
Proof. destruct c as [[] [] [] [] [] [] [] []]; reflexivity. Qed.

Lemma blank_cons (c : ascii) (s : string) :
  blank (String c s) <-> white c = true /\ blank s.
Proof.
  unfold blank. cbn [list_ascii_of_string]. split.
  - intros H. inversion H; subst. split; assumption.
  - intros [H1 H2]. constructor; assumption.
Qed.

Lemma blank_nil : blank "".
Proof. constructor. Qed.

Lemma lstrip_blank (s : string) : blank s -> PyStr.lstrip s = "".
Proof.
  induction s as [|c s IH]; [reflexivity|].
  intros H. apply blank_cons in H as [Hc Hs].
  cbn [PyStr.lstrip]. rewrite is_space_white, Hc. exact (IH Hs).
Qed.

Lemma rstrip_blank (s : string) : blank s -> PyStr.rstrip s = "".
Proof.
  induction s as [|c s IH]; [reflexivity|].
  intros H. apply blank_cons in H as [Hc Hs].
  cbn [PyStr.rstrip]. rewrite (IH Hs), is_space_white, Hc. reflexivity.
Qed.

(** White space before a text is taken off. *)
Lemma lstrip_lead (lead s : string) :
  blank lead -> PyStr.lstrip (lead ++ s) = PyStr.lstrip s.
Proof.
  induction lead as [|c lead IH]; [reflexivity|].
  intros H. apply blank_cons in H as [Hc Hl].
  cbn [append PyStr.lstrip]. rewrite is_space_white, Hc. exact (IH Hl).
Qed.

(** White space after a text is taken off. *)
Lemma rstrip_trail (s trail : string) :
  blank trail -> PyStr.rstrip (s ++ trail) = PyStr.rstrip s.
Proof.
  intros H. induction s as [|c s IH]; [exact (rstrip_blank trail H)|].
  cbn [append PyStr.rstrip]. rewrite IH. reflexivity.
Qed.

Lemma rstrip_trimmed (s : string) :
  match last_char s with
  | Some c => white c = false
  | None => True
  end -> PyStr.rstrip s = s.
Proof.
  induction s as [|c s IH]; [reflexivity|].
  destruct s as [|c' s].
  - cbn [last_char PyStr.rstrip]. rewrite is_space_white. intros ->. reflexivity.
  - intros H. change (last_char (String c (String c' s)))
      with (last_char (String c' s)) in H.
    cbn [PyStr.rstrip] in IH |- *. rewrite (IH H). reflexivity.
Qed.

Lemma last_char_some (c : ascii) (s : string) : last_char (String c s) <> None.
Proof.
  revert c. induction s as [|c' s IH]; intros c; [discriminate|].
  exact (IH c').
Qed.

(** A text without white space at its ends is left as it is. *)
Lemma strip_trimmed (s : string) : trimmed s = true -> PyStr.strip s = s.
Proof.
  unfold trimmed, PyStr.strip. destruct s as [|c s]; [reflexivity|].
  destruct (last_char (String c s)) as [c'|] eqn:E.
  - intros H. apply andb_true_iff in H as [H1 H2].
    apply negb_true_iff in H1, H2. cbn [PyStr.lstrip].
    rewrite is_space_white, H1.
    apply rstrip_trimmed. rewrite E. exact H2.
  - exfalso. exact (last_char_some c s E).
Qed.

(** White space around a text that has none at its ends is taken off, and
    nothing else. *)
Lemma strip_padded (lead core trail : string) :
  blank lead -> blank trail -> trimmed core = true ->
  PyStr.strip (lead ++ core ++ trail) = core.
Proof.
  intros Hl Ht Hc. unfold PyStr.strip. rewrite (lstrip_lead _ _ Hl).
  destruct core as [|c core].
  - cbn [append]. rewrite (lstrip_blank _ Ht). reflexivity.
  - pose proof (strip_trimmed _ Hc) as Hs. unfold PyStr.strip in Hs.
    unfold trimmed in Hc.
    destruct (last_char (String c core)) as [c'|] eqn:E;
      [|exfalso; exact (last_char_some c core E)].
    apply andb_true_iff in Hc as [H1 _]. apply negb_true_iff in H1.
    cbn [append PyStr.lstrip] in Hs |- *. rewrite is_space_white, H1 in Hs |- *.
    change (String c (core ++ trail)) with (String c core ++ trail).
    rewrite (rstrip_trail _ _ Ht). exact Hs.
Qed.

(** What [lstrip] takes off is white space. *)
Lemma lstrip_split (s : string) :
  exists lead, s = lead ++ PyStr.lstrip s /\ blank lead.
Proof.
  induction s as [|c s (lead & E & H)]; [exists ""; split; [reflexivity | exact blank_nil]|].
  cbn [PyStr.lstrip]. destruct (PyStr.is_space c) eqn:Hc.
  - exists (String c lead). split; [cbn [append]; rewrite <- E; reflexivity|].
    apply blank_cons. rewrite <- is_space_white. split; assumption.
  - exists "". split; [reflexivity | exact blank_nil].
Qed.

(** What [rstrip] takes off is white space. *)
Lemma rstrip_split (s : string) :
  exists trail, s = PyStr.rstrip s ++ trail /\ blank trail.
Proof.
  induction s as [|c s (trail & E & H)]; [exists ""; split; [reflexivity | exact blank_nil]|].
  cbn [PyStr.rstrip]. destruct (PyStr.rstrip s) as [|c' r] eqn:Hr.
  - destruct (PyStr.is_space c) eqn:Hc.
    + exists (String c trail). split; [cbn [append] in E |- *; rewrite <- E; reflexivity|].
      apply blank_cons. rewrite <- is_space_white. split; assumption.
    + exists trail. split; [cbn [append] in E |- *; rewrite <- E; reflexivity | exact H].
  - exists trail. split; [|exact H].
    cbn [append] in E |- *. rewrite <- E. reflexivity.
Qed.

Lemma lstrip_head (s : string) :
  match PyStr.lstrip s with
  | String c _ => white c = false
  | EmptyString => True
  end.
Proof.
  induction s as [|c s IH]; [exact I|].
  cbn [PyStr.lstrip]. destruct (PyStr.is_space c) eqn:Hc; [exact IH|].
  rewrite <- is_space_white. exact Hc.
Qed.

Lemma rstrip_last (s : string) :
  match last_char (PyStr.rstrip s) with
  | Some c => white c = false
  | None => True
  end.
Proof.
  induction s as [|c s IH]; [exact I|].
  cbn [PyStr.rstrip]. destruct (PyStr.rstrip s) as [|c' r] eqn:Hr.
  - destruct (PyStr.is_space c) eqn:Hc; [exact I|].
    cbn [last_char]. rewrite <- is_space_white. exact Hc.
  - exact IH.
Qed.

Lemma rstrip_head (c : ascii) (s : string) :
  white c = false -> exists r, PyStr.rstrip (String c s) = String c r.
Proof.
  intros Hc. cbn [PyStr.rstrip]. destruct (PyStr.rstrip s) as [|c' r].
  - rewrite is_space_white, Hc. eexists. reflexivity.
  - eexists. reflexivity.
Qed.

(** What [strip] leaves has no white space at its ends. *)
Lemma strip_is_trimmed (s : string) : trimmed (PyStr.strip s) = true.
Proof.
  unfold PyStr.strip. pose proof (lstrip_head s) as Hh.
  pose proof (rstrip_last (PyStr.lstrip s)) as Hl.
  destruct (PyStr.lstrip s) as [|c u]; [reflexivity|].
  destruct (rstrip_head c u Hh) as [r Hr]. rewrite Hr in Hl |- *.
  unfold trimmed. destruct (last_char (String c r)) as [c'|]; [|reflexivity].
  rewrite Hh, Hl. reflexivity.
Qed.

(** Every text is white space, what [strip] leaves of it, and white space. *)
Lemma strip_split (s : string) :
  exists lead trail,
    s = lead ++ PyStr.strip s ++ trail /\ blank lead /\ blank trail.
Proof.
  destruct (lstrip_split s) as (lead & El & Hl).
  destruct (rstrip_split (PyStr.lstrip s)) as (trail & Et & Ht).
  exists lead, trail. unfold PyStr.strip. rewrite <- Et.
  split; [exact El|]. split; assumption.
Qed.

(* ===================================================================== *)
(** * Dictionaries *)
(* ===================================================================== *)

Lemma dict_get_set (d : dict) (k k' : string) (v : value) :
  dict_get (dict_set d k v) k' =
  if String.eqb k k' then Some v else dict_get d k'.
Proof.
  induction d as [|[k0 v0] d IH]; simpl.
  - reflexivity.
  - destruct (String.eqb_spec k0 k) as [->|Hne]; simpl.
    + destruct (String.eqb k k'); reflexivity.
    + rewrite IH. destruct (String.eqb_spec k0 k') as [->|Hne'].
      * destruct (String.eqb_spec k k'); [congruence | reflexivity].
      * reflexivity.
Qed.

Lemma dict_get_fold (pairs : list (string * value)) (d : dict) (k : string) :
  dict_get (fold_left (fun d kv => dict_set d (fst kv) (snd kv)) pairs d) k =
  match assoc_last pairs k with
  | Some v => Some v
  | None => dict_get d k
  end.
Proof.
  revert d. induction pairs as [|[k0 v0] pairs IH]; intros d; simpl.
  - reflexivity.
  - rewrite IH. destruct (assoc_last pairs k); [reflexivity|].
    simpl. rewrite dict_get_set. destruct (String.eqb k0 k); reflexivity.
Qed.

(** Looking a key up in [dict(pairs)] gives the value of its last pair. *)
Lemma dict_get_dict_of (pairs : list (string * value)) (k : string) :
  dict_get (dict_of pairs) k = assoc_last pairs k.
Proof.
  unfold dict_of. rewrite dict_get_fold.
  destruct (assoc_last pairs k); reflexivity.
Qed.

Lemma assoc_last_none (hs vs : list string) (k : string) :
  (forall j, j < length vs -> nth_error hs j <> Some k) ->
  assoc_last (combine hs (map VStr vs)) k = None.
Proof.
  revert vs. induction hs as [|h hs IH]; intros vs H; [reflexivity|].
  destruct vs as [|v vs]; [reflexivity|]. simpl.
  rewrite IH.
  - destruct (String.eqb_spec h k) as [->|Hne]; [|reflexivity].
    exfalso. apply (H 0); [simpl; lia | reflexivity].
  - intros j Hj. apply (H (S j)). simpl; lia.
Qed.

(** Fields are aligned by position: the header at index [i] is mapped to the
    value at index [i], unless the same name heads a later value. *)
Lemma dict_zip_index (hs vs : list string) (i : nat) (h v : string) :
  nth_error hs i = Some h ->
  nth_error vs i = Some v ->
  (forall j, i < j -> j < length vs -> nth_error hs j <> Some h) ->
  dict_get (dict_zip hs vs) h = Some (VStr v).
Proof.
  unfold dict_zip. rewrite dict_get_dict_of.
  revert vs i. induction hs as [|h0 hs IH]; intros vs i Hh Hv Hlast.
  - destruct i; discriminate.
  - destruct vs as [|v0 vs]; [destruct i; discriminate|].
    destruct i as [|i]; simpl in *.
    + injection Hh as ->. injection Hv as ->.
      rewrite assoc_last_none.
      * rewrite String.eqb_refl. reflexivity.
      * intros j Hj. apply (Hlast (S j)); lia.
    + rewrite (IH vs i Hh Hv); [reflexivity|].
      intros j Hij Hj. apply (Hlast (S j)); lia.
Qed.

(** A name that heads no value is not a key. *)
Lemma dict_zip_absent (hs vs : list string) (k : string) :
  (forall j, j < length vs -> nth_error hs j <> Some k) ->
  dict_get (dict_zip hs vs) k = None.
Proof.
  intros H. unfold dict_zip. rewrite dict_get_dict_of.
  apply assoc_last_none; assumption.
Qed.

(* ===================================================================== *)
(** * parse_response *)
(* ===================================================================== *)

(** Parsing the flat text of a table gives its rows back, each zipped with
    the header. *)
Lemma parse_response_rendered (header : list string) (rows : list (list string)) :
  header <> [] ->
  Forall (fun row => row <> []) rows ->
  Forall (Forall field_ok) (header :: rows) ->
  trimmed (render_table header rows) = true ->
  parse_response (render_table header rows) =
  match rows with
  | [] => VNone
  | [row] => VDict (dict_zip header row)
  | _ => VList (map (fun row => VDict (dict_zip header row)) rows)
  end.
Proof.
  intros Hh Hrows Hfields Htrim.
  assert (Hlines : PyStr.split PyStr.LF (PyStr.strip (render_table header rows))
                   = map (PyStr.join PyStr.SEMI) (header :: rows)).
  { rewrite (strip_trimmed _ Htrim). unfold render_table.
    apply split_join; [discriminate|].
    apply Forall_map. eapply Forall_impl; [|exact Hfields].
    intros fields Hf. apply no_char_join; [discriminate|].
    eapply Forall_impl; [|exact Hf]. intros f [_ H]. exact H. }
  assert (Hsplit : forall fields,
             fields <> [] -> Forall field_ok fields ->
             PyStr.split PyStr.SEMI (PyStr.join PyStr.SEMI fields) = fields).
  { intros fields Hne Hf. apply split_join; [exact Hne|].
    eapply Forall_impl; [|exact Hf]. intros f [H _]. exact H. }
  inversion Hfields as [|? ? Hhf Hrf]; subst.
  unfold parse_response. rewrite Hlines.
  destruct rows as [|r1 [|r2 rows]].
  - reflexivity.
  - inversion Hrows as [|? ? Hr1 _]; inversion Hrf as [|? ? Hf1 _]; subst.
    cbn [map length Nat.ltb Nat.leb Nat.eqb nth].
    rewrite (Hsplit header Hh Hhf), (Hsplit r1 Hr1 Hf1). reflexivity.
  - rewrite map_cons. cbn [length tl nth]. rewrite length_map.
    cbn [length Nat.ltb Nat.leb Nat.eqb].
    rewrite (Hsplit header Hh Hhf). f_equal.
    rewrite map_map. apply map_ext_in. intros row Hin.
    rewrite Forall_forall in Hrows, Hrf.
    rewrite (Hsplit row (Hrows row Hin) (Hrf row Hin)). reflexivity.
Qed.

(** [parse_response] looks at what [strip] leaves of the text and at
    nothing else. *)
Lemma parse_response_strip (a b : string) :
  PyStr.strip a = PyStr.strip b -> parse_response a = parse_response b.
Proof. unfold parse_response. intros ->. reflexivity. Qed.

(** Every text without white space at its ends is the flat text of a table. *)
Lemma render_table_split (core : string) :
  let lines := map (PyStr.split PyStr.SEMI) (PyStr.split PyStr.LF core) in
  core = render_table (hd [] lines) (tl lines)
  /\ hd [] lines <> []
  /\ Forall (fun row => row <> []) (tl lines)
  /\ Forall (Forall field_ok) (hd [] lines :: tl lines).
Proof.
  cbv zeta.
  pose proof (split_not_nil PyStr.LF core) as Hnil.
  pose proof (split_no_sep PyStr.LF core) as Hlf.
  pose proof (join_split PyStr.LF core) as Hjoin.
  destruct (PyStr.split PyStr.LF core) as [|l ls]; [congruence|].
  cbn [map hd tl].
  assert (Hlines : forall l0 : list string,
             map (PyStr.join PyStr.SEMI) (map (PyStr.split PyStr.SEMI) l0) = l0).
  { intros l0. rewrite map_map. rewrite <- (map_id l0) at 2.
    apply map_ext. intros x. apply join_split. }
  split.
  { unfold render_table. rewrite <- (map_cons (PyStr.split PyStr.SEMI) l ls).
    rewrite Hlines. symmetry. exact Hjoin. }
  split; [apply split_not_nil|].
  split.
  { apply Forall_map, Forall_forall. intros x _. apply split_not_nil. }
  rewrite <- (map_cons (PyStr.split PyStr.SEMI) l ls).
  apply Forall_map. eapply Forall_impl; [|exact Hlf].
  intros x Hx. pose proof (split_no_sep PyStr.SEMI x) as H1.
  pose proof (split_keeps PyStr.LF PyStr.SEMI x Hx) as H2.
  rewrite Forall_forall in H1, H2. apply Forall_forall.
  intros f Hf. split; [exact (H1 f Hf) | exact (H2 f Hf)].
Qed.

(** C3. [parse_response] is a function of the text: it returns a value for
    every text and raises nothing. Every text is the flat text of a table,
    a header and its data lines with their fields joined by semicolons and
    the lines joined by line feeds, with white space before and after it.
    Whatever that white space is, the text is parsed into [None] when the
    table has no data line, into the mapping of the data line under the
    header when it has exactly one, and into the list of the mappings of
    its [N] data lines, in their order and each zipped with the header on
    its own, when it has two or more. The mapping of a line is the zip of
    the header fields and the data fields, aligned by index: the header at
    an index is mapped to the value at that index unless the same name
    heads a later value, and a name that heads no value is not a key. *)
Theorem parse_response_spec :
  (forall text, exists lead trail header rows,
      text = lead ++ render_table header rows ++ trail
      /\ blank lead /\ blank trail
      /\ trimmed (render_table header rows) = true
      /\ header <> []
      /\ Forall (fun row => row <> []) rows
      /\ Forall (Forall field_ok) (header :: rows))
  /\ (forall lead trail header rows,
        blank lead -> blank trail ->
        trimmed (render_table header rows) = true ->
        header <> [] ->
        Forall (fun row => row <> []) rows ->
        Forall (Forall field_ok) (header :: rows) ->
        parse_response (lead ++ render_table header rows ++ trail) =
        match rows with
        | [] => VNone
        | [row] => VDict (dict_zip header row)
        | _ => VList (map (fun row => VDict (dict_zip header row)) rows)
        end)
  /\ (forall header row i h v,
        nth_error header i = Some h ->
        nth_error row i = Some v ->
        (forall j, i < j -> j < length row -> nth_error header j <> Some h) ->
        dict_get (dict_zip header row) h = Some (VStr v))
  /\ (forall header row k,
        (forall j, j < length row -> nth_error header j <> Some k) ->
        dict_get (dict_zip header row) k = None).
Proof.
  split; [|split; [|split]].
  - intros text.
    destruct (strip_split text) as (lead & trail & E & Hl & Ht).
    destruct (render_table_split (PyStr.strip text)) as (Hr & Hh & Hrows & Hf).
    exists lead, trail. do 2 eexists.
    split; [rewrite <- Hr; exact E|].
    split; [exact Hl|]. split; [exact Ht|].
    split; [rewrite <- Hr; apply strip_is_trimmed|].
    split; [exact Hh|]. split; [exact Hrows | exact Hf].
  - intros lead trail header rows Hl Ht Htrim Hh Hrows Hf.
    rewrite <- (parse_response_rendered header rows Hh Hrows Hf Htrim).
    apply parse_response_strip.
    rewrite (strip_padded _ _ _ Hl Ht Htrim). symmetry.
    apply strip_trimmed. exact Htrim.
  - intros header row i h v Hh Hv Hlast.
    eapply dict_zip_index; eassumption.
  - exact dict_zip_absent.
Qed.

(** A header and one data line give one mapping, also when a line feed
    follows the data line; a header and two data lines give the list of
    two; a header alone gives [None]. *)
Lemma parse_response_spec_witness :
  parse_response (Samples.table1 ++ String PyStr.LF "")
  = VDict [("Domain", VStr "example.com"); ("Rank", VStr "5")]
  /\ parse_response (String " "%char Samples.table2)
     = VList [ VDict [("Domain", VStr "example.com"); ("Rank", VStr "5")];
               VDict [("Domain", VStr "example.org"); ("Rank", VStr "7")] ]
  /\ parse_response "Domain;Rank" = VNone.
Proof.
  destruct parse_response_spec as (_ & Hparse & _ & _).
  assert (Hfield : forall f, (forall c, In c (list_ascii_of_string f) ->
                                        c <> PyStr.SEMI /\ c <> PyStr.LF) ->
                             field_ok f).
  { intros f H. split; intros Hin; apply H in Hin; tauto. }
  assert (Hb : blank (String PyStr.LF "")) by (repeat constructor).
  assert (Hs : blank " ") by (repeat constructor).
  split; [|split].
  - refine (Hparse "" (String PyStr.LF "") ["Domain"; "Rank"]
              [["example.com"; "5"]] blank_nil Hb eq_refl _ _ _);
      [discriminate | repeat constructor; discriminate|].
    repeat constructor; apply Hfield; cbn; intros c Hc;
      repeat (destruct Hc as [<-|Hc]; [split; discriminate|]); destruct Hc.
  - refine (Hparse " " "" ["Domain"; "Rank"]
              [["example.com"; "5"]; ["example.org"; "7"]] Hs blank_nil eq_refl _ _ _);
      [discriminate | repeat constructor; discriminate|].
    repeat constructor; apply Hfield; cbn; intros c Hc;
      repeat (destruct Hc as [<-|Hc]; [split; discriminate|]); destruct Hc.
  - refine (Hparse "" "" ["Domain"; "Rank"] [] blank_nil blank_nil eq_refl _ _ _);
      [discriminate | constructor|].
    repeat constructor; apply Hfield; cbn; intros c Hc;
      repeat (destruct Hc as [<-|Hc]; [split; discriminate|]); destruct Hc.
Defined.

(* ===================================================================== *)
(** * Issue summary *)
(* ===================================================================== *)

Lemma ISSUE_MAPPING_get_int (z : Z) :
  ISSUE_MAPPING_get (VInt z) = Ok (VStr (issue_name z)).
Proof.
  unfold ISSUE_MAPPING_get, issue_name.
  destruct (mapping_find ISSUE_MAPPING z); reflexivity.
Qed.

(** The ids of the taxonomy are pairwise distinct, so a lookup does not
    depend on the order of the table. *)
Lemma ISSUE_MAPPING_NoDup : NoDup (map fst ISSUE_MAPPING).
Proof.
  assert (H : forall l : list Z,
             (fix nodup (l : list Z) : bool :=
                match l with
                | [] => true
                | x :: r => negb (existsb (Z.eqb x) r) && nodup r
                end) l = true -> NoDup l).
  { induction l as [|x r IH]; intros E; constructor.
    - apply andb_true_iff in E as [E _]. apply negb_true_iff in E.
      intros Hin. assert (existsb (Z.eqb x) r = true); [|congruence].
      apply existsb_exists. exists x. split; [exact Hin | apply Z.eqb_refl].
    - apply IH. apply andb_true_iff in E as [_ E]. exact E. }
  apply H. vm_compute. reflexivity.
Qed.

Lemma add_issue_describes (severity : string) (acc : list value)
      (v : value) (e : entry) :
  describes v e ->
  add_issue severity acc v =
  Ok (acc ++ (if counted e then [issue_record severity e] else []))%list.
Proof.
  intros (d & -> & Hid & Hcount & Hdelta).
  unfold add_issue, Py.subscript, Py.get, counted, issue_record.
  rewrite Hid, Hcount, Hdelta. cbn [bind result_monad Py.gt_zero].
  destruct (0 <? entry_count e)%Z.
  - rewrite ISSUE_MAPPING_get_int. destruct (entry_delta e); reflexivity.
  - cbn. rewrite app_nil_r. reflexivity.
Qed.

Lemma for_each_emitted (severity : string) (l : list value) (es : list entry) :
  Forall2 describes l es ->
  forall acc,
    for_each (add_issue severity) l acc = Ok (acc ++ emitted severity es)%list.
Proof.
  induction 1 as [|v e l es Hve _ IH]; intros acc.
  - cbn. rewrite app_nil_r. reflexivity.
  - cbn [for_each bind result_monad].
    rewrite (add_issue_describes severity acc v e Hve).
    rewrite IH. unfold emitted. cbn [filter].
    destruct (counted e); cbn [map app]; rewrite <- ?app_assoc, ?app_nil_r;
      reflexivity.
Qed.

Lemma process_section_emitted (section severity : string) (data : dict)
      (es : list entry) (acc : list value) :
  section_is data section es ->
  process_section section severity (VDict data) acc =
  Ok (acc ++ emitted severity es)%list.
Proof.
  unfold section_is, process_section, Py.contains, Py.subscript.
  destruct (dict_get data section) as [v|].
  - intros (l & -> & Hl). cbn [bind result_monad Py.iter].
    apply for_each_emitted. exact Hl.
  - intros ->. cbn. rewrite app_nil_r. reflexivity.
Qed.

Lemma raise_for_status_ok (r : response) :
  status_ok r -> raise_for_status r = Ok tt.
Proof.
  unfold status_ok, raise_for_status. intros H.
  destruct (400 <=? status_code r)%Z eqn:E1;
    destruct (status_code r <? 500)%Z eqn:E2;
    destruct (500 <=? status_code r)%Z eqn:E3;
    destruct (status_code r <? 600)%Z eqn:E4; cbn; try reflexivity;
    exfalso; apply H; lia.
Qed.


(** What a handler that prints gives on a console that writes the line. *)
Lemma handled_prints {con : Console} {A : Type} (label : string) (v : A) (e : exn) :
  is_Exception e = true -> prints (label ++ exn_str e) ->
  handled label v e = Ok v.
Proof. unfold handled, printed, prints. intros -> ->. reflexivity. Qed.

(** A handler that prints returns its value or raises: it returns no other
    value. *)
Lemma handled_value {con : Console} {A : Type} (label : string) (v w : A) (e : exn) :
  handled label v e = Ok w -> w = v.
Proof.
  unfold handled, printed. destruct (is_Exception e); [|discriminate].
  destruct (print _); [|discriminate]. intros H. injection H as <-. reflexivity.
Qed.

(** [raise_for_status] raises nothing that [except Exception] lets through. *)
Lemma raise_for_status_Exception (r : response) (e : exn) :
  raise_for_status r = Raise e -> is_Exception e = true.
Proof.
  unfold raise_for_status.
  destruct ((400 <=? status_code r)%Z && (status_code r <? 500)%Z);
    [intros H; injection H as <-; reflexivity|].
  destruct ((500 <=? status_code r)%Z && (status_code r <? 600)%Z);
    [intros H; injection H as <-; reflexivity | discriminate].
Qed.

(** The two ways of a handler that prints. *)
Ltac handler_cases :=
  try (destruct (is_Exception _);
       [cbn [bind M_monad lift ret]; destruct (print _) as [[]|] |]);
  reflexivity.

Section Summary.

Variable network : request -> result response.
Variable SEMRUSH_API_KEY : option string.
Context {con : Console}.

Let summary := get_all_issues_summary network SEMRUSH_API_KEY.
Let sent := snapshot_request SEMRUSH_API_KEY.
Let LABEL := "Error fetching issues summary: ".

(** The records of a response whose sections list [errors], [warnings]
    and [notices]. *)
Lemma summary_records (project_id : string) (log : list request)
      (r : response) (data : dict) (errors warnings notices : list entry) :
  network (sent project_id) = Ok r ->
  status_ok r ->
  json r = Ok (VDict data) ->
  section_is data "errors" errors ->
  section_is data "warnings" warnings ->
  section_is data "notices" notices ->
  summary project_id log =
  (Ok ((emitted "Error" errors ++ emitted "Warning" warnings
        ++ emitted "Notice" notices)%list,
       match dict_get data "snapshot_id" with Some v => v | None => VNone end),
   (log ++ [sent project_id])%list).
Proof.
  intros Hnet Hst Hjson He Hw Hn.
  unfold summary, get_all_issues_summary, except_Exception.
  cbn [bind M_monad requests_get lift]. fold (sent project_id).
  rewrite Hnet, (raise_for_status_ok r Hst), Hjson.
  cbn [Py.get].
  rewrite (process_section_emitted _ _ _ _ _ He).
  rewrite (process_section_emitted _ _ _ _ _ Hw).
  rewrite (process_section_emitted _ _ _ _ _ Hn).
  cbn [app]. rewrite <- app_assoc.
  destruct (dict_get data "snapshot_id"); reflexivity.
Qed.

(** What the handler of the summary makes of an exception. *)
Lemma summary_handler (e : exn) (log : list request) :
  (if is_Exception e
   then bind (lift (print (LABEL ++ exn_str e)))
             (fun _ => ret (([] : list value), VNone)) log
   else (Raise e, log))
  = (handled LABEL (([] : list value), VNone) e, log).
Proof.
  unfold handled, printed. destruct (is_Exception e); [|reflexivity].
  cbn [bind M_monad lift ret]. destruct (print _) as [[]|]; reflexivity.
Qed.

(** The summary when the request raises. *)
Lemma summary_request_raises (project_id : string) (log : list request) (e : exn) :
  network (sent project_id) = Raise e ->
  summary project_id log
  = (handled LABEL ([], VNone) e, (log ++ [sent project_id])%list).
Proof.
  intros Hnet. unfold summary, get_all_issues_summary, except_Exception.
  cbn [bind M_monad requests_get lift]. fold (sent project_id).
  rewrite Hnet. apply summary_handler.
Qed.

(** The summary when the status is an error status. *)
Lemma summary_status_raises (project_id : string) (log : list request)
      (r : response) (e : exn) :
  network (sent project_id) = Ok r ->
  raise_for_status r = Raise e ->
  summary project_id log
  = (handled LABEL ([], VNone) e, (log ++ [sent project_id])%list).
Proof.
  intros Hnet Hst. unfold summary, get_all_issues_summary, except_Exception.
  cbn [bind M_monad requests_get lift]. fold (sent project_id).
  rewrite Hnet, Hst. apply summary_handler.
Qed.



(** Whatever the provider answers and whatever the outcome, exactly one
    request is sent, and the outcome does not depend on the requests sent
    before. *)
Lemma summary_log (project_id : string) (log : list request) :
  summary project_id log =
  (fst (summary project_id []), (log ++ [sent project_id])%list).
Proof.
  unfold summary, get_all_issues_summary, except_Exception.
  cbn [bind M_monad requests_get lift]. fold (sent project_id).
  destruct (network (sent project_id)) as [r|e]; [|handler_cases].
  destruct (raise_for_status r); [|handler_cases].
  destruct (json r) as [data|e]; [|handler_cases].
  destruct (Py.get data "snapshot_id" VNone); [|handler_cases].
  destruct (process_section "errors" "Error" data []) as [l1|];
    [|handler_cases].
  destruct (process_section "warnings" "Warning" data l1) as [l2|];
    [|handler_cases].
  destruct (process_section "notices" "Notice" data l2);
    [reflexivity | handler_cases].
Qed.

(** A summary that is returned is the outcome of the body, or the empty
    summary of the handler. *)
Lemma summary_returned (project_id : string) (log : list request)
      (issues : list value) (snapshot_id : value) :
  fst (summary project_id log) = Ok (issues, snapshot_id) ->
  (issues = [] /\ snapshot_id = VNone)
  \/ exists r data l1 l2,
       network (sent project_id) = Ok r
       /\ raise_for_status r = Ok tt
       /\ json r = Ok data
       /\ Py.get data "snapshot_id" VNone = Ok snapshot_id
       /\ process_section "errors" "Error" data [] = Ok l1
       /\ process_section "warnings" "Warning" data l1 = Ok l2
       /\ process_section "notices" "Notice" data l2 = Ok issues.
Proof.
  unfold summary, get_all_issues_summary, except_Exception.
  cbn [bind M_monad requests_get lift]. fold (sent project_id).
  assert (Hh : forall e l,
             fst (if is_Exception e
                  then bind (lift (print (LABEL ++ exn_str e)))
                            (fun _ => ret (([] : list value), VNone)) l
                  else (Raise e, l)) = Ok (issues, snapshot_id) ->
             issues = [] /\ snapshot_id = VNone).
  { intros e l. rewrite summary_handler. cbn [fst]. intros H.
    apply handled_value in H. injection H as -> ->. split; reflexivity. }
  destruct (network (sent project_id)) as [r|e]; [|intros H; left; exact (Hh _ _ H)].
  destruct (raise_for_status r) as [[]|e] eqn:Hst;
    [|intros H; left; exact (Hh _ _ H)].
  destruct (json r) as [data|e] eqn:Hjson; [|intros H; left; exact (Hh _ _ H)].
  destruct (Py.get data "snapshot_id" VNone) as [sid|e] eqn:Hsid;
    [|intros H; left; exact (Hh _ _ H)].
  destruct (process_section "errors" "Error" data []) as [l1|e] eqn:H1;
    [|intros H; left; exact (Hh _ _ H)].
  destruct (process_section "warnings" "Warning" data l1) as [l2|e] eqn:H2;
    [|intros H; left; exact (Hh _ _ H)].
  destruct (process_section "notices" "Notice" data l2) as [l3|e] eqn:H3;
    [|intros H; left; exact (Hh _ _ H)].
  cbn [ret M_monad fst]. intros H. injection H as <- <-.
  right. exists r, data, l1, l2. repeat split; assumption.
Qed.

End Summary.



(** An id the taxonomy does not know is named by the fallback. *)
Example unknown_issue_name :
  fst (get_all_issues_summary (con := Samples.terminal)
         Samples.unknown_network None "26460775" []) =
  Ok ([ VDict [ ("issue_id", VInt 9999);
                ("issue_name", VStr "Unknown Issue 9999");
                ("severity", VStr "Notice");
                ("count", VInt 1); ("delta", VInt 0) ] ],
      VNone).
Proof. vm_compute. reflexivity. Qed.

(** C1 on the code. The handler of [get_all_issues_summary] prints the
    exception before it returns the empty summary, and nothing guards that
    [print]: when writing the line raises, the exception of [print] leaves
    the function in place of the empty list and [None]. So it is when the
    provider is reached through a proxy that answers 404 with a reason
    phrase in French and the console is encoded in ASCII: the summary
    raises [UnicodeEncodeError]. *)
Theorem get_all_issues_summary_print_raises :
  (forall (network : request -> result response)
          (SEMRUSH_API_KEY : option string) (con : Console)
          (project_id : string) (log : list request) (e e' : exn),
      network (snapshot_request SEMRUSH_API_KEY project_id) = Raise e ->
      is_Exception e = true ->
      print ("Error fetching issues summary: " ++ exn_str e) = Raise e' ->
      get_all_issues_summary network SEMRUSH_API_KEY project_id log
      = (Raise e', (log ++ [snapshot_request SEMRUSH_API_KEY project_id])%list))
  /\ (forall (network : request -> result response)
             (SEMRUSH_API_KEY : option string) (con : Console)
             (project_id : string) (log : list request) (r : response) (e e' : exn),
        network (snapshot_request SEMRUSH_API_KEY project_id) = Ok r ->
        raise_for_status r = Raise e ->
        print ("Error fetching issues summary: " ++ exn_str e) = Raise e' ->
        get_all_issues_summary network SEMRUSH_API_KEY project_id log
        = (Raise e', (log ++ [snapshot_request SEMRUSH_API_KEY project_id])%list))
  /\ get_all_issues_summary (con := Cases.ascii_terminal)
       Cases.localized_network None "26460775" []
     = (Raise Cases.localized_error, [snapshot_request None "26460775"]).
Proof.
  split; [|split].
  - intros network SEMRUSH_API_KEY con project_id log e e' Hnet He Hp.
    rewrite (summary_request_raises network SEMRUSH_API_KEY project_id log e Hnet).
    unfold handled, printed. rewrite He, Hp. reflexivity.
  - intros network SEMRUSH_API_KEY con project_id log r e e' Hnet Hst Hp.
    rewrite (summary_status_raises network SEMRUSH_API_KEY project_id log r e
               Hnet Hst).
    unfold handled, printed.
    rewrite (raise_for_status_Exception r e Hst), Hp. reflexivity.
  - vm_compute. reflexivity.
Qed.

(* --------------------------------------------------------------------- *)
(** ** Order of the records *)

Lemma has_severity_record (s severity : string) (e : entry) :
  has_severity s (issue_record severity e) = String.eqb severity s.
Proof. reflexivity. Qed.

Lemma filter_emitted_same (severity : string) (es : list entry) :
  filter (has_severity severity) (emitted severity es) = emitted severity es.
Proof.
  unfold emitted. induction (filter counted es) as [|e l IH]; [reflexivity|].
  cbn [map filter]. rewrite has_severity_record, String.eqb_refl, IH.
  reflexivity.
Qed.

Lemma filter_emitted_other (s severity : string) (es : list entry) :
  String.eqb severity s = false ->
  filter (has_severity s) (emitted severity es) = [].
Proof.
  intros Hne. unfold emitted.
  induction (filter counted es) as [|e l IH]; [reflexivity|].
  cbn [map filter]. rewrite has_severity_record, Hne. exact IH.
Qed.

Lemma rank_emitted (severity : string) (n : nat) (es : list entry) :
  (forall e, severity_rank (issue_record severity e) = n) ->
  Forall (fun v => severity_rank v = n) (emitted severity es).
Proof.
  intros H. unfold emitted. apply Forall_forall. intros v Hv.
  apply in_map_iff in Hv as (e & <- & _). apply H.
Qed.

Lemma sorted_constant (n : nat) (l : list value) :
  Forall (fun v => severity_rank v = n) l ->
  StronglySorted (fun a b => severity_rank a <= severity_rank b) l.
Proof.
  induction 1 as [|v l Hv Hl IH]; constructor; [exact IH|].
  apply Forall_forall. intros b Hb.
  rewrite Forall_forall in Hl. rewrite Hv, (Hl b Hb). lia.
Qed.

Lemma sorted_app (R : value -> value -> Prop) (l1 l2 : list value) :
  StronglySorted R l1 -> StronglySorted R l2 ->
  (forall a b, In a l1 -> In b l2 -> R a b) ->
  StronglySorted R (l1 ++ l2).
Proof.
  induction 1 as [|a l1 Hs IH Ha]; intros H2 Hcross; [exact H2|].
  cbn [app]. constructor.
  - apply IH; [exact H2|]. intros x y Hx Hy. apply Hcross; [right|]; assumption.
  - apply Forall_app. split; [exact Ha|].
    apply Forall_forall. intros b Hb. apply Hcross; [left; reflexivity | exact Hb].
Qed.

(** C10. In the summary of a response that lists its errors, warnings and
    notices, no record comes before a record of a more severe section:
    the Error records come first, then the Warning records, then the Notice
    records; and the records of one severity are those of the entries of
    its section, in the order of the section. *)
Theorem get_all_issues_summary_order
        (network : request -> result response) (SEMRUSH_API_KEY : option string)
        (con : Console) (project_id : string) (log : list request)
        (r : response) (data : dict) (errors warnings notices : list entry) :
  network (snapshot_request SEMRUSH_API_KEY project_id) = Ok r ->
  status_ok r ->
  json r = Ok (VDict data) ->
  section_is data "errors" errors ->
  section_is data "warnings" warnings ->
  section_is data "notices" notices ->
  exists records snapshot_id,
    fst (get_all_issues_summary network SEMRUSH_API_KEY project_id log)
    = Ok (records, snapshot_id)
    /\ StronglySorted (fun a b => severity_rank a <= severity_rank b) records
    /\ (exists e w n,
          records = (e ++ w ++ n)%list
          /\ Forall (fun v => has_severity "Error" v = true) e
          /\ Forall (fun v => has_severity "Warning" v = true) w
          /\ Forall (fun v => has_severity "Notice" v = true) n)
    /\ filter (has_severity "Error") records = emitted "Error" errors
    /\ filter (has_severity "Warning") records = emitted "Warning" warnings
    /\ filter (has_severity "Notice") records = emitted "Notice" notices.
Proof.
  intros Hnet Hst Hjson He Hw Hn.
  rewrite (summary_records network SEMRUSH_API_KEY project_id log r data
             errors warnings notices Hnet Hst Hjson He Hw Hn).
  do 2 eexists. split; [reflexivity|].
  pose proof (rank_emitted "Error" 0 errors (fun _ => eq_refl)) as R0.
  pose proof (rank_emitted "Warning" 1 warnings (fun _ => eq_refl)) as R1.
  pose proof (rank_emitted "Notice" 2 notices (fun _ => eq_refl)) as R2.
  split; [|split; [|split; [|split]]].
  - rewrite Forall_forall in R0, R1, R2.
    apply sorted_app; [eapply sorted_constant, Forall_forall; eassumption | |].
    + apply sorted_app;
        [eapply sorted_constant, Forall_forall; eassumption
        |eapply sorted_constant, Forall_forall; eassumption|].
      intros a b Ha Hb. rewrite (R1 a Ha), (R2 b Hb). lia.
    + intros a b Ha Hb. rewrite (R0 a Ha).
      apply in_app_or in Hb as [Hb|Hb];
        [rewrite (R1 b Hb) | rewrite (R2 b Hb)]; lia.
  - exists (emitted "Error" errors), (emitted "Warning" warnings),
      (emitted "Notice" notices).
    split; [reflexivity|].
    repeat split; apply Forall_forall; intros v Hv;
      apply in_map_iff in Hv as (e & <- & _); reflexivity.
  - rewrite !filter_app, filter_emitted_same.
    rewrite !filter_emitted_other by reflexivity. apply app_nil_r.
  - rewrite !filter_app, filter_emitted_same.
    rewrite !filter_emitted_other by reflexivity. apply app_nil_r.
  - rewrite !filter_app, filter_emitted_same.
    rewrite !filter_emitted_other by reflexivity. reflexivity.
Qed.

(** The order on the example of the specification. *)
Lemma get_all_issues_summary_order_witness :
  exists records snapshot_id,
    fst (get_all_issues_summary (con := Samples.terminal)
           Samples.audit_network None "26460775" [])
    = Ok (records, snapshot_id)
    /\ StronglySorted (fun a b => severity_rank a <= severity_rank b) records
    /\ (exists e w n,
          records = (e ++ w ++ n)%list
          /\ Forall (fun v => has_severity "Error" v = true) e
          /\ Forall (fun v => has_severity "Warning" v = true) w
          /\ Forall (fun v => has_severity "Notice" v = true) n)
    /\ filter (has_severity "Error") records
       = emitted "Error" [Entry 3 5 None; Entry 999 0 None]
    /\ filter (has_severity "Warning") records
       = emitted "Warning" [Entry 101 2 (Some (-1)%Z)]
    /\ filter (has_severity "Notice") records = emitted "Notice" [].
Proof.
  refine (get_all_issues_summary_order Samples.audit_network None
            Samples.terminal "26460775" [] _ Samples.audit_data
            [Entry 3 5 None; Entry 999 0 None] [Entry 101 2 (Some (-1)%Z)] []
            eq_refl _ eq_refl _ _ eq_refl).
  - unfold status_ok, Samples.ok_response; simpl; lia.
  - eexists; split; [reflexivity|].
    repeat constructor; eexists; repeat split; reflexivity.
  - eexists; split; [reflexivity|].
    repeat constructor; eexists; repeat split; reflexivity.
Defined.

(* ===================================================================== *)
(** * Paged issue details *)
(* ===================================================================== *)

Lemma pages_upto_S (pages : Z -> list value) (n : nat) :
  pages_upto pages (S n) = (pages_upto pages n ++ pages (Z.of_nat (S n)))%list.
Proof.
  unfold pages_upto. rewrite seq_S, flat_map_app. cbn [flat_map Nat.add].
  rewrite app_nil_r. reflexivity.
Qed.

(** The first index from 1 on at which a decidable property holds. *)
Lemma first_index (P : nat -> Prop) (b : nat) :
  (forall n, P n \/ ~ P n) -> 1 <= b -> P b ->
  exists k, 1 <= k <= b /\ P k /\ forall j, 1 <= j < k -> ~ P j.
Proof.
  intros Hdec Hb HP.
  assert (H : forall n, n <= b ->
            (exists k, 1 <= k <= b /\ P k /\ forall j, 1 <= j < k -> ~ P j)
            \/ (forall j, 1 <= j <= n -> ~ P j)).
  { induction n as [|n IH]; intros Hn.
    - right. intros j Hj. lia.
    - destruct IH as [IH|IH]; [lia | left; exact IH |].
      destruct (Hdec (S n)) as [Hyes|Hno].
      + left. exists (S n). split; [lia|]. split; [exact Hyes|].
        intros j Hj. apply IH. lia.
      + right. intros j Hj. destruct (Nat.eq_dec j (S n)) as [->|Hne];
          [exact Hno | apply IH; lia]. }
  destruct (H b (Nat.le_refl b)) as [Hk|Hnone]; [exact Hk|].
  exfalso. apply (Hnone b); [lia | exact HP].
Qed.

Section Details.

Variable pages : Z -> list value.
Variable total : Z.
Variable SEMRUSH_API_KEY : option string.
Variables (url : string) (limit : Z).

Let network := paged_provider pages total.
Let sent (j : nat) : request :=
  page_request SEMRUSH_API_KEY url limit (Z.of_nat j).

Local Abbreviation stops := (stops_at pages total).
Local Abbreviation continues := (continues_at pages total).

Lemma stops_dec (n : nat) : stops n \/ ~ stops n.
Proof.
  unfold stops_at. destruct (pages (Z.of_nat n)) as [|x l].
  - left. left. reflexivity.
  - destruct (Z_le_gt_dec total (list_len (pages_upto pages n))) as [H|H].
    + left. right. exact H.
    + right. intros [E|E]; [discriminate | lia].
Qed.

Lemma not_stops (n : nat) : ~ stops n -> continues n.
Proof.
  unfold stops_at, continues_at. intros H. split.
  - intros E. apply H. left. exact E.
  - destruct (Z_le_gt_dec total (list_len (pages_upto pages n)));
      [exfalso; apply H; right; assumption | lia].
Qed.

(** One iteration of the loop against the provider. *)
Lemma fetch_pages_step (fuel : nat) (all_pages : list value) (n : nat)
      (log : list request) :
  fetch_pages network SEMRUSH_API_KEY (S fuel) url limit all_pages
              (Z.of_nat n) log =
  match pages (Z.of_nat n) with
  | [] => (Ok (Some (all_pages, VInt total)), (log ++ [sent n])%list)
  | _ =>
      if (total <=? list_len (all_pages ++ pages (Z.of_nat n)))%Z
      then (Ok (Some ((all_pages ++ pages (Z.of_nat n))%list, VInt total)),
            (log ++ [sent n])%list)
      else fetch_pages network SEMRUSH_API_KEY fuel url limit
                       (all_pages ++ pages (Z.of_nat n))%list
                       (Z.of_nat n + 1)%Z (log ++ [sent n])%list
  end.
Proof.
  cbn [fetch_pages bind M_monad requests_get lift].
  unfold network at 1, paged_provider. cbn [page_request req_params req_url].
  change (dict_get [("key", api_key SEMRUSH_API_KEY); ("limit", VInt limit);
                    ("page", VInt (Z.of_nat n))] "page")
    with (Some (VInt (Z.of_nat n))).
  cbn [raise_for_status status_code json].
  change ((400 <=? 200)%Z && (200 <? 500)%Z) with false.
  change ((500 <=? 200)%Z && (200 <? 600)%Z) with false.
  cbn [Py.contains Py.subscript Py.get].
  change (dict_get [("data", VList (pages (Z.of_nat n))); ("total", VInt total)]
                   "data")
    with (Some (VList (pages (Z.of_nat n)))).
  change (dict_get [("data", VList (pages (Z.of_nat n))); ("total", VInt total)]
                   "total")
    with (Some (VInt total)).
  cbn [Py.truthy].
  destruct (pages (Z.of_nat n)) as [|x l] eqn:E.
  - reflexivity.
  - cbn [negb Py.iter Py.int_ge finish lift bind M_monad Py.get].
    change (dict_get [("data", VList (x :: l)); ("total", VInt total)] "total")
      with (Some (VInt total)).
    destruct (total <=? list_len (all_pages ++ x :: l))%Z; reflexivity.
Qed.

(** From the records of pages 1 to [n], the loop asks for the pages
    [n+1] to [n+m], where [n+m] is the first page after which it is left. *)
Lemma fetch_pages_run (m n fuel : nat) (log : list request) :
  (forall j, n < j < n + S m -> continues j) ->
  stops (n + S m) ->
  S m <= fuel ->
  fetch_pages network SEMRUSH_API_KEY fuel url limit (pages_upto pages n)
              (Z.of_nat (S n)) log =
  (Ok (Some (pages_upto pages (n + S m), VInt total)),
   (log ++ map sent (seq (S n) (S m)))%list).
Proof.
  revert n fuel log. induction m as [|m IH]; intros n fuel log Hgo Hstop Hfuel.
  - destruct fuel as [|fuel]; [lia|]. rewrite fetch_pages_step.
    replace (n + 1) with (S n) in Hstop by lia.
    rewrite <- pages_upto_S. replace (n + 1) with (S n) by lia.
    destruct Hstop as [E|E].
    + rewrite pages_upto_S, E, app_nil_r. reflexivity.
    + destruct (pages (Z.of_nat (S n))) eqn:Ep.
      * rewrite pages_upto_S, Ep, app_nil_r. reflexivity.
      * apply Z.leb_le in E. rewrite E. reflexivity.
  - destruct fuel as [|fuel]; [lia|]. rewrite fetch_pages_step.
    destruct (Hgo (S n)) as [Hne Hlt]; [lia|].
    rewrite <- pages_upto_S.
    destruct (pages (Z.of_nat (S n))) eqn:Ep; [congruence|].
    apply Z.leb_gt in Hlt. rewrite Hlt.
    replace (Z.of_nat (S n) + 1)%Z with (Z.of_nat (S (S n))) by lia.
    rewrite (IH (S n) fuel).
    + replace (S n + S m) with (n + S (S m)) by lia.
      rewrite <- app_assoc. reflexivity.
    + intros j Hj. apply Hgo. lia.
    + replace (S n + S m) with (n + S (S m)) by lia. exact Hstop.
    + lia.
Qed.

(** With less fuel than pages to ask for, the loop is not left. *)
Lemma fetch_pages_short (fuel n : nat) (log : list request) :
  (forall j, n < j <= n + fuel -> continues j) ->
  fst (fetch_pages network SEMRUSH_API_KEY fuel url limit (pages_upto pages n)
                   (Z.of_nat (S n)) log) = Ok None.
Proof.
  revert n log. induction fuel as [|fuel IH]; intros n log Hgo;
    [reflexivity|].
  rewrite fetch_pages_step.
  destruct (Hgo (S n)) as [Hne Hlt]; [lia|].
  rewrite <- pages_upto_S.
  destruct (pages (Z.of_nat (S n))) eqn:Ep; [congruence|].
  apply Z.leb_gt in Hlt. rewrite Hlt.
  replace (Z.of_nat (S n) + 1)%Z with (Z.of_nat (S (S n))) by lia.
  apply IH. intros j Hj. apply Hgo. lia.
Qed.

(** Pages that hold a record each bring the running total forward. *)
Lemma collected_grows (n : nat) :
  (forall j, 1 <= j <= n -> continues j) ->
  (Z.of_nat n <= list_len (pages_upto pages n))%Z.
Proof.
  induction n as [|n IH]; intros Hgo.
  - unfold list_len. cbn. lia.
  - rewrite pages_upto_S. unfold list_len in *. rewrite length_app.
    destruct (Hgo (S n)) as [Hne _]; [lia|].
    destruct (pages (Z.of_nat (S n))); [congruence|].
    cbn [length]. specialize (IH ltac:(intros j Hj; apply Hgo; lia)). lia.
Qed.

Lemma search_stop (n : nat) :
  (exists i, 1 <= i <= n /\ stops i)
  \/ (forall j, 1 <= j <= n -> continues j).
Proof.
  induction n as [|n [(i & Hi & Hs)|IH]].
  - right. intros j Hj. lia.
  - left. exists i. split; [lia | exact Hs].
  - destruct (stops_dec (S n)) as [Hs|Hs].
    + left. exists (S n). split; [lia | exact Hs].
    + right. intros j Hj. destruct (Nat.eq_dec j (S n)) as [->|Hne];
        [apply not_stops; exact Hs | apply IH; lia].
Qed.

(** The loop is left after some page. *)
Lemma first_stop :
  exists k, 1 <= k /\ stops k /\ forall j, 1 <= j < k -> continues j.
Proof.
  set (b := Nat.max 1 (Z.to_nat total)).
  destruct (search_stop b) as [(n & Hn & Hs)|Hgo].
  - destruct (first_index stops n stops_dec ltac:(lia) Hs)
      as (k & Hk & Hsk & Hfirst).
    exists k. split; [lia|]. split; [exact Hsk|].
    intros j Hj. apply not_stops, Hfirst, Hj.
  - exfalso. pose proof (collected_grows b Hgo) as Hlen.
    destruct (Hgo b ltac:(lia)) as [_ Hlt]. lia.
Qed.

End Details.

(** C2. Against a provider that serves pages of records and reports their
    total with every page, [get_issue_details] asks for page 1, then 2, and
    so on, one page after the other, and stops after the first page [k]
    that holds no record or with which the records collected reach the
    total; it asks for no page beyond [k] and returns the records of pages
    1 to [k] in that order together with the total. Such a page exists, so
    the loop is left whenever it may run [k] times. For pages of 100, 100
    and 37 records and a total of 237 it returns 237 records after three
    requests. *)
Theorem get_issue_details_pages
        (pages : Z -> list value) (total : Z) (SEMRUSH_API_KEY : option string)
        (con : Console) (project_id snapshot_id : string) (issue_id limit : Z)
        (log : list request) :
  let details fuel :=
    get_issue_details (paged_provider pages total) SEMRUSH_API_KEY fuel
                      project_id snapshot_id issue_id limit log in
  let sent (j : nat) :=
    page_request SEMRUSH_API_KEY (issue_url project_id snapshot_id issue_id)
                 limit (Z.of_nat j) in
  (exists k,
      1 <= k
      /\ (forall j, 1 <= j < k -> continues_at pages total j)
      /\ stops_at pages total k
      /\ (forall fuel, k <= fuel ->
            details fuel = (Ok (Some (pages_upto pages k, VInt total)),
                            (log ++ map sent (seq 1 k))%list))
      /\ (forall fuel, fuel < k -> fst (details fuel) = Ok None))
  /\ (forall fuel, 3 <= fuel ->
        exists records,
          get_issue_details (paged_provider Samples.pages_237 237)
                            SEMRUSH_API_KEY fuel
                            project_id snapshot_id issue_id limit log
          = (Ok (Some (records, VInt 237)),
             (log ++ [sent 1; sent 2; sent 3])%list)
          /\ length records = 237).
Proof.
  cbv zeta. split.
  - destruct (first_stop pages total) as (k & Hk & Hstop & Hgo).
    exists k. split; [exact Hk|]. split; [exact Hgo|]. split; [exact Hstop|].
    destruct k as [|m]; [lia|]. split.
    + intros fuel Hfuel. unfold get_issue_details, except_Exception.
      change (@nil value) with (pages_upto pages 0).
      change 1%Z with (Z.of_nat 1).
      rewrite (fetch_pages_run pages total SEMRUSH_API_KEY _ limit m 0 fuel log);
        [reflexivity | intros j Hj; apply Hgo; lia | exact Hstop | exact Hfuel].
    + intros fuel Hfuel. unfold get_issue_details, except_Exception.
      change (@nil value) with (pages_upto pages 0).
      change 1%Z with (Z.of_nat 1).
      pose proof (fetch_pages_short pages total SEMRUSH_API_KEY
                    (issue_url project_id snapshot_id issue_id) limit
                    fuel 0 log ltac:(intros j Hj; apply Hgo; lia)) as H.
      destruct (fetch_pages _ _ _ _ _ _ _ _) as [[o|e] log'];
        cbn [fst] in *; [exact H | discriminate].
  - intros fuel Hfuel. exists (pages_upto Samples.pages_237 3).
    split; [|vm_compute; reflexivity].
    unfold get_issue_details, except_Exception.
    change (@nil value) with (pages_upto Samples.pages_237 0).
    change 1%Z with (Z.of_nat 1).
    rewrite (fetch_pages_run Samples.pages_237 237 SEMRUSH_API_KEY _ limit
               2 0 fuel log); [reflexivity | | | exact Hfuel].
    + intros j Hj. assert (E : j = 1 \/ j = 2) by lia.
      destruct E as [->| ->]; (split; [discriminate | vm_compute; reflexivity]).
    + right. vm_compute. discriminate.
Qed.

(** The run on the pages of 100, 100 and 37 records, with fuel for ten
    iterations: three requests, for the pages 1, 2 and 3. *)
Lemma get_issue_details_pages_witness :
  exists records,
    get_issue_details (con := Samples.terminal)
                      (paged_provider Samples.pages_237 237) None 10
                      "26460775" "S1" 3 100 []
    = (Ok (Some (records, VInt 237)),
       map (fun p => page_request None
                       (issue_url "26460775" "S1" 3) 100 p) [1; 2; 3]%Z)
    /\ length records = 237.
Proof.
  exact (proj2 (get_issue_details_pages Samples.pages_237 237 None
                  Samples.terminal "26460775" "S1" 3 100 [])
               10 ltac:(repeat constructor)).
Defined.

(** Outside the claim: a page that cannot be fetched ends the loop with the
    result of the handler, and what was collected before is not returned. *)
Example get_issue_details_broken :
  get_issue_details (con := Samples.terminal)
                    Samples.broken_provider None 10 "26460775" "S1" 3 100 []
  = (Ok (Some ([], VInt 0)),
     map (fun p => page_request None (issue_url "26460775" "S1" 3) 100 p)
         [1; 2]%Z).
Proof. vm_compute. reflexivity. Qed.
(* ===================================================================== *)
(** * Strings: words *)
(* ===================================================================== *)

Lemma collapse_ws_eq (c : ascii) (s : string) :
  PyStr.collapse_ws (String c s) =
  if PyStr.is_space c then
    match s with
    | EmptyString => String " "%char EmptyString
    | String c' _ =>
        if PyStr.is_space c' then PyStr.collapse_ws s
        else String " "%char (PyStr.collapse_ws s)
    end
  else String c (PyStr.collapse_ws s).
Proof. destruct s; reflexivity. Qed.

Lemma split_ws_eq (c : ascii) (s : string) :
  PyStr.split_ws (String c s) =
  if PyStr.is_space c then PyStr.split_ws s
  else match s with
       | EmptyString => [String c EmptyString]
       | String c' _ =>
           if PyStr.is_space c' then String c EmptyString :: PyStr.split_ws s
           else match PyStr.split_ws s with
                | h :: t => String c h :: t
                | [] => [String c EmptyString]
                end
       end.
Proof. destruct s; reflexivity. Qed.

Lemma collapse_ws_space (c : ascii) (t : string) :
  PyStr.is_space c = true ->
  exists r, PyStr.collapse_ws (String c t) = String " "%char r.
Proof.
  revert c. induction t as [|c' t IH]; intros c Hc;
    rewrite collapse_ws_eq, Hc; [eexists; reflexivity|].
  destruct (PyStr.is_space c') eqn:Hc'; [|eexists; reflexivity].
  apply IH. exact Hc'.
Qed.

(** Collapsing the runs of white space changes no word. *)
Lemma split_ws_collapse (s : string) :
  PyStr.split_ws (PyStr.collapse_ws s) = PyStr.split_ws s.
Proof.
  induction s as [|c s IH]; [reflexivity|].
  rewrite collapse_ws_eq, (split_ws_eq c s).
  destruct (PyStr.is_space c) eqn:Hc.
  - destruct s as [|c' t]; [reflexivity|].
    destruct (PyStr.is_space c') eqn:Hc'; [exact IH|].
    rewrite split_ws_eq. change (PyStr.is_space " "%char) with true. exact IH.
  - destruct s as [|c' t]; [cbn; rewrite Hc; reflexivity|].
    rewrite <- IH.
    destruct (PyStr.is_space c') eqn:Hc'.
    + destruct (collapse_ws_space c' t Hc') as [r Hr].
      rewrite Hr, split_ws_eq, Hc. reflexivity.
    + rewrite (collapse_ws_eq c' t), Hc', split_ws_eq, Hc, Hc'. reflexivity.
Qed.

(* ===================================================================== *)
(** * On-page crawler *)
(* ===================================================================== *)

Section Crawl.

Variable network : request -> result response.
Context {bs4 : SoupAPI} {con : Console}.

(** What the handler of the crawler makes of an exception. *)
Let crawl_handled (e : exn) : result dict :=
  handled "Crawl error: " (crawl_failure e) e.

(** The crawler sends one request. It returns the signals of the page,
    or what its handler makes of the first step that raised. *)
Lemma crawl_cases (domain : string) (log : list request) :
  crawl_website_onpage network domain log =
  (match network (crawl_request domain) with
   | Raise e => crawl_handled e
   | Ok r =>
       match raise_for_status r with
       | Raise e => crawl_handled e
       | Ok _ =>
           match BeautifulSoup (text r) with
           | Raise e => crawl_handled e
           | Ok s => Ok (page_signals s)
           end
       end
   end,
   (log ++ [crawl_request domain])%list).
Proof.
  unfold crawl_website_onpage, except_Exception, crawl_handled, handled,
    printed, crawl_failure.
  cbn [bind M_monad requests_get lift].
  destruct (network (crawl_request domain)) as [r|e]; [|handler_cases].
  destruct (raise_for_status r); [|handler_cases].
  destruct (BeautifulSoup (text r)); [reflexivity | handler_cases].
Qed.

(** A result that reports success holds the signals of the parsed page. *)
Lemma crawl_success_inv (domain : string) (log log' : list request) (d : dict) :
  crawl_website_onpage network domain log = (Ok d, log') ->
  dict_get d "crawl_success" = Some (VBool true) ->
  exists r s,
    network (crawl_request domain) = Ok r
    /\ BeautifulSoup (text r) = Ok s
    /\ d = page_signals s.
Proof.
  rewrite crawl_cases. intros H Hd. injection H as H _.
  assert (Hno : forall e, crawl_handled e <> Ok d).
  { intros e He. apply handled_value in He. subst d. discriminate Hd. }
  destruct (network (crawl_request domain)) as [r|e]; [|destruct (Hno e H)].
  destruct (raise_for_status r) as [|e]; [|destruct (Hno e H)].
  destruct (BeautifulSoup (text r)) as [s|e] eqn:Hs; [|destruct (Hno e H)].
  injection H as <-. exists r, s. repeat split. exact Hs.
Qed.

(** The outcome does not depend on the requests sent before, and one
    request is added to them whatever the outcome. *)
Lemma crawl_log (domain : string) (log : list request) :
  crawl_website_onpage network domain log =
  (fst (crawl_website_onpage network domain []),
   (log ++ [crawl_request domain])%list).
Proof. rewrite !crawl_cases. reflexivity. Qed.

Lemma page_signals_fields (s : soup) :
  map fst (page_signals s) = (signal_fields ++ ["crawl_success"])%list.
Proof. reflexivity. Qed.

(** The signals, from the description, the title, the headings, the words
    and the images of the page. *)
Lemma page_signals_values (page : soup) :
  let m := text_length (meta_description_of page) in
  let t := text_length (title_of page) in
  let h := list_len (find_all page ["h1"]) in
  let w := list_len (words_of page) in
  let images := find_all (content_tree page) ["img"] in
  page_signals page =
  [ ("meta_description", opt_str (meta_description_of page));
    ("meta_desc_length", VInt m);
    ("meta_desc_status",
      VStr (if ((150 <=? m) && (m <=? 160))%Z then "Good" else "Needs Fix"));
    ("title_tag", opt_str (title_of page));
    ("title_length", VInt t);
    ("title_status",
      VStr (if ((50 <=? t) && (t <=? 60))%Z then "Good" else "Needs Fix"));
    ("h1_count", VInt h);
    ("h1_status",
      VStr (if (h =? 1)%Z then "Good"
            else if (1 <? h)%Z then "Multiple" else "Missing"));
    ("h1_text", VList (map (fun x => VStr (tag_get_text x)) (find_all page ["h1"])));
    ("h2_count", VInt (list_len (find_all page ["h2"])));
    ("h3_count", VInt (list_len (find_all page ["h3"])));
    ("h4_count", VInt (list_len (find_all page ["h4"])));
    ("word_count", VInt w);
    ("content_status",
      VStr (if (1000 <=? w)%Z then "Good"
            else if (w <? 300)%Z then "Thin" else "Moderate"));
    ("images_total", VInt (list_len images));
    ("images_without_alt",
      VInt (list_len images - list_len (filter has_alt images)));
    ("crawl_success", VBool true) ].
Proof.
  cbv zeta. unfold page_signals, words_of. cbv zeta.
  rewrite split_ws_collapse.
  assert (Hm : match find page "meta" [("name", "description")] with
               | Some t => if nonempty (tag_get t "content")
                           then tag_get t "content" else None
               | None => None
               end = meta_description_of page).
  { unfold meta_description_of.
    destruct (find page "meta" [("name", "description")]) as [e|]; [|reflexivity].
    destruct (tag_get e "content") as [c|]; [|reflexivity].
    cbn [nonempty]. destruct (String.eqb c ""); reflexivity. }
  rewrite Hm. fold (title_of page).
  assert (Ht : match title_of page with
               | Some x => if negb (String.eqb x "") then PyStr.len x else 0%Z
               | None => 0%Z
               end = text_length (title_of page)).
  { destruct (title_of page) as [x|]; [|reflexivity].
    destruct (String.eqb_spec x "") as [->|]; reflexivity. }
  rewrite Ht. reflexivity.
Qed.

End Crawl.

Lemma list_len_nonneg {A : Type} (l : list A) : (0 <= list_len l)%Z.
Proof. unfold list_len. lia. Qed.

Ltac status_cases :=
  unfold status_is; cbn [dict_get String.eqb Ascii.eqb Bool.eqb];
  repeat match goal with
         | |- context [if ?b then _ else _] => destruct b eqn:?
         end;
  repeat match goal with
         | H : (_ && _)%bool = true |- _ => apply andb_true_iff in H as [? ?]
         | H : (_ && _)%bool = false |- _ => apply andb_false_iff in H
         end;
  repeat split; intros;
  try match goal with
      | H : Some _ = Some _ |- _ => discriminate H
      end;
  try reflexivity; try lia.

(** C4. For every page that was crawled with success, the four status
    fields are the threshold functions of what the page holds. The length
    of the meta description is that of the content of the meta element
    named description, 0 when there is none or it is empty; the length of
    the title is that of the string of the title element, 0 when there is
    none; the H1 count is the number of [h1] elements of the page; the word
    count is the number of words of its text, the script, style, nav,
    footer and header elements left out. The result holds these four
    numbers, and: the meta description is Good exactly when its length is
    from 150 to 160 and Needs Fix otherwise; the title is Good exactly when
    its length is from 50 to 60 and Needs Fix otherwise; the H1 status is
    Missing exactly for no H1, Good for one and Multiple for more; the
    content is Thin below 300 words, Moderate from 300 to 999 and Good
    from 1000 on, so that 300 words are Moderate and 1000 words are Good. *)
Theorem classifier_thresholds
        (network : request -> result response) (bs4 : SoupAPI) (con : Console)
        (domain : string) (log log' : list request) (d : dict) :
  crawl_website_onpage network domain log = (Ok d, log') ->
  dict_get d "crawl_success" = Some (VBool true) ->
  exists (r : response) (page : soup),
    network (crawl_request domain) = Ok r
    /\ BeautifulSoup (text r) = Ok page
    /\ let meta_description := meta_description_of page in
       let title := title_of page in
       let m := text_length meta_description in
       let t := text_length title in
       let h := list_len (find_all page ["h1"]) in
       let w := list_len (words_of page) in
       text_is d "meta_description" meta_description
       /\ text_is d "title_tag" title
       /\ dict_get d "meta_desc_length" = Some (VInt m)
       /\ dict_get d "title_length" = Some (VInt t)
       /\ dict_get d "h1_count" = Some (VInt h)
       /\ dict_get d "word_count" = Some (VInt w)
       /\ (status_is d "meta_desc_status" "Good" <-> (150 <= m <= 160)%Z)
       /\ (status_is d "meta_desc_status" "Needs Fix" <-> ~ (150 <= m <= 160)%Z)
       /\ (status_is d "title_status" "Good" <-> (50 <= t <= 60)%Z)
       /\ (status_is d "title_status" "Needs Fix" <-> ~ (50 <= t <= 60)%Z)
       /\ (status_is d "h1_status" "Missing" <-> h = 0%Z)
       /\ (status_is d "h1_status" "Good" <-> h = 1%Z)
       /\ (status_is d "h1_status" "Multiple" <-> (1 < h)%Z)
       /\ (status_is d "content_status" "Thin" <-> (w < 300)%Z)
       /\ (status_is d "content_status" "Moderate" <-> (300 <= w < 1000)%Z)
       /\ (status_is d "content_status" "Good" <-> (1000 <= w)%Z)
       /\ (w = 300%Z -> status_is d "content_status" "Moderate")
       /\ (w = 1000%Z -> status_is d "content_status" "Good").
Proof.
  intros Hrun Hok.
  destruct (crawl_success_inv network domain log log' d Hrun Hok)
    as (r & page & Hnet & Hpage & ->).
  exists r, page. split; [exact Hnet|]. split; [exact Hpage|].
  rewrite page_signals_values. cbv zeta.
  set (meta_description := meta_description_of page).
  set (title := title_of page).
  set (m := text_length meta_description).
  set (t := text_length title).
  set (h := list_len (find_all page ["h1"])).
  set (w := list_len (words_of page)).
  assert (Hh : (0 <= h)%Z) by apply list_len_nonneg.
  assert (Hw : (0 <= w)%Z) by apply list_len_nonneg.
  clearbody m t h w meta_description title.
  split; [reflexivity|]. split; [reflexivity|]. split; [reflexivity|].
  split; [reflexivity|]. split; [reflexivity|]. split; [reflexivity|].
  status_cases.
Qed.

(** The thresholds on the sample page: one H1 and eleven words. *)
Lemma classifier_thresholds_witness :
  status_is Samples.page_result "h1_status" "Good"
  /\ status_is Samples.page_result "content_status" "Thin"
  /\ status_is Samples.page_result "title_status" "Needs Fix".
Proof.
  destruct (classifier_thresholds Samples.page_network Samples.page_api
              Samples.terminal "example.com" [] _ Samples.page_result
              eq_refl eq_refl)
    as (r & page & _ & Hpage & _ & _ & _ & _ & _ & _ & _ & _ & _ & Htitle & _
        & Hgood & _ & Hthin & _).
  injection Hpage as <-.
  split; [apply Hgood; reflexivity|].
  split; [apply Hthin; reflexivity|].
  apply Htitle. vm_compute. intros [H _]. apply H. reflexivity.
Defined.

(** C6. For every page that was crawled with success, the number of images
    without a text is the number of images of the page minus the number of
    those whose [alt] attribute is present and not empty; it lies between 0
    and the number of images, and the two numbers add up to it. *)
Theorem images_without_alt_invariant
        (network : request -> result response) (bs4 : SoupAPI) (con : Console)
        (domain : string) (log log' : list request) (d : dict) :
  crawl_website_onpage network domain log = (Ok d, log') ->
  dict_get d "crawl_success" = Some (VBool true) ->
  exists (r : response) (s : soup) (images : list tag),
    network (crawl_request domain) = Ok r
    /\ BeautifulSoup (text r) = Ok s
    /\ images = find_all (content_tree s) ["img"]
    /\ let images_total := list_len images in
       let images_with_alt :=
         list_len (filter (fun img => match tag_get img "alt" with
                                      | Some alt => negb (String.eqb alt "")
                                      | None => false
                                      end) images) in
       exists images_without_alt,
         dict_get d "images_total" = Some (VInt images_total)
         /\ dict_get d "images_without_alt" = Some (VInt images_without_alt)
         /\ images_without_alt = (images_total - images_with_alt)%Z
         /\ (0 <= images_without_alt <= images_total)%Z
         /\ (images_without_alt + images_with_alt = images_total)%Z.
Proof.
  intros Hrun Hok.
  destruct (crawl_success_inv network domain log log' d Hrun Hok)
    as (r & s & Hnet & Hs & ->).
  exists r, s, (find_all (content_tree s) ["img"]).
  split; [exact Hnet|]. split; [exact Hs|]. split; [reflexivity|].
  cbv zeta. eexists. split; [reflexivity|]. split; [reflexivity|].
  change (fun img : tag => match tag_get img "alt" with
                           | Some alt => negb (String.eqb alt "")
                           | None => false
                           end) with has_alt.
  pose proof (filter_length_le has_alt (find_all (content_tree s) ["img"])) as Hle.
  unfold list_len. split; [reflexivity|]. lia.
Qed.

(** The sample page has two images, one of them without a text. *)
Lemma images_without_alt_invariant_witness :
  dict_get Samples.page_result "images_total" = Some (VInt 2)
  /\ dict_get Samples.page_result "images_without_alt" = Some (VInt 1).
Proof.
  destruct (images_without_alt_invariant Samples.page_network Samples.page_api
              Samples.terminal "example.com" [] _ Samples.page_result eq_refl eq_refl)
    as (r & s & images & Hnet & Hs & Himg & n & Htotal & Hwithout & Hn & _).
  injection Hs as <-. subst images n.
  split; [exact Htotal | exact Hwithout].
Defined.




(* --------------------------------------------------------------------- *)
(** ** The URL that is fetched *)

(** What the test on the first four characters does. *)
Lemma crawl_url_cases (domain : string) :
  (PyStr.startswith "http" domain = false ->
   crawl_url domain = "https://" ++ domain)
  /\ (PyStr.startswith "http" domain = true -> crawl_url domain = domain).
Proof. unfold crawl_url. split; intros ->; reflexivity. Qed.

Lemma prefix_app (p q s : string) :
  String.prefix (p ++ q) s = true -> String.prefix p s = true.
Proof.
  revert s. induction p as [|a p IH]; intros s H; [destruct s; reflexivity|].
  destruct s as [|b s]; [discriminate H|].
  cbn in H |- *. destruct (ascii_dec a b); [apply IH; exact H | discriminate H].
Qed.

(** An input that names its scheme is fetched as it is. *)
Lemma crawl_url_scheme (domain : string) :
  has_scheme_prefix domain = true -> crawl_url domain = domain.
Proof.
  unfold has_scheme_prefix, crawl_url, PyStr.startswith. intros H.
  assert (E : String.prefix "http" domain = true).
  { apply orb_true_iff in H as [H|H].
    - apply (prefix_app "http" "://"). exact H.
    - apply (prefix_app "http" "s://"). exact H. }
  rewrite E. reflexivity.
Qed.

(** C9 at the input [httpbin.org]. The input names no scheme, and it is
    fetched as it is: [https://] is not put before it, because it begins
    with the four letters the source tests for. *)
Theorem crawl_url_httpbin
        (network : request -> result response) (bs4 : SoupAPI) (con : Console) :
  has_scheme_prefix "httpbin.org" = false
  /\ crawl_url "httpbin.org" = "httpbin.org"
  /\ crawl_url "httpbin.org" <> "https://" ++ "httpbin.org"
  /\ map req_url (snd (crawl_website_onpage network "httpbin.org" []))
     = ["httpbin.org"].
Proof.
  split; [reflexivity|]. split; [reflexivity|]. split; [discriminate|].
  rewrite crawl_cases. reflexivity.
Qed.

(* ===================================================================== *)
(** * Flat-text provider requests *)
(* ===================================================================== *)

Lemma prefix_upper (p s : string) :
  String.prefix p s = true ->
  String.prefix (PyStr.upper p) (PyStr.upper s) = true.
Proof.
  revert s. induction p as [|a p IH]; intros s H; [destruct s; reflexivity|].
  destruct s as [|b s]; [discriminate H|].
  cbn in H |- *. destruct (ascii_dec a b) as [->|]; [|discriminate H].
  destruct (ascii_dec (PyStr.upper_char b) (PyStr.upper_char b)); [|congruence].
  apply IH. exact H.
Qed.

(** A word that is in a text is, upper-cased, in the upper-cased text. *)
Lemma contains_upper (p s : string) :
  PyStr.contains p s = true ->
  PyStr.contains (PyStr.upper p) (PyStr.upper s) = true.
Proof.
  induction s as [|c s IH]; cbn [PyStr.contains PyStr.upper]; intros H;
    apply orb_true_iff in H as [H|H]; apply orb_true_iff.
  - left. apply (prefix_upper p ""). exact H.
  - discriminate H.
  - left. apply (prefix_upper p (String c s)). exact H.
  - right. apply IH. exact H.
Qed.

Lemma make_request_log
      (network : request -> result response) (SEMRUSH_API_KEY : option string)
      (url report_type : string) (kwargs : dict) (log : list request) :
  snd (make_request network SEMRUSH_API_KEY url report_type kwargs log)
  = (log ++ [make_request_request SEMRUSH_API_KEY url report_type kwargs])%list.
Proof.
  unfold make_request, try_except. cbn [bind M_monad requests_get].
  destruct (network _) as [r|e]; [|reflexivity].
  destruct (_ && _); reflexivity.
Qed.

(** C8, as the code has it. [make_request] sends one request and raises
    nothing. It returns what [parse_response] makes of the body exactly
    when the status is 200 and the upper-cased body does not hold the word
    ERROR, that is, when the body holds the word in no mix of cases. In
    all other cases (another status, the word present in some mix of cases,
    in particular in capitals, or an exception) it returns [None]. *)
Theorem make_request_spec
        (network : request -> result response) (SEMRUSH_API_KEY : option string)
        (url report_type : string) (kwargs : dict) (log : list request) :
  let sent := make_request_request SEMRUSH_API_KEY url report_type kwargs in
  let run := make_request network SEMRUSH_API_KEY url report_type kwargs log in
  snd run = (log ++ [sent])%list
  /\ (forall r, network sent = Ok r -> status_code r = 200%Z ->
        PyStr.contains "ERROR" (PyStr.upper (text r)) = false ->
        fst run = Ok (parse_response (text r)))
  /\ (forall r, network sent = Ok r -> status_code r <> 200%Z ->
        fst run = Ok VNone)
  /\ (forall r, network sent = Ok r ->
        PyStr.contains "ERROR" (PyStr.upper (text r)) = true ->
        fst run = Ok VNone)
  /\ (forall r, network sent = Ok r ->
        PyStr.contains "ERROR" (text r) = true ->
        fst run = Ok VNone)
  /\ (forall e, network sent = Raise e -> fst run = Ok VNone).
Proof.
  cbv zeta. unfold make_request, try_except.
  cbn [bind M_monad requests_get].
  assert (Hlit : forall r, PyStr.contains "ERROR" (text r) = true ->
                           PyStr.contains "ERROR" (PyStr.upper (text r)) = true).
  { intros r H. apply (contains_upper "ERROR" (text r)). exact H. }
  destruct (network (make_request_request SEMRUSH_API_KEY url report_type kwargs))
    as [r|e].
  - destruct (Z.eqb_spec (status_code r) 200) as [Hst|Hst];
      destruct (PyStr.contains "ERROR" (PyStr.upper (text r))) eqn:Herr;
      cbn [andb negb fst snd ret M_monad].
    all: split; [reflexivity|].
    all: split; [intros r' E; injection E as <-; intros; try reflexivity;
                 congruence|].
    all: split; [intros r' E; injection E as <-; intros; try reflexivity;
                 congruence|].
    all: split; [intros r' E; injection E as <-; intros; try reflexivity;
                 congruence|].
    all: split; [intros r' E; injection E as <-; intros H;
                 try reflexivity; apply Hlit in H; congruence|].
    all: intros e E; discriminate E.
  - cbn. split; [reflexivity|].
    repeat split; intros; try discriminate; reflexivity.
Qed.

(** A two-line table served with status 200 is parsed into one mapping. *)
Lemma make_request_spec_witness :
  fst (make_request (Samples.table_network Samples.table1) (Some "key")
                    BASE_URL "domain_rank" [("domain", VStr "example.com")] [])
  = Ok (VDict [("Domain", VStr "example.com"); ("Rank", VStr "5")]).
Proof.
  exact (proj1 (proj2 (make_request_spec (Samples.table_network Samples.table1)
                         (Some "key") BASE_URL "domain_rank"
                         [("domain", VStr "example.com")] []))
               _ eq_refl eq_refl eq_refl).
Defined.

(** C8, as the specification words it, fails: a body served with status 200
    that does not hold the word ERROR as such, but holds its letters in
    lower case, is not parsed. *)
Lemma make_request_lower_case_error :
  let body := Samples.table_terror in
  let kwargs := [("domain", VStr "terror.com")] in
  let sent := make_request_request (Some "key") BASE_URL "domain_rank" kwargs in
  Samples.table_network body sent = Ok (Response 200 "OK" "" body Samples.no_json)
  /\ PyStr.contains "ERROR" body = false
  /\ parse_response body
     = VDict [("Domain", VStr "terror.com"); ("Rank", VStr "5")]
  /\ fst (make_request (Samples.table_network body) (Some "key") BASE_URL
                       "domain_rank" kwargs [])
     = Ok VNone.
Proof. cbv zeta. repeat split. Qed.

(* ===================================================================== *)
(** * Timeouts of the requests *)
(* ===================================================================== *)

Section Timeouts.

Variable network : request -> result response.
Variable SEMRUSH_API_KEY : option string.
Variables (url : string) (limit : Z).

(** Every request of the paging loop is sent without a timeout. *)
Lemma fetch_pages_log (fuel : nat) :
  forall (all_pages : list value) (current_page : Z) (log : list request),
  exists sent,
    snd (fetch_pages network SEMRUSH_API_KEY fuel url limit all_pages
                     current_page log) = (log ++ sent)%list
    /\ Forall no_timeout sent
    /\ (1 <= fuel -> sent <> []).
Proof.
  induction fuel as [|fuel IH]; intros all_pages current_page log.
  - exists []. cbn. rewrite app_nil_r. repeat split; [constructor | lia].
  - cbn [fetch_pages bind M_monad requests_get lift].
    set (req := page_request SEMRUSH_API_KEY url limit current_page).
    assert (Hone : exists sent,
               (log ++ [req])%list = (log ++ sent)%list
               /\ Forall no_timeout sent /\ (1 <= S fuel -> sent <> [])).
    { exists [req]. repeat split; [repeat constructor | discriminate]. }
    destruct (network req) as [r|e]; [|exact Hone].
    destruct (raise_for_status r); [|exact Hone].
    destruct (json r) as [data|e]; [|exact Hone].
    assert (Hfinish : exists sent,
               snd (finish all_pages data (log ++ [req])%list)
               = (log ++ sent)%list
               /\ Forall no_timeout sent /\ (1 <= S fuel -> sent <> [])).
    { unfold finish. cbn [bind M_monad lift].
      destruct (Py.get data "total" (VInt 0)); exact Hone. }
    destruct (Py.contains "data" data) as [[|]|e];
      [|exact Hfinish|exact Hone].
    destruct (Py.subscript data "data") as [pages_data|e]; [|exact Hone].
    destruct (Py.get data "total" (VInt 0)) as [total_count|e] eqn:Htotal;
      [|exact Hone].
    destruct (negb (Py.truthy pages_data)).
    { unfold finish. cbn [bind M_monad lift]. rewrite Htotal. exact Hone. }
    destruct (Py.iter pages_data) as [more|e]; [|exact Hone].
    destruct (Py.int_ge (list_len (all_pages ++ more)) total_count)
      as [[|]|e]; [| |exact Hone].
    { unfold finish. cbn [bind M_monad lift]. rewrite Htotal. exact Hone. }
    destruct (IH (all_pages ++ more)%list (current_page + 1)%Z
                 (log ++ [req])%list) as (sent & Hsent & Hall & _).
    exists (req :: sent). rewrite Hsent, <- app_assoc.
    repeat split; [constructor; [reflexivity | exact Hall] | discriminate].
Qed.

End Timeouts.

(** C7 on the code. The page fetch of the crawler is sent with a timeout of
    10 and the flat-text requests of [make_request] with a timeout of 30;
    the snapshot request of [get_all_issues_summary] and every page request
    of [get_issue_details] are sent without any timeout. *)
Theorem site_audit_requests_have_no_timeout
        (network : request -> result response) (bs4 : SoupAPI) (con : Console)
        (SEMRUSH_API_KEY : option string) :
  (forall domain log,
      exists r, snd (crawl_website_onpage network domain log) = (log ++ [r])%list
                /\ req_timeout r = Some 10%Z)
  /\ (forall url report_type kwargs log,
        exists r, snd (make_request network SEMRUSH_API_KEY url report_type
                                    kwargs log) = (log ++ [r])%list
                  /\ req_timeout r = Some 30%Z)
  /\ (forall project_id log,
        exists r, snd (get_all_issues_summary network SEMRUSH_API_KEY
                                              project_id log) = (log ++ [r])%list
                  /\ req_timeout r = None)
  /\ (forall fuel project_id snapshot_id issue_id limit log,
        exists sent,
          snd (get_issue_details network SEMRUSH_API_KEY (S fuel) project_id
                                 snapshot_id issue_id limit log)
          = (log ++ sent)%list
          /\ sent <> []
          /\ Forall (fun r => req_timeout r = None) sent)
  /\ map req_timeout
         (snd (get_all_issues_summary Samples.audit_network None "26460775" []))
     = [None].
Proof.
  split; [|split; [|split; [|split]]].
  - intros domain log. exists (crawl_request domain).
    rewrite crawl_cases. split; reflexivity.
  - intros url report_type kwargs log.
    exists (make_request_request SEMRUSH_API_KEY url report_type kwargs).
    split; [apply make_request_log | reflexivity].
  - intros project_id log. exists (snapshot_request SEMRUSH_API_KEY project_id).
    rewrite summary_log. split; reflexivity.
  - intros fuel project_id snapshot_id issue_id limit log.
    destruct (fetch_pages_log network SEMRUSH_API_KEY
                (issue_url project_id snapshot_id issue_id) limit (S fuel)
                [] 1%Z log) as (sent & Hsent & Hall & Hne).
    exists sent. unfold get_issue_details, except_Exception.
    destruct (fetch_pages _ _ _ _ _ _ _ _) as [[o|e] log'];
      [|destruct (is_Exception e);
        [cbn [bind M_monad lift]; destruct (print _) as [[]|]|]];
      cbn [snd ret M_monad] in *.
    all: split; [exact Hsent|]; split; [apply Hne; lia | exact Hall].
  - rewrite summary_log. reflexivity.
Qed.

(* ===================================================================== *)
(** * Further properties: mappings and tables *)
(* ===================================================================== *)

Lemma dict_set_not_nil (d : dict) (k : string) (v : value) : dict_set d k v <> [].
Proof.
  destruct d as [|[k' v'] d]; cbn; [discriminate|].
  destruct (String.eqb k' k); discriminate.
Qed.

Lemma dict_fold_not_nil (pairs : list (string * value)) (d : dict) :
  d <> [] \/ pairs <> [] ->
  fold_left (fun d kv => dict_set d (fst kv) (snd kv)) pairs d <> [].
Proof.
  revert d. induction pairs as [|[k v] pairs IH]; intros d H; cbn.
  - destruct H as [H|H]; [exact H | congruence].
  - apply IH. left. apply dict_set_not_nil.
Qed.

Lemma dict_zip_not_nil (hs vs : list string) :
  hs <> [] -> vs <> [] -> dict_zip hs vs <> [].
Proof.
  intros Hh Hv. unfold dict_zip, dict_of. apply dict_fold_not_nil. right.
  destruct hs; [congruence|]. destruct vs; [congruence|]. discriminate.
Qed.

Lemma table_row_truthy (header line : string) :
  Py.truthy (table_row header line) = true.
Proof.
  unfold table_row. cbn [Py.truthy].
  pose proof (dict_zip_not_nil (PyStr.split PyStr.SEMI header)
                (PyStr.split PyStr.SEMI line)
                (split_not_nil _ _) (split_not_nil _ _)) as H.
  destruct (dict_zip _ _); [congruence | reflexivity].
Qed.

(** The value of [parse_response], by the number of lines. *)
Lemma parse_response_cases (text : string) :
  parse_response text =
  match table_lines text with
  | [] | [_] => VNone
  | [header; line] => table_row header line
  | header :: data => VList (map (table_row header) data)
  end.
Proof.
  unfold parse_response, table_lines.
  destruct (PyStr.split PyStr.LF (PyStr.strip text)) as [|h [|l1 [|l2 ls]]];
    reflexivity.
Qed.

(** X1. [parse_response] returns [None] exactly for a text with fewer than
    two lines, and apart from [None] it never returns a value that counts
    as false: a mapping it returns has a key and a list it returns has at
    least two rows, each with a key. *)
Theorem parse_response_truthy (text : string) :
  (parse_response text = VNone <-> length (table_lines text) < 2)
  /\ Py.truthy (parse_response text) = has_rows text
  /\ (forall d, parse_response text = VDict d -> d <> [])
  /\ (forall rows, parse_response text = VList rows ->
        2 <= length rows
        /\ Forall (fun row => exists d, row = VDict d /\ d <> []) rows).
Proof.
  rewrite parse_response_cases. unfold has_rows.
  assert (Hrow : forall h l, exists d, table_row h l = VDict d /\ d <> []).
  { intros h l. eexists. split; [reflexivity|].
    apply dict_zip_not_nil; apply split_not_nil. }
  destruct (table_lines text) as [|h [|l1 [|l2 ls]]]; cbn [length].
  - repeat split; intros; try discriminate; try reflexivity; lia.
  - repeat split; intros; try discriminate; try reflexivity; lia.
  - split; [split; [unfold table_row; discriminate | lia]|].
    split; [apply table_row_truthy|].
    split; [|unfold table_row; discriminate].
    intros d E. destruct (Hrow h l1) as (d' & E' & Hd). congruence.
  - split; [split; [discriminate | lia]|].
    split; [reflexivity|]. split; [discriminate|].
    intros rows E. injection E as <-. cbn [length].
    split; [lia|]. constructor; [apply Hrow|]. constructor; [apply Hrow|].
    apply Forall_map. apply Forall_forall. intros l _. apply Hrow.
Qed.

(* --------------------------------------------------------------------- *)
(** ** The keys of a mapping *)

Lemma dict_set_keys (d : dict) (k : string) (v : value) :
  dict_keys (dict_set d k v) =
  if existsb (String.eqb k) (dict_keys d) then dict_keys d
  else (dict_keys d ++ [k])%list.
Proof.
  unfold dict_keys. induction d as [|[k' v'] d IH]; cbn; [reflexivity|].
  rewrite (String.eqb_sym k k').
  destruct (String.eqb k' k) eqn:E; cbn; [reflexivity|].
  rewrite IH. destruct (existsb (String.eqb k) (map fst d)); reflexivity.
Qed.

Lemma existsb_eqb_In (k : string) (l : list string) :
  existsb (String.eqb k) l = true <-> In k l.
Proof.
  rewrite existsb_exists. split.
  - intros (x & Hx & E). apply String.eqb_eq in E. subst. exact Hx.
  - intros H. exists k. split; [exact H | apply String.eqb_refl].
Qed.

Lemma dict_set_NoDup (d : dict) (k : string) (v : value) :
  NoDup (dict_keys d) -> NoDup (dict_keys (dict_set d k v)).
Proof.
  intros H. rewrite dict_set_keys.
  destruct (existsb (String.eqb k) (dict_keys d)) eqn:E; [exact H|].
  apply NoDup_app; [exact H | repeat constructor; intros [] |].
  intros x Hx [<-|[]]. apply existsb_eqb_In in Hx. congruence.
Qed.

Lemma dict_set_In (d : dict) (k x : string) (v : value) :
  In x (dict_keys (dict_set d k v)) <-> In x (dict_keys d) \/ x = k.
Proof.
  rewrite dict_set_keys.
  destruct (existsb (String.eqb k) (dict_keys d)) eqn:E.
  - apply existsb_eqb_In in E. split; [tauto|]. intros [H| ->]; assumption.
  - rewrite in_app_iff. cbn. split; intros [H|H]; auto.
    destruct H as [<-|[]]. right. reflexivity.
Qed.

Lemma dict_fold_keys (pairs : list (string * value)) (d : dict) :
  NoDup (dict_keys d) ->
  let d' := fold_left (fun d kv => dict_set d (fst kv) (snd kv)) pairs d in
  NoDup (dict_keys d')
  /\ forall x, In x (dict_keys d') <-> In x (dict_keys d) \/ In x (map fst pairs).
Proof.
  revert d. induction pairs as [|[k v] pairs IH]; intros d Hd; cbn.
  - split; [exact Hd | intros x; tauto].
  - destruct (IH (dict_set d k v) (dict_set_NoDup d k v Hd)) as [Hn Hin].
    split; [exact Hn|]. intros x. rewrite Hin, dict_set_In.
    split; intros H; intuition auto.
Qed.

Lemma combine_keys (hs vs : list string) :
  map fst (combine hs (map VStr vs)) = paired_headers hs vs.
Proof.
  unfold paired_headers. revert vs.
  induction hs as [|h hs IH]; intros vs; [destruct vs; reflexivity|].
  destruct vs as [|v vs]; [reflexivity|]. cbn. rewrite IH. reflexivity.
Qed.

Lemma assoc_last_In (l : list (string * value)) (k : string) (v : value) :
  assoc_last l k = Some v -> In k (map fst l).
Proof.
  revert v. induction l as [|[k0 v0] l IH]; intros v E; [discriminate E|].
  cbn in E |- *. destruct (assoc_last l k) as [x|].
  - right. apply (IH x). reflexivity.
  - destruct (String.eqb_spec k0 k) as [->|]; [left; reflexivity | discriminate E].
Qed.

(** X2. The mapping of a data line has no key twice; its keys are the header
    fields that meet a value, that is, the first fields of the header up to
    the number of values. So a line with fewer fields than the header leaves
    the last header fields out, and the values of a line beyond the header
    are dropped: no mapping has more keys than the header or the line has
    fields. *)
Theorem dict_zip_keys (headers values : list string) :
  NoDup (dict_keys (dict_zip headers values))
  /\ (forall k, In k (dict_keys (dict_zip headers values))
                <-> In k (paired_headers headers values))
  /\ length (dict_keys (dict_zip headers values))
     <= Nat.min (length headers) (length values)
  /\ (forall k, ~ In k (paired_headers headers values) ->
        dict_get (dict_zip headers values) k = None).
Proof.
  unfold dict_zip, dict_of.
  destruct (dict_fold_keys (combine headers (map VStr values)) []
              (NoDup_nil _)) as [Hn Hin].
  cbv zeta in Hn, Hin. rewrite combine_keys in Hin.
  assert (Hk : forall k,
             In k (dict_keys
                     (fold_left (fun d kv => dict_set d (fst kv) (snd kv))
                                (combine headers (map VStr values)) []))
             <-> In k (paired_headers headers values)).
  { intros k. rewrite Hin. cbn. tauto. }
  split; [exact Hn|]. split; [exact Hk|]. split.
  - transitivity (length (paired_headers headers values)).
    + apply NoDup_incl_length; [exact Hn|]. intros k. apply Hk.
    + unfold paired_headers. rewrite length_firstn. lia.
  - intros h Hnot.
    fold (dict_of (combine headers (map VStr values))).
    rewrite dict_get_dict_of.
    destruct (assoc_last (combine headers (map VStr values)) h) eqn:E;
      [|reflexivity].
    exfalso. apply Hnot. rewrite <- combine_keys.
    eapply assoc_last_In. exact E.
Qed.

(* ===================================================================== *)
(** * Further properties: the endpoints over the flat-text provider *)
(* ===================================================================== *)

Lemma truthy_parse_response (text : string) :
  Py.truthy (parse_response text) = has_rows text.
Proof.
  rewrite parse_response_cases. unfold has_rows.
  destruct (table_lines text) as [|h [|l1 [|l2 ls]]]; try reflexivity.
  apply table_row_truthy.
Qed.

(** What [make_request] returns and sends, for every outcome of the
    request. *)
Lemma make_request_cases
      (network : request -> result response) (SEMRUSH_API_KEY : option string)
      (url report_type : string) (kwargs : dict) (log : list request) :
  let sent := make_request_request SEMRUSH_API_KEY url report_type kwargs in
  make_request network SEMRUSH_API_KEY url report_type kwargs log =
  (Ok match network sent with
      | Ok r =>
          if (status_code r =? 200)%Z && negb (mentions_error (text r))
          then parse_response (text r) else VNone
      | Raise _ => VNone
      end,
   (log ++ [sent])%list).
Proof.
  cbv zeta. unfold make_request, try_except, mentions_error.
  cbn [bind M_monad requests_get].
  destruct (network _) as [r|e]; [|reflexivity].
  destruct (_ && _); reflexivity.
Qed.

Lemma found_or_404_flat (outcome : result response) :
  found_or_404
    match outcome with
    | Ok r =>
        if (status_code r =? 200)%Z && negb (mentions_error (text r))
        then parse_response (text r) else VNone
    | Raise _ => VNone
    end
  = flat_reply outcome.
Proof.
  unfold found_or_404, flat_reply. destruct outcome as [r|e]; [|reflexivity].
  destruct ((status_code r =? 200)%Z && negb (mentions_error (text r)));
    [|reflexivity].
  cbn [andb]. rewrite truthy_parse_response. reflexivity.
Qed.

Ltac flat_endpoint :=
  intros; cbv zeta;
  match goal with
  | |- ?f _ _ _ _ = _ => unfold f
  end;
  cbn [bind M_monad]; rewrite make_request_cases; cbv zeta;
  cbn [ret M_monad]; rewrite found_or_404_flat; reflexivity.

(** X3. Each of the six endpoints over [make_request] sends exactly one
    request and raises nothing but the 404 it answers with. It answers with
    success and the parsed table exactly when the provider answers with
    status 200 and a body that has a header line and a data line and holds
    the word error in no mix of cases; in every other case, an exception of
    the request included, it answers 404 Not found. *)
Theorem flat_endpoints_reply
        (network : request -> result response) (SEMRUSH_API_KEY : option string)
        (log : list request) :
  let sent := make_request_request SEMRUSH_API_KEY BASE_URL in
  let answer r := (Ok (flat_reply (network r)), (log ++ [r])%list) in
  (forall req,
      get_domain_overview network SEMRUSH_API_KEY req log
      = answer (sent "domain_rank"
                  [ ("domain", VStr (DomainRequest.domain req));
                    ("database", VStr (DomainRequest.database req)) ]))
  /\ (forall req,
        get_organic_keywords network SEMRUSH_API_KEY req log
        = answer (sent "domain_organic"
                    [ ("domain", VStr (DomainRequest.domain req));
                      ("database", VStr (DomainRequest.database req));
                      ("display_limit", VInt 100); ("export_escape", VInt 1) ]))
  /\ (forall req,
        get_competitors network SEMRUSH_API_KEY req log
        = answer (sent "domain_organic_organic"
                    [ ("domain", VStr (DomainRequest.domain req));
                      ("database", VStr (DomainRequest.database req));
                      ("display_limit", VInt 20) ]))
  /\ (forall req,
        get_keyword_overview network SEMRUSH_API_KEY req log
        = answer (sent "phrase_this"
                    [ ("phrase", VStr (KeywordRequest.keyword req));
                      ("database", VStr (KeywordRequest.database req));
                      ("export_escape", VInt 1) ]))
  /\ (forall req,
        get_related_keywords network SEMRUSH_API_KEY req log
        = answer (sent "phrase_related"
                    [ ("phrase", VStr (KeywordRequest.keyword req));
                      ("database", VStr (KeywordRequest.database req));
                      ("display_limit", VInt (KeywordRequest.limit req));
                      ("export_escape", VInt 1) ]))
  /\ (forall req,
        get_serp network SEMRUSH_API_KEY req log
        = answer (sent "phrase_organic"
                    [ ("phrase", VStr (KeywordRequest.keyword req));
                      ("database", VStr (KeywordRequest.database req));
                      ("display_limit", VInt (KeywordRequest.limit req));
                      ("export_escape", VInt 1) ])).
Proof.
  cbv zeta. repeat split; flat_endpoint.
Qed.

(* --------------------------------------------------------------------- *)
(** ** Backlinks *)

(** X4. [get_anchors] sends one request and answers with success and the
    parsed table exactly when the status is 200 and the body has a header
    line and a data line; otherwise it answers 404. Other than the
    endpoints over [make_request] it does not look for the word error: a
    body of two lines that holds it is served as data. *)
Theorem get_anchors_reply
        (network : request -> result response) (SEMRUSH_API_KEY : option string)
        (req : DomainRequest.t) (log : list request) :
  let sent := anchors_request SEMRUSH_API_KEY req in
  get_anchors network SEMRUSH_API_KEY req log
  = (Ok (anchors_reply (network sent)), (log ++ [sent])%list)
  /\ (forall r, network sent = Ok r -> status_code r = 200%Z ->
        has_rows (text r) = true -> mentions_error (text r) = true ->
        fst (get_anchors network SEMRUSH_API_KEY req log)
        = Ok (success_reply (parse_response (text r))))
  /\ req_timeout sent = Some 30%Z.
Proof.
  cbv zeta.
  assert (H : get_anchors network SEMRUSH_API_KEY req log
              = (Ok (anchors_reply (network (anchors_request SEMRUSH_API_KEY req))),
                 (log ++ [anchors_request SEMRUSH_API_KEY req])%list)).
  { unfold get_anchors, try_except, anchors_reply.
    cbn [bind M_monad requests_get].
    destruct (network _) as [r|e]; [|reflexivity].
    destruct (status_code r =? 200)%Z; [|reflexivity].
    cbn [andb]. rewrite truthy_parse_response.
    destruct (has_rows (text r)); reflexivity. }
  split; [exact H|]. split; [|reflexivity].
  intros r Hnet Hst Hrows _. rewrite H, Hnet. cbn [fst anchors_reply].
  rewrite Hst, Hrows. reflexivity.
Qed.

(** A body of two lines that reports an error is served by [get_anchors]. *)
Lemma get_anchors_reply_witness :
  fst (get_anchors (Samples.table_network Samples.table_terror) None
                   Cases.domain_request [])
  = Ok (success_reply
          (VDict [("Domain", VStr "terror.com"); ("Rank", VStr "5")])).
Proof.
  exact (proj1 (proj2 (get_anchors_reply
                         (Samples.table_network Samples.table_terror) None
                         Cases.domain_request []))
               _ eq_refl eq_refl eq_refl eq_refl).
Defined.

Section Refdomains.

Variable network : request -> result response.
Variable SEMRUSH_API_KEY : option string.
Context {fl : FloatAPI}.

Local Abbreviation is_toxic := (fun score => float_lt score 30).
Local Abbreviation is_potentially_toxic :=
(fun score => negb (float_lt score 30) && float_lt score 50).
Local Abbreviation is_healthy :=
(fun score => negb (float_lt score 30) && negb (float_lt score 50)).

(** The loop puts every domain into exactly one of the three lists, by its
  score. *)
Lemma sort_domains_partition (domains : list value) :
forall toxic potentially_toxic healthy toxic' potentially_toxic' healthy',
  for_each sort_domain domains (toxic, potentially_toxic, healthy)
  = Ok (toxic', potentially_toxic', healthy') ->
  Permutation (toxic' ++ potentially_toxic' ++ healthy')
              (toxic ++ potentially_toxic ++ healthy ++ domains)
  /\ (Forall (scored is_toxic) toxic -> Forall (scored is_toxic) toxic')
  /\ (Forall (scored is_potentially_toxic) potentially_toxic ->
      Forall (scored is_potentially_toxic) potentially_toxic')
  /\ (Forall (scored is_healthy) healthy -> Forall (scored is_healthy) healthy').
Proof.
induction domains as [|d domains IH]; intros t p h t' p' h' H.
- cbn in H. injection H as <- <- <-. rewrite app_nil_r. auto.
- cbn [for_each bind result_monad] in H.
  destruct (sort_domain (t, p, h) d) as [[[t1 p1] h1]|e] eqn:Hd;
    [|discriminate H].
  destruct (IH _ _ _ _ _ _ H) as (Hperm & Ht & Hp & Hh). clear IH H.
  unfold sort_domain in Hd. cbn [bind result_monad] in Hd.
  destruct (Py.get d "domain_ascore" (VInt 0)) as [ascore|] eqn:Ha;
    [|discriminate Hd].
  destruct (Py2.float ascore) as [score|] eqn:Hs; [|discriminate Hd].
  assert (Hscore : score_of d = Ok score).
  { unfold score_of. cbn [bind result_monad]. rewrite Ha. exact Hs. }
  destruct (float_lt score 30) eqn:E30; [|destruct (float_lt score 50) eqn:E50];
    cbn [ret result_monad] in Hd; injection Hd as <- <- <-;
    (split; [|split; [|split]]).
  all: try solve [auto].
  all: try solve [intros F; first [apply Ht | apply Hp | apply Hh];
                  apply Forall_app; split; [exact F|];
                  constructor; [|constructor];
                  exists score; split; [exact Hscore|];
                  rewrite ?E30, ?E50; reflexivity].
  + rewrite Hperm. rewrite <- !app_assoc.
    apply Permutation_app_head. cbn [app].
    rewrite !(app_assoc p h). apply Permutation_middle.
  + rewrite Hperm. rewrite <- !app_assoc.
    apply Permutation_app_head, Permutation_app_head. cbn [app].
    apply Permutation_middle.
  + rewrite Hperm. rewrite <- !app_assoc. reflexivity.
Qed.

(** X5. When the provider answers with exactly one referring domain, that
  is, with a header line and one data line, [get_referring_domains]
  answers 404 Not found, whatever the score is: the single mapping is
  walked through key by key, and a key has no score. *)
Theorem get_referring_domains_single_row
      (req : DomainRequest.t) (log : list request) (r : response) :
network (refdomains_request SEMRUSH_API_KEY req) = Ok r ->
status_code r = 200%Z ->
length (table_lines (text r)) = 2 ->
get_referring_domains network SEMRUSH_API_KEY req log
= (Ok not_found, (log ++ [refdomains_request SEMRUSH_API_KEY req])%list)
/\ Py.truthy (parse_response (text r)) = true.
Proof.
intros Hnet Hst Hlen.
unfold get_referring_domains, try_except.
cbn [bind M_monad requests_get lift]. rewrite Hnet, Hst. cbn [Z.eqb Pos.eqb].
rewrite parse_response_cases.
destruct (table_lines (text r)) as [|h [|l [|l2 ls]]]; try discriminate Hlen.
rewrite table_row_truthy. split; [|reflexivity].
unfold table_row. cbn [Py.iter].
pose proof (dict_zip_not_nil (PyStr.split PyStr.SEMI h)
              (PyStr.split PyStr.SEMI l)
              (split_not_nil _ _) (split_not_nil _ _)) as Hne.
destruct (dict_zip _ _) as [|[k v] d]; [congruence|]. reflexivity.
Qed.

(** X6. When [get_referring_domains] answers with success, the data are the
  rows of a table of at least two data lines, every row is counted in
  exactly one of the three classes, the three counts add up to the total,
  and a row is toxic for a score below 30, potentially toxic for a score
  from 30 and below 50, and healthy otherwise. *)
Theorem get_referring_domains_analysis
      (req : DomainRequest.t) (log log' : list request) (body : value) :
get_referring_domains network SEMRUSH_API_KEY req log = (Ok (Reply body), log') ->
exists rows toxic potentially_toxic healthy,
  body = VDict
           [ ("success", VBool true);
             ("data", VList rows);
             ("analysis",
               VDict [ ("total", VInt (list_len rows));
                       ("toxic", VInt (list_len toxic));
                       ("potentially_toxic", VInt (list_len potentially_toxic));
                       ("healthy", VInt (list_len healthy)) ]) ]
  /\ 2 <= length rows
  /\ Permutation (toxic ++ potentially_toxic ++ healthy) rows
  /\ (list_len toxic + list_len potentially_toxic + list_len healthy
      = list_len rows)%Z
  /\ Forall (scored is_toxic) toxic
  /\ Forall (scored is_potentially_toxic) potentially_toxic
  /\ Forall (scored is_healthy) healthy.
Proof.
unfold get_referring_domains, try_except.
cbn [bind M_monad requests_get lift].
destruct (network _) as [r|e]; [|discriminate].
destruct (status_code r =? 200)%Z; [|discriminate].
destruct (Py.truthy (parse_response (text r))) eqn:Htruthy; [|discriminate].
destruct (Py.iter (parse_response (text r))) as [domains|e] eqn:Hiter;
  [|discriminate].
destruct (for_each sort_domain domains ([], [], [])) as [[[t p] h]|e] eqn:Hloop;
  [|discriminate].
unfold len_of. cbn [bind result_monad]. rewrite Hiter. cbn [ret result_monad M_monad].
intros H. injection H as <- _.
destruct (sort_domains_partition domains _ _ _ _ _ _ Hloop)
  as (Hperm & Ht & Hp & Hh). cbn [app] in Hperm.
assert (Hrows : parse_response (text r) = VList domains /\ 2 <= length domains).
{ rewrite parse_response_cases in *.
  destruct (table_lines (text r)) as [|hd [|l [|l2 ls]]];
    try discriminate Htruthy.
  - exfalso. unfold table_row in Hiter. cbn [Py.iter] in Hiter.
    injection Hiter as <-.
    pose proof (dict_zip_not_nil (PyStr.split PyStr.SEMI hd)
                  (PyStr.split PyStr.SEMI l)
                  (split_not_nil _ _) (split_not_nil _ _)) as Hne.
    destruct (dict_zip _ _) as [|[k v] d]; [congruence|].
    discriminate Hloop.
  - cbn [Py.iter] in Hiter. injection Hiter as <-.
    split; [reflexivity | cbn [map length]; lia]. }
destruct Hrows as [-> Hlen].
exists domains, t, p, h. split; [reflexivity|]. split; [exact Hlen|].
split; [exact Hperm|]. split.
- apply Permutation_length in Hperm. rewrite !length_app in Hperm.
  unfold list_len. lia.
- split; [apply Ht; constructor|]. split; [apply Hp | apply Hh]; constructor.
Qed.

End Refdomains.

(** Three referring domains with the scores 12, 45 and 80: one in each
    class. *)
Lemma get_referring_domains_analysis_witness :
  fst (get_referring_domains (Samples.table_network Cases.refdomains_body) None
                             (fl := WholeFloat.api) Cases.domain_request [])
  = Ok (Reply Cases.refdomains_reply)
  /\ exists rows toxic potentially_toxic healthy : list value,
      Cases.refdomains_reply
      = VDict
          [ ("success", VBool true);
            ("data", VList rows);
            ("analysis",
              VDict [ ("total", VInt (list_len rows));
                      ("toxic", VInt (list_len toxic));
                      ("potentially_toxic", VInt (list_len potentially_toxic));
                      ("healthy", VInt (list_len healthy)) ]) ]
      /\ (list_len toxic + list_len potentially_toxic + list_len healthy
          = list_len rows)%Z.
Proof.
  split; [reflexivity|].
  destruct (get_referring_domains_analysis
              (Samples.table_network Cases.refdomains_body) None
              (fl := WholeFloat.api) Cases.domain_request []
              [refdomains_request None Cases.domain_request]
              Cases.refdomains_reply eq_refl)
    as (rows & t & p & h & Hbody & _ & _ & Hsum & _).
  exists rows, t, p, h. split; [exact Hbody | exact Hsum].
Defined.

(** One referring domain, served with status 200, is answered with 404. *)
Lemma get_referring_domains_single_row_witness :
  fst (get_referring_domains (Samples.table_network Cases.one_refdomain_body)
                             None (fl := WholeFloat.api) Cases.domain_request [])
  = Ok (HTTPException 404 "Not found").
Proof.
  exact (f_equal fst
           (proj1 (get_referring_domains_single_row
                     (Samples.table_network Cases.one_refdomain_body) None
                     (fl := WholeFloat.api) Cases.domain_request [] _
                     eq_refl eq_refl eq_refl))).
Defined.

(* ===================================================================== *)
(** * Further properties: the endpoints over the site audit *)
(* ===================================================================== *)

Lemma make_request_free
      (network : request -> result response) (SEMRUSH_API_KEY : option string)
      (url report_type : string) (kwargs : dict) (log : list request) :
  make_request network SEMRUSH_API_KEY url report_type kwargs log =
  (fst (make_request network SEMRUSH_API_KEY url report_type kwargs []),
   (log ++ [make_request_request SEMRUSH_API_KEY url report_type kwargs])%list).
Proof. rewrite !make_request_cases. reflexivity. Qed.

Section Analysis.

Variable network : request -> result response.
Variable SEMRUSH_API_KEY : option string.
Variable PROJECT_ID : string.
Context {bs4 : SoupAPI} {con : Console}.
Variable req : DomainRequest.t.

Let domain := VStr (DomainRequest.domain req).
Let database := VStr (DomainRequest.database req).
Let sent1 := make_request_request SEMRUSH_API_KEY BASE_URL "domain_rank"
             [("domain", domain); ("database", database)].
Let sent2 := make_request_request SEMRUSH_API_KEY BASE_URL "domain_organic"
             [ ("domain", domain); ("database", database);
               ("display_limit", VInt 50); ("export_escape", VInt 1) ].
Let sent3 := make_request_request SEMRUSH_API_KEY BASE_URL "domain_organic_organic"
             [ ("domain", domain); ("database", database);
               ("display_limit", VInt 10) ].
Let sent4 := backlinks_overview_request SEMRUSH_API_KEY req.
Let sent5 := crawl_request (DomainRequest.domain req).
Let sent6 := snapshot_request SEMRUSH_API_KEY PROJECT_ID.

(** The complete analysis, from what its parts return or raise. *)
Lemma complete_analysis_cases (log : list request)
    (overview keywords competitors : value) :
fst (make_request network SEMRUSH_API_KEY BASE_URL "domain_rank"
       [("domain", domain); ("database", database)] []) = Ok overview ->
fst (make_request network SEMRUSH_API_KEY BASE_URL "domain_organic"
       [ ("domain", domain); ("database", database);
         ("display_limit", VInt 50); ("export_escape", VInt 1) ] [])
= Ok keywords ->
fst (make_request network SEMRUSH_API_KEY BASE_URL "domain_organic_organic"
       [ ("domain", domain); ("database", database);
         ("display_limit", VInt 10) ] []) = Ok competitors ->
complete_analysis network SEMRUSH_API_KEY PROJECT_ID req log =
match fst (crawl_website_onpage network (DomainRequest.domain req) []) with
| Raise e => (Raise e, (log ++ [sent1; sent2; sent3; sent4; sent5])%list)
| Ok onpage =>
    (match fst (get_all_issues_summary network SEMRUSH_API_KEY PROJECT_ID []) with
     | Raise e => Raise e
     | Ok summary =>
         Ok (Reply (VDict [ ("success", VBool true);
                            ("data",
                              VDict (analysis_results overview keywords
                                       competitors (network sent4) onpage
                                       (fst summary))) ]))
     end,
     (log ++ [sent1; sent2; sent3; sent4; sent5; sent6])%list)
end.
Proof.
intros H1 H2 H3.
unfold complete_analysis. cbn [bind M_monad].
rewrite make_request_free. fold domain database. rewrite H1.
rewrite make_request_free. fold domain database. rewrite H2.
rewrite make_request_free. fold domain database. rewrite H3.
unfold try_except. cbn [bind M_monad requests_get].
fold sent1 sent2 sent3 sent4.
assert (Hlog5 : forall a b c d e : request,
           (((((log ++ [a]) ++ [b]) ++ [c]) ++ [d]) ++ [e])%list
           = (log ++ [a; b; c; d; e])%list).
{ intros. rewrite <- !app_assoc. reflexivity. }
assert (Hlog6 : forall a b c d e f : request,
           ((((((log ++ [a]) ++ [b]) ++ [c]) ++ [d]) ++ [e]) ++ [f])%list
           = (log ++ [a; b; c; d; e; f])%list).
{ intros. rewrite <- !app_assoc. reflexivity. }
unfold analysis_results.
destruct (network sent4) as [r|e4];
  [destruct (status_code r =? 200)%Z|]; cbn [ret M_monad];
  rewrite crawl_log; fold sent5;
  (destruct (fst (crawl_website_onpage network (DomainRequest.domain req) []))
    as [onpage|e5]; [|rewrite Hlog5; reflexivity]);
  rewrite summary_log; fold sent6; rewrite Hlog6;
  (destruct (fst (get_all_issues_summary network SEMRUSH_API_KEY PROJECT_ID []))
    as [[issues sid]|e6]; [|reflexivity]);
  destruct issues; reflexivity.
Qed.

End Analysis.
(** [make_request] always returns. *)
Lemma make_request_returns
      (network : request -> result response) (SEMRUSH_API_KEY : option string)
      (url report_type : string) (kwargs : dict) :
  exists v, fst (make_request network SEMRUSH_API_KEY url report_type kwargs [])
            = Ok v.
Proof. rewrite make_request_cases. eexists. reflexivity. Qed.

(** X7. [complete_analysis] first sends five requests, in a fixed order and
    whatever the outcome of each: three flat-text reports and the backlinks
    overview with a timeout of 30, then the page fetch with a timeout of
    10. The snapshot request of the audit follows, without a timeout,
    exactly when the crawler returned. The endpoint raises what the crawler
    raises, and otherwise what the summary raises; when both return it
    answers with success. It never answers without success. *)
Theorem complete_analysis_runs
        (network : request -> result response) (SEMRUSH_API_KEY : option string)
        (PROJECT_ID : string) (bs4 : SoupAPI) (con : Console)
        (req : DomainRequest.t) (log : list request) :
  let run := complete_analysis network SEMRUSH_API_KEY PROJECT_ID req log in
  let crawled := fst (crawl_website_onpage network (DomainRequest.domain req) []) in
  let summary := fst (get_all_issues_summary network SEMRUSH_API_KEY PROJECT_ID []) in
  exists sent,
    snd run = (log ++ sent)%list
    /\ map req_url (firstn 5 sent)
       = [ BASE_URL; BASE_URL; BASE_URL; BACKLINKS_URL;
           crawl_url (DomainRequest.domain req) ]
    /\ map (fun r => dict_get (req_params r) "type") (firstn 5 sent)
       = [ Some (VStr "domain_rank"); Some (VStr "domain_organic");
           Some (VStr "domain_organic_organic"); Some (VStr "backlinks_overview");
           None ]
    /\ map req_timeout (firstn 5 sent)
       = [Some 30; Some 30; Some 30; Some 30; Some 10]%Z
    /\ skipn 5 sent
       = match crawled with
         | Ok _ => [snapshot_request SEMRUSH_API_KEY PROJECT_ID]
         | Raise _ => []
         end
    /\ req_timeout (snapshot_request SEMRUSH_API_KEY PROJECT_ID) = None
    /\ (forall e, crawled = Raise e -> fst run = Raise e)
    /\ (forall onpage e, crawled = Ok onpage -> summary = Raise e ->
          fst run = Raise e)
    /\ (forall onpage s, crawled = Ok onpage -> summary = Ok s ->
          exists results,
            fst run = Ok (Reply (VDict [ ("success", VBool true);
                                         ("data", VDict results) ])))
    /\ (forall reply, fst run = Ok reply ->
          exists results,
            reply = Reply (VDict [ ("success", VBool true);
                                   ("data", VDict results) ])).
Proof.
  cbv zeta.
  set (domain := VStr (DomainRequest.domain req)).
  set (database := VStr (DomainRequest.database req)).
  destruct (make_request_returns network SEMRUSH_API_KEY BASE_URL "domain_rank"
              [("domain", domain); ("database", database)]) as [v1 H1].
  destruct (make_request_returns network SEMRUSH_API_KEY BASE_URL "domain_organic"
              [ ("domain", domain); ("database", database);
                ("display_limit", VInt 50); ("export_escape", VInt 1) ])
    as [v2 H2].
  destruct (make_request_returns network SEMRUSH_API_KEY BASE_URL
              "domain_organic_organic"
              [ ("domain", domain); ("database", database);
                ("display_limit", VInt 10) ]) as [v3 H3].
  rewrite (complete_analysis_cases network SEMRUSH_API_KEY PROJECT_ID req log
             v1 v2 v3 H1 H2 H3).
  destruct (fst (crawl_website_onpage network (DomainRequest.domain req) []))
    as [onpage|e5].
  - eexists. split; [reflexivity|]. cbn [firstn skipn map fst snd].
    repeat (split; [reflexivity|]).
    split; [intros e H; discriminate H|].
    split; [intros onpage' e _ ->; reflexivity|].
    split; [intros onpage' s _ ->; eexists; reflexivity|].
    intros reply H.
    destruct (fst (get_all_issues_summary network SEMRUSH_API_KEY PROJECT_ID []))
      as [s|e]; [|discriminate H].
    injection H as <-. eexists. reflexivity.
  - eexists. split; [reflexivity|]. cbn [firstn skipn map fst snd].
    repeat (split; [reflexivity|]).
    split; [intros e H; injection H as <-; reflexivity|].
    split; [intros onpage e H; discriminate H|].
    split; [intros onpage s H; discriminate H|].
    intros reply H. discriminate H.
Qed.

(** X8. When the crawler and the summary return, the data of the complete
    analysis hold what the parts return, under fixed keys: the three
    flat-text reports, the page signals, and the issues of the audit when
    there are any. The backlinks overview is the parsed body for status
    200, [None] when the request raises, and has no key at all for any
    other status; the site audit has no key when the summary is empty. *)
Theorem complete_analysis_data
        (network : request -> result response) (SEMRUSH_API_KEY : option string)
        (PROJECT_ID : string) (bs4 : SoupAPI) (con : Console)
        (req : DomainRequest.t) (log : list request)
        (onpage : dict) (issues : list value) (snapshot_id : value) :
  let domain := VStr (DomainRequest.domain req) in
  let database := VStr (DomainRequest.database req) in
  let report report_type kwargs :=
    fst (make_request network SEMRUSH_API_KEY BASE_URL report_type kwargs []) in
  fst (crawl_website_onpage network (DomainRequest.domain req) []) = Ok onpage ->
  fst (get_all_issues_summary network SEMRUSH_API_KEY PROJECT_ID [])
  = Ok (issues, snapshot_id) ->
  exists overview keywords competitors results,
    report "domain_rank" [("domain", domain); ("database", database)]
    = Ok overview
    /\ report "domain_organic"
              [ ("domain", domain); ("database", database);
                ("display_limit", VInt 50); ("export_escape", VInt 1) ]
       = Ok keywords
    /\ report "domain_organic_organic"
              [ ("domain", domain); ("database", database);
                ("display_limit", VInt 10) ]
       = Ok competitors
    /\ fst (complete_analysis network SEMRUSH_API_KEY PROJECT_ID req log)
       = Ok (Reply (VDict [("success", VBool true); ("data", VDict results)]))
    /\ dict_get results "domain_overview" = Some overview
    /\ dict_get results "organic_keywords" = Some keywords
    /\ dict_get results "competitors" = Some competitors
    /\ dict_get results "onpage_analysis" = Some (VDict onpage)
    /\ dict_get results "backlinks_overview"
       = match network (backlinks_overview_request SEMRUSH_API_KEY req) with
         | Ok r => if (status_code r =? 200)%Z
                   then Some (parse_response (text r)) else None
         | Raise _ => Some VNone
         end
    /\ dict_get results "site_audit"
       = match issues with
         | [] => None
         | _ => Some (VDict [("issues", VList issues)])
         end
    /\ NoDup (dict_keys results).
Proof.
  cbv zeta. intros H5 H6.
  set (domain := VStr (DomainRequest.domain req)).
  set (database := VStr (DomainRequest.database req)).
  destruct (make_request_returns network SEMRUSH_API_KEY BASE_URL "domain_rank"
              [("domain", domain); ("database", database)]) as [v1 H1].
  destruct (make_request_returns network SEMRUSH_API_KEY BASE_URL "domain_organic"
              [ ("domain", domain); ("database", database);
                ("display_limit", VInt 50); ("export_escape", VInt 1) ])
    as [v2 H2].
  destruct (make_request_returns network SEMRUSH_API_KEY BASE_URL
              "domain_organic_organic"
              [ ("domain", domain); ("database", database);
                ("display_limit", VInt 10) ]) as [v3 H3].
  exists v1, v2, v3.
  eexists. split; [exact H1|]. split; [exact H2|]. split; [exact H3|]. split.
  - rewrite (complete_analysis_cases network SEMRUSH_API_KEY PROJECT_ID req log
               v1 v2 v3 H1 H2 H3).
    rewrite H5, H6. reflexivity.
  - unfold analysis_results. cbn [fst].
    destruct (network (backlinks_overview_request SEMRUSH_API_KEY req)) as [r|e];
      [destruct (status_code r =? 200)%Z|]; destruct issues;
      repeat split;
      repeat (constructor; [cbn; intuition discriminate|]); constructor.
Qed.

(** A complete analysis of the sample site: the provider answers every
    request with the audit of the example and an empty text. *)
Lemma complete_analysis_data_witness :
  exists results,
    fst (complete_analysis (bs4 := Samples.page_api) (con := Samples.terminal)
           Samples.audit_network None "26460775" Cases.domain_request [])
    = Ok (Reply (VDict [("success", VBool true); ("data", VDict results)]))
    /\ dict_get results "domain_overview" = Some VNone
    /\ dict_get results "onpage_analysis" = Some (VDict Samples.page_result)
    /\ dict_get results "backlinks_overview" = Some VNone
    /\ exists issues,
         dict_get results "site_audit" = Some (VDict [("issues", VList issues)])
         /\ length issues = 2.
Proof.
  destruct (complete_analysis_data Samples.audit_network None "26460775"
              Samples.page_api Samples.terminal Cases.domain_request []
              _ _ _ eq_refl eq_refl)
    as (overview & keywords & competitors & results & H1 & _ & _ & Hrun & Ho
        & _ & _ & Hp & Hb & Hs & _).
  injection H1 as <-.
  exists results. split; [exact Hrun|]. split; [exact Ho|].
  split; [exact Hp|]. split; [exact Hb|].
  eexists. split; [exact Hs | reflexivity].
Defined.
(** X9. [get_site_audit_issues] sends the one request of the summary, for
    the project of the request (the text [None] when it names none),
    whatever comes of it. When the summary returns, the endpoint answers
    with success, the records and the snapshot id exactly when the summary
    holds a record and the snapshot id counts as true, and without success
    otherwise; when the summary raises, the endpoint raises the same. So a
    summary without a record and a response without a snapshot id get the
    same answer without success, and so does a request that raised an
    [Exception] once the console has written the line that reports it. *)
Theorem get_site_audit_issues_reply
        (network : request -> result response) (SEMRUSH_API_KEY : option string)
        (con : Console) (req : SiteAuditRequest.t) (log : list request) :
  let project := project_text (SiteAuditRequest.project_id req) in
  let sent := snapshot_request SEMRUSH_API_KEY project in
  let run := get_site_audit_issues network SEMRUSH_API_KEY req log in
  let summary := fst (get_all_issues_summary network SEMRUSH_API_KEY project []) in
  snd run = (log ++ [sent])%list
  /\ (forall issues snapshot_id,
        summary = Ok (issues, snapshot_id) ->
        fst run = Ok (if Py.truthy (VList issues) && Py.truthy snapshot_id
                      then issues_found issues snapshot_id else no_issues))
  /\ (forall e, summary = Raise e -> fst run = Raise e)
  /\ (forall e, network sent = Raise e -> is_Exception e = true ->
        prints ("Error fetching issues summary: " ++ exn_str e) ->
        fst run = Ok no_issues)
  /\ (forall r data errors warnings notices,
        network sent = Ok r -> status_ok r -> json r = Ok (VDict data) ->
        section_is data "errors" errors ->
        section_is data "warnings" warnings ->
        section_is data "notices" notices ->
        fst run
        = Ok match dict_get data "snapshot_id",
                   records_of errors warnings notices with
             | Some snapshot_id, (_ :: _) as records =>
                 if Py.truthy snapshot_id
                 then issues_found records snapshot_id else no_issues
             | _, _ => no_issues
             end).
Proof.
  cbv zeta.
  assert (Hp : PyFmt.str_opt (SiteAuditRequest.project_id req)
               = project_text (SiteAuditRequest.project_id req)).
  { destruct (SiteAuditRequest.project_id req); reflexivity. }
  set (project := project_text (SiteAuditRequest.project_id req)) in *.
  unfold get_site_audit_issues. cbn [bind M_monad]. rewrite Hp, summary_log.
  assert (Hrun : forall (issues : list value) (snapshot_id : value) (b : bool),
             (if b then ret (issues_found issues snapshot_id)
              else ret no_issues : M reply)
               (log ++ [snapshot_request SEMRUSH_API_KEY project])%list
             = (Ok (if b then issues_found issues snapshot_id else no_issues),
                (log ++ [snapshot_request SEMRUSH_API_KEY project])%list)).
  { intros issues snapshot_id []; reflexivity. }
  assert (Hok : forall issues snapshot_id,
             fst (get_all_issues_summary network SEMRUSH_API_KEY project [])
             = Ok (issues, snapshot_id) ->
             fst match fst (get_all_issues_summary network SEMRUSH_API_KEY
                              project []) with
                 | Ok a =>
                     (let '(issues0, snapshot_id0) := a in
                      if Py.truthy (VList issues0) && Py.truthy snapshot_id0
                      then ret (Reply (VDict [ ("success", VBool true);
                                               ("data", VList issues0);
                                               ("snapshot_id", snapshot_id0) ]))
                      else ret (Reply (VDict
                                         [ ("success", VBool false);
                                           ("message",
                                             VStr "No issues found or error fetching issues") ])))
                       (log ++ [snapshot_request SEMRUSH_API_KEY project])%list
                 | Raise e =>
                     (Raise e, (log ++ [snapshot_request SEMRUSH_API_KEY project])%list)
                 end
             = Ok (if Py.truthy (VList issues) && Py.truthy snapshot_id
                   then issues_found issues snapshot_id else no_issues)).
  { intros issues snapshot_id ->. unfold issues_found, no_issues in *.
    rewrite Hrun. reflexivity. }
  split.
  { destruct (fst (get_all_issues_summary network SEMRUSH_API_KEY project []))
      as [[issues snapshot_id]|e]; [|reflexivity].
    unfold issues_found, no_issues in Hrun. rewrite Hrun. reflexivity. }
  split; [exact Hok|]. split; [intros e ->; reflexivity|]. split.
  - intros e Hnet He Hpr.
    apply (Hok [] VNone).
    rewrite (summary_request_raises network SEMRUSH_API_KEY project [] e Hnet).
    cbn [fst]. apply handled_prints; assumption.
  - intros r data errors warnings notices Hnet Hst Hjson He Hw Hn.
    rewrite (Hok _ _ (f_equal fst
               (summary_records network SEMRUSH_API_KEY project [] r data
                  errors warnings notices Hnet Hst Hjson He Hw Hn))).
    fold (records_of errors warnings notices).
    destruct (records_of errors warnings notices) as [|x l];
      destruct (dict_get data "snapshot_id") as [s|]; try reflexivity.
Qed.

(** The audit of the specification's example is answered with its two
    records. *)
Lemma get_site_audit_issues_reply_witness :
  fst (get_site_audit_issues (con := Samples.terminal) Samples.audit_network None
                             (SiteAuditRequest.Make (Some "26460775") None 100) [])
  = Ok (issues_found
          (records_of [Entry 3 5 None; Entry 999 0 None]
                      [Entry 101 2 (Some (-1)%Z)] [])
          (VStr "S1")).
Proof.
  refine (proj2 (proj2 (proj2 (proj2 (get_site_audit_issues_reply
                                 Samples.audit_network None Samples.terminal
                                 (SiteAuditRequest.Make (Some "26460775") None 100)
                                 []))))
            _ Samples.audit_data
            [Entry 3 5 None; Entry 999 0 None] [Entry 101 2 (Some (-1)%Z)] []
            eq_refl _ eq_refl _ _ eq_refl).
  - unfold status_ok, Samples.ok_response; simpl; lia.
  - eexists; split; [reflexivity|].
    repeat constructor; eexists; repeat split; reflexivity.
  - eexists; split; [reflexivity|].
    repeat constructor; eexists; repeat split; reflexivity.
Defined.

(* --------------------------------------------------------------------- *)
(** ** Details of one issue *)

Lemma find_issue_name_emitted (severity : string) (es : list entry)
      (rest : list value) (id : Z) :
  find_issue_name (emitted severity es ++ rest) id =
  if existsb (fun e => Z.eqb (entry_id e) id) (filter counted es)
  then Ok (VStr (issue_name id))
  else find_issue_name rest id.
Proof.
  unfold emitted. induction (filter counted es) as [|e l IH]; [reflexivity|].
  cbn [map app find_issue_name existsb].
  change (Py.subscript (issue_record severity e) "issue_id")
    with (Ok (VInt (entry_id e))).
  cbn [bind result_monad Py2.eq_int].
  destruct (Z.eqb_spec (entry_id e) id) as [E|Hne].
  - change (Py.subscript (issue_record severity e) "issue_name")
      with (Ok (VStr (issue_name (entry_id e)))).
    rewrite E. reflexivity.
  - cbn [orb]. exact IH.
Qed.

Lemma find_issue_name_reported (errors warnings notices : list entry) (id : Z) :
  find_issue_name (records_of errors warnings notices) id
  = Ok (VStr (if reported id errors warnings notices
              then issue_name id else "Unknown Issue")).
Proof.
  unfold records_of, reported.
  rewrite !filter_app, !existsb_app.
  rewrite find_issue_name_emitted.
  destruct (existsb _ (filter counted errors)); [reflexivity|].
  rewrite find_issue_name_emitted.
  destruct (existsb _ (filter counted warnings)); [reflexivity|].
  rewrite <- (app_nil_r (emitted "Notice" notices)).
  rewrite find_issue_name_emitted.
  destruct (existsb _ (filter counted notices)); reflexivity.
Qed.

(** X10. Among the records of a summary, the name looked up for an issue is
    the name the summary gave it when the issue counts a page in one of the
    sections, and the text [Unknown Issue] otherwise, also for an id the
    taxonomy knows. *)
Theorem find_issue_name_records (errors warnings notices : list entry) (id : Z) :
  find_issue_name (records_of errors warnings notices) id
  = Ok (VStr (if reported id errors warnings notices
              then issue_name id else "Unknown Issue"))
  /\ (reported id errors warnings notices = false ->
      find_issue_name (records_of errors warnings notices) id
      = Ok (VStr "Unknown Issue"))
  /\ (reported id errors warnings notices = true ->
      forall name, mapping_find ISSUE_MAPPING id = Some name ->
      find_issue_name (records_of errors warnings notices) id = Ok (VStr name)).
Proof.
  rewrite find_issue_name_reported. split; [reflexivity|]. split.
  - intros ->. reflexivity.
  - intros -> name Hname. unfold issue_name. rewrite Hname. reflexivity.
Qed.

(** The paging loop depends on the network through the page requests
    only. *)
Lemma fetch_pages_ext (n1 n2 : request -> result response)
      (SEMRUSH_API_KEY : option string) (url : string) (limit : Z) :
  (forall p, n1 (page_request SEMRUSH_API_KEY url limit p)
             = n2 (page_request SEMRUSH_API_KEY url limit p)) ->
  forall fuel all_pages current_page log,
    fetch_pages n1 SEMRUSH_API_KEY fuel url limit all_pages current_page log
    = fetch_pages n2 SEMRUSH_API_KEY fuel url limit all_pages current_page log.
Proof.
  intros Hn. induction fuel as [|fuel IH]; intros all_pages current_page log;
    [reflexivity|].
  cbn [fetch_pages bind M_monad requests_get lift]. rewrite Hn.
  destruct (n2 _) as [r|e]; [|reflexivity].
  destruct (raise_for_status r); [|reflexivity].
  destruct (json r) as [data|e]; [|reflexivity].
  destruct (Py.contains "data" data) as [[|]|e]; try reflexivity.
  destruct (Py.subscript data "data") as [pages_data|e]; [|reflexivity].
  destruct (Py.get data "total" (VInt 0)) as [total_count|e]; [|reflexivity].
  destruct (negb (Py.truthy pages_data)); [reflexivity|].
  destruct (Py.iter pages_data) as [more|e]; [|reflexivity].
  destruct (Py.int_ge _ total_count) as [[|]|e]; try reflexivity.
  apply IH.
Qed.

Section IssueDetails.

Variable network : request -> result response.
Variable SEMRUSH_API_KEY : option string.
Variable req : SiteAuditRequest.t.
Context {con : Console}.

Let project := project_text (SiteAuditRequest.project_id req).
Let sent := snapshot_request SEMRUSH_API_KEY project.
Let details (fuel : nat) (log : list request) :=
get_site_audit_issue_details network SEMRUSH_API_KEY fuel req log.

Lemma project_text_str :
PyFmt.str_opt (SiteAuditRequest.project_id req) = project.
Proof. unfold project. destruct (SiteAuditRequest.project_id req); reflexivity. Qed.

(** The endpoint after the check of the issue id, from what the summary
  returns. *)
Lemma issue_details_cases (fuel : nat) (log : list request) (issue_id : Z)
    (issues : list value) (snapshot_id : value) :
SiteAuditRequest.issue_id req = Some issue_id ->
issue_id <> 0%Z ->
fst (get_all_issues_summary network SEMRUSH_API_KEY project [])
= Ok (issues, snapshot_id) ->
details fuel log =
if negb (Py.truthy snapshot_id) then (Ok (Some no_snapshot), (log ++ [sent])%list)
else
  match get_issue_details network SEMRUSH_API_KEY fuel project
                          (PyFmt.str snapshot_id) issue_id
                          (SiteAuditRequest.limit req) (log ++ [sent])%list with
  | (Ok None, log') => (Ok None, log')
  | (Ok (Some (pages, total)), log') =>
      match pages with
      | [] => (Ok (Some (no_pages issue_id)), log')
      | _ =>
          match find_issue_name issues issue_id with
          | Ok issue_name =>
              (Ok (Some (pages_found pages total issue_name snapshot_id)), log')
          | Raise e => (Raise e, log')
          end
      end
  | (Raise e, log') => (Raise e, log')
  end.
Proof.
intros Hid Hne Hsum. unfold details, get_site_audit_issue_details.
rewrite Hid. apply Z.eqb_neq in Hne. rewrite Hne.
cbn [bind M_monad]. rewrite project_text_str, summary_log, Hsum.
fold sent. destruct (Py.truthy snapshot_id); cbn [negb]; [|reflexivity].
destruct (get_issue_details _ _ _ _ _ _ _ _) as [[[[pages total]|]|e] log'];
  try reflexivity.
destruct pages as [|p pages]; [reflexivity|]. cbn [Py.truthy lift].
destruct (find_issue_name issues issue_id); reflexivity.
Qed.


End IssueDetails.


Lemma pages_upto_first (pages : Z -> list value) (k : nat) :
  pages 1%Z <> [] -> 1 <= k -> pages_upto pages k <> [].
Proof.
  intros Hne Hk. destruct k as [|k]; [lia|].
  unfold pages_upto. cbn [seq flat_map].
  change (Z.of_nat 1) with 1%Z.
  destruct (pages 1%Z); [congruence | discriminate].
Qed.

(** X12. The details of an issue, end to end. The request names an issue;
    the provider answers the snapshot request with an audit that has a
    snapshot id, and serves the pages of the issue, the first of which holds
    a record. Then the endpoint sends the snapshot request and after it the
    page requests 1 to [k], where [k] is the first page that is empty or
    with which the total is reached, and answers with success: the records
    of these pages in order, the total, the snapshot id, and the name of
    the issue as the audit reports it. *)
Theorem issue_details_end_to_end
        (network : request -> result response) (SEMRUSH_API_KEY : option string)
        (con : Console) (req : SiteAuditRequest.t) (log : list request) (issue_id : Z)
        (r : response) (data : dict) (errors warnings notices : list entry)
        (snapshot_id : value) (pages : Z -> list value) (total : Z) :
  let project := project_text (SiteAuditRequest.project_id req) in
  let url := issue_url project (PyFmt.str snapshot_id) issue_id in
  let page p := page_request SEMRUSH_API_KEY url (SiteAuditRequest.limit req) p in
  SiteAuditRequest.issue_id req = Some issue_id ->
  issue_id <> 0%Z ->
  network (snapshot_request SEMRUSH_API_KEY project) = Ok r ->
  status_ok r ->
  json r = Ok (VDict data) ->
  section_is data "errors" errors ->
  section_is data "warnings" warnings ->
  section_is data "notices" notices ->
  dict_get data "snapshot_id" = Some snapshot_id ->
  Py.truthy snapshot_id = true ->
  (forall p, network (page p) = paged_provider pages total (page p)) ->
  pages 1%Z <> [] ->
  exists k,
    1 <= k
    /\ (forall j, 1 <= j < k -> continues_at pages total j)
    /\ stops_at pages total k
    /\ forall fuel, k <= fuel ->
         get_site_audit_issue_details network SEMRUSH_API_KEY fuel req log
         = (Ok (Some (pages_found
                        (pages_upto pages k) (VInt total)
                        (VStr (if reported issue_id errors warnings notices
                               then issue_name issue_id else "Unknown Issue"))
                        snapshot_id)),
            (log ++ snapshot_request SEMRUSH_API_KEY project
                 :: map (fun j => page (Z.of_nat j)) (seq 1 k))%list).
Proof.
  cbv zeta. intros Hid Hne Hnet Hst Hjson He Hw Hn Hsnap Htrue Hpages Hfirst.
  destruct (first_stop pages total) as (k & Hk & Hstop & Hgo).
  exists k. split; [exact Hk|]. split; [exact Hgo|]. split; [exact Hstop|].
  intros fuel Hfuel.
  pose proof (summary_records network SEMRUSH_API_KEY _ [] r data
                errors warnings notices Hnet Hst Hjson He Hw Hn) as Hsum.
  apply (f_equal fst) in Hsum. cbn [fst] in Hsum. rewrite Hsnap in Hsum.
  rewrite (issue_details_cases network SEMRUSH_API_KEY req fuel log issue_id
             _ snapshot_id Hid Hne Hsum).
  rewrite Htrue. cbn [negb].
  unfold get_issue_details, except_Exception.
  rewrite (fetch_pages_ext network (paged_provider pages total)
             SEMRUSH_API_KEY _ _ Hpages).
  destruct k as [|m]; [lia|].
  change (@nil value) with (pages_upto pages 0) at 1.
  change 1%Z with (Z.of_nat 1) at 1.
  rewrite (fetch_pages_run pages total SEMRUSH_API_KEY _ _ m 0 fuel);
    [|intros j Hj; apply Hgo; lia | exact Hstop | exact Hfuel].
  cbn [Nat.add].
  pose proof (pages_upto_first pages (S m) Hfirst Hk) as Hsome.
  destruct (pages_upto pages (S m)) as [|x l] eqn:E; [congruence|].
  fold (records_of errors warnings notices).
  rewrite find_issue_name_reported. rewrite <- app_assoc. reflexivity.
Qed.

(** The details of issue 3 of the audit of the specification's example:
    237 records after the snapshot request and three page requests. *)
Lemma issue_details_end_to_end_witness :
  exists k,
    1 <= k
    /\ (forall j, 1 <= j < k -> continues_at Samples.pages_237 237 j)
    /\ stops_at Samples.pages_237 237 k
    /\ forall fuel, k <= fuel ->
         get_site_audit_issue_details (con := Samples.terminal)
                                      Cases.audit_site None fuel
                                      Cases.details_request []
         = (Ok (Some (pages_found
                        (pages_upto Samples.pages_237 k) (VInt 237)
                        (VStr "Title tag is missing or empty") (VStr "S1"))),
            snapshot_request None "26460775"
            :: map (fun j => page_request None (issue_url "26460775" "S1" 3) 100
                                          (Z.of_nat j)) (seq 1 k)).
Proof.
  refine (issue_details_end_to_end Cases.audit_site None Samples.terminal
            Cases.details_request
            [] 3 _ Samples.audit_data
            [Entry 3 5 None; Entry 999 0 None] [Entry 101 2 (Some (-1)%Z)] []
            (VStr "S1") Samples.pages_237 237
            eq_refl _ eq_refl _ eq_refl _ _ eq_refl eq_refl eq_refl _ _).
  - discriminate.
  - unfold status_ok, Samples.ok_response; simpl; lia.
  - eexists; split; [reflexivity|].
    repeat constructor; eexists; repeat split; reflexivity.
  - eexists; split; [reflexivity|].
    repeat constructor; eexists; repeat split; reflexivity.
  - intros p. reflexivity.
  - discriminate.
Defined.

(* ===================================================================== *)
(** * Further properties: the ranking of the issues *)
(* ===================================================================== *)

Lemma key_le_total (a b : Z * Z) : Py2.key_le a b = false -> Py2.key_le b a = true.
Proof.
  unfold Py2.key_le. destruct a as [a1 a2], b as [b1 b2]. cbn [fst snd].
  intros H. apply orb_false_iff in H as [H1 H2]. apply Z.ltb_ge in H1.
  apply orb_true_iff.
  destruct (Z.eqb_spec a1 b1) as [->|Hne].
  - right. rewrite Z.eqb_refl. cbn in H2 |- *. apply Z.leb_gt in H2.
    apply Z.leb_le. lia.
  - left. apply Z.ltb_lt. lia.
Qed.

Lemma key_le_trans (a b c : Z * Z) :
  Py2.key_le a b = true -> Py2.key_le b c = true -> Py2.key_le a c = true.
Proof.
  unfold Py2.key_le. destruct a as [a1 a2], b as [b1 b2], c as [c1 c2].
  cbn [fst snd]. rewrite !orb_true_iff, !andb_true_iff.
  rewrite !Z.ltb_lt, !Z.eqb_eq, !Z.leb_le. intros [H|[H H']] [G|[G G']].
  - left; lia.
  - left; lia.
  - left; lia.
  - right; split; lia.
Qed.

Lemma key_le_strict (a b : Z * Z) :
  Py2.key_le a b = false -> key_eqb b a = false.
Proof.
  unfold Py2.key_le, key_eqb. destruct a as [a1 a2], b as [b1 b2].
  cbn [fst snd]. intros H. apply orb_false_iff in H as [H1 H2].
  apply andb_false_iff. apply Z.ltb_ge in H1.
  destruct (Z.eqb_spec b1 a1) as [->|]; [|left; reflexivity].
  right. rewrite Z.eqb_refl in H2. cbn in H2. apply Z.leb_gt in H2.
  apply Z.eqb_neq. lia.
Qed.

Local Abbreviation keyed_le :=
  (fun a b : (Z * Z) * value => Py2.key_le (fst a) (fst b) = true).

Lemma insert_perm (k : Z * Z) (x : value) (l : list ((Z * Z) * value)) :
  Permutation ((k, x) :: l) (Py2.insert k x l).
Proof.
  induction l as [|[ky y] l IH]; cbn; [reflexivity|].
  destruct (Py2.key_le k ky); [reflexivity|].
  rewrite perm_swap. apply perm_skip. exact IH.
Qed.

Lemma sorted_perm (l : list ((Z * Z) * value)) : Permutation l (Py2.sorted l).
Proof.
  unfold Py2.sorted. induction l as [|[k x] l IH]; cbn; [reflexivity|].
  rewrite <- insert_perm. apply perm_skip. exact IH.
Qed.

Lemma insert_sorted (k : Z * Z) (x : value) (l : list ((Z * Z) * value)) :
  StronglySorted keyed_le l -> StronglySorted keyed_le (Py2.insert k x l).
Proof.
  induction 1 as [|[ky y] l Hs IH Hall]; cbn.
  - constructor; constructor.
  - destruct (Py2.key_le k ky) eqn:E.
    + constructor; [constructor; assumption|].
      constructor; [exact E|].
      eapply Forall_impl; [|exact Hall]. cbn. intros [kz z] Hz. cbn in *.
      eapply key_le_trans; eassumption.
    + constructor; [exact IH|].
      eapply Permutation_Forall; [apply insert_perm|].
      constructor; [|exact Hall]. cbn. apply key_le_total. exact E.
Qed.

Lemma sorted_sorted (l : list ((Z * Z) * value)) :
  StronglySorted keyed_le (Py2.sorted l).
Proof.
  unfold Py2.sorted. induction l as [|[k x] l IH]; cbn; [constructor|].
  apply insert_sorted. exact IH.
Qed.

(** Elements with one key keep their order: the insertion passes elements
    with smaller keys only. *)
Lemma insert_stable (k0 k : Z * Z) (x : value) (l : list ((Z * Z) * value)) :
  filter (fun kx => key_eqb (fst kx) k0) (Py2.insert k x l)
  = filter (fun kx => key_eqb (fst kx) k0) ((k, x) :: l).
Proof.
  induction l as [|[ky y] l IH]; [reflexivity|].
  cbn [Py2.insert]. destruct (Py2.key_le k ky) eqn:E; [reflexivity|].
  cbn [filter fst] in IH |- *. rewrite IH.
  destruct (key_eqb k k0) eqn:Ek; [|reflexivity].
  assert (Hy : key_eqb ky k0 = false).
  { apply key_le_strict in E. unfold key_eqb in *.
    apply andb_true_iff in Ek as [E1 E2].
    apply Z.eqb_eq in E1, E2. rewrite <- E1, <- E2. exact E. }
  rewrite Hy. reflexivity.
Qed.

Lemma sorted_stable (k0 : Z * Z) (l : list ((Z * Z) * value)) :
  filter (fun kx => key_eqb (fst kx) k0) (Py2.sorted l)
  = filter (fun kx => key_eqb (fst kx) k0) l.
Proof.
  unfold Py2.sorted. induction l as [|[k x] l IH]; [reflexivity|].
  cbn [fold_right fst snd]. rewrite insert_stable.
  cbn [filter]. rewrite IH. reflexivity.
Qed.

Local Abbreviation keyed_right :=
  (fun kx : (Z * Z) * value => AuditContext.sort_key (snd kx) = Ok (fst kx)).

Lemma keyed_acc (issues : list value) :
  forall acc ks,
    for_each (fun acc x => k <- AuditContext.sort_key x ;; ret (acc ++ [(k, x)])%list)
             issues acc = Ok ks ->
    exists ks', ks = (acc ++ ks')%list /\ map snd ks' = issues
                /\ Forall keyed_right ks'.
Proof.
  induction issues as [|x issues IH]; intros acc ks H.
  - cbn in H. injection H as <-. exists []. rewrite app_nil_r.
    repeat split. constructor.
  - cbn [for_each bind result_monad] in H.
    destruct (AuditContext.sort_key x) as [k|e] eqn:Hk; [|discriminate H].
    cbn [ret result_monad] in H.
    destruct (IH _ _ H) as (ks' & -> & Hmap & Hall).
    exists ((k, x) :: ks'). rewrite <- app_assoc. split; [reflexivity|].
    split; [cbn; rewrite Hmap; reflexivity|].
    constructor; [exact Hk | exact Hall].
Qed.

Lemma keyed_spec (issues : list value) (ks : list ((Z * Z) * value)) :
  AuditContext.keyed issues = Ok ks ->
  map snd ks = issues /\ Forall keyed_right ks.
Proof.
  intros H. destruct (keyed_acc issues [] ks H) as (ks' & -> & Hmap & Hall).
  split; assumption.
Qed.

Lemma keyed_total (issues : list value) :
  Forall (fun x => exists k, AuditContext.sort_key x = Ok k) issues ->
  forall acc, exists ks,
    for_each (fun acc x => k <- AuditContext.sort_key x ;; ret (acc ++ [(k, x)])%list)
             issues acc = Ok ks.
Proof.
  induction 1 as [|x issues [k Hk] _ IH]; intros acc.
  - exists acc. reflexivity.
  - cbn [for_each bind result_monad]. rewrite Hk. apply IH.
Qed.

Lemma filter_has_key (k0 : Z * Z) (ks : list ((Z * Z) * value)) :
  Forall keyed_right ks ->
  filter (has_key k0) (map snd ks)
  = map snd (filter (fun kx => key_eqb (fst kx) k0) ks).
Proof.
  induction 1 as [|[k x] ks Hk _ IH]; [reflexivity|].
  cbn [map filter snd fst] in *. unfold has_key at 1. rewrite Hk.
  destruct (key_eqb k k0); cbn [map snd]; rewrite IH; reflexivity.
Qed.

(** What [sorted_issues] returns, when it returns. *)
Lemma sorted_issues_ok (issues l : list value) :
  AuditContext.sorted_issues issues = Ok l ->
  Permutation issues l
  /\ StronglySorted key_ordered l
  /\ (forall k, filter (has_key k) l = filter (has_key k) issues).
Proof.
  unfold AuditContext.sorted_issues. cbn [bind result_monad].
  destruct (AuditContext.keyed issues) as [ks|e] eqn:Hks; [|discriminate].
  cbn [ret result_monad]. intros H. injection H as <-.
  destruct (keyed_spec issues ks Hks) as [Hmap Hall].
  assert (Hall' : Forall keyed_right (Py2.sorted ks)).
  { eapply Permutation_Forall; [apply sorted_perm | exact Hall]. }
  split; [|split].
  - rewrite <- Hmap. apply Permutation_map, sorted_perm.
  - pose proof (sorted_sorted ks) as Hs.
    induction Hs as [|[k x] s Hs IH Hhd]; [constructor|].
    inversion Hall' as [|? ? Hk Hrest]; subst.
    cbn [map]. constructor; [apply IH; exact Hrest|].
    apply Forall_map. rewrite Forall_forall in Hhd, Hrest |- *.
    intros [ky y] Hin. exists k, ky. cbn [snd].
    split; [exact Hk|]. split; [exact (Hrest _ Hin) | exact (Hhd _ Hin)].
  - intros k. rewrite (filter_has_key k _ Hall'), sorted_stable.
    rewrite <- (filter_has_key k _ Hall), Hmap. reflexivity.
Qed.

(** X13. [sorted(issues, key=...)] returns the issues whenever the key of
    each can be computed. Its result lists the same issues, in ascending
    order of the key, which is the severity rank followed by the negated
    count, and issues with the same key stay in the order they came in; the
    slice [[:10]] of it holds ten issues, or all of them when they are
    fewer. *)
Theorem sorted_issues_spec (issues : list value) :
  (Forall (fun x => exists k, AuditContext.sort_key x = Ok k) issues ->
   exists l, AuditContext.sorted_issues issues = Ok l)
  /\ (forall l,
        AuditContext.sorted_issues issues = Ok l ->
        Permutation issues l
        /\ StronglySorted key_ordered l
        /\ (forall k, filter (has_key k) l = filter (has_key k) issues)
        /\ length (firstn 10 l) = Nat.min 10 (length issues)).
Proof.
  split.
  - intros Hall. destruct (keyed_total issues Hall []) as [ks Hks].
    change (AuditContext.keyed issues = Ok ks) in Hks.
    unfold AuditContext.sorted_issues. cbn [bind result_monad].
    rewrite Hks. eexists. reflexivity.
  - intros l Hl. destruct (sorted_issues_ok issues l Hl) as (Hp & Hs & Hst).
    split; [exact Hp|]. split; [exact Hs|]. split; [exact Hst|].
    rewrite length_firstn, (Permutation_length Hp). reflexivity.
Qed.

(** Five records of a summary, two of them with the same rank and count. *)
Lemma sorted_issues_spec_witness :
  exists l,
    AuditContext.sorted_issues Cases.issues = Ok l
    /\ Permutation Cases.issues l
    /\ StronglySorted key_ordered l
    /\ map count_of l = [40; 5; 2; 2; 7]%Z.
Proof.
  destruct (proj1 (sorted_issues_spec Cases.issues)) as [l Hl].
  { repeat constructor; eexists; reflexivity. }
  exists l. destruct (proj2 (sorted_issues_spec Cases.issues) l Hl)
    as (Hp & Hs & _).
  split; [exact Hl|]. split; [exact Hp|]. split; [exact Hs|].
  vm_compute in Hl. injection Hl as <-. reflexivity.
Defined.

Lemma sort_key_record (severity : string) (e : entry) :
  AuditContext.sort_key (issue_record severity e)
  = Ok (Z.of_nat (severity_rank (issue_record severity e)), (- entry_count e)%Z).
Proof.
  unfold AuditContext.sort_key, severity_rank.
  rewrite !has_severity_record.
  change (Py.get (issue_record severity e) "severity" VNone)
    with (Ok (VStr severity)).
  change (Py.get (issue_record severity e) "count" (VInt 0))
    with (Ok (VInt (entry_count e))).
  cbn [bind result_monad Py.is_str Py2.neg ret].
  destruct (String.eqb severity "Error"); [reflexivity|].
  cbn [bind result_monad ret].
  destruct (String.eqb severity "Warning"); reflexivity.
Qed.

Lemma records_of_records (errors warnings notices : list entry) :
  Forall (fun v => exists severity e, v = issue_record severity e)
         (records_of errors warnings notices).
Proof.
  unfold records_of, emitted. rewrite !Forall_app. repeat split;
    apply Forall_map, Forall_forall; intros e _; eexists _, e; reflexivity.
Qed.

Lemma StronglySorted_weaken (R R' : value -> value -> Prop) (l : list value) :
  (forall a b, In a l -> In b l -> R a b -> R' a b) ->
  StronglySorted R l -> StronglySorted R' l.
Proof.
  intros H Hs. induction Hs as [|a l Hs IH Hall]; constructor.
  - apply IH. intros x y Hx Hy. apply H; right; assumption.
  - rewrite Forall_forall in Hall |- *. intros b Hb.
    apply H; [left; reflexivity | right; exact Hb | apply Hall, Hb].
Qed.

Lemma sorted_records_exists (errors warnings notices : list entry) :
  exists ks,
    AuditContext.sorted_issues (records_of errors warnings notices)
    = Ok (map snd (Py2.sorted ks)).
Proof.
  assert (Hkeys : Forall (fun x => exists k, AuditContext.sort_key x = Ok k)
                         (records_of errors warnings notices)).
  { eapply Forall_impl; [|apply records_of_records]. intros v (s & e & ->).
    eexists. apply sort_key_record. }
  destruct (keyed_total _ Hkeys []) as [ks Hks].
  change (AuditContext.keyed (records_of errors warnings notices) = Ok ks) in Hks.
  exists ks. unfold AuditContext.sorted_issues. cbn [bind result_monad].
  rewrite Hks. reflexivity.
Qed.

(** X14. The ranking never fails on the records of a summary. It lists the
    same records with the more severe section first, Error before Warning
    before Notice, and within one severity the record with more pages
    first. *)
Theorem sorted_issues_records (errors warnings notices : list entry) :
  exists l,
    AuditContext.sorted_issues (records_of errors warnings notices) = Ok l
    /\ Permutation (records_of errors warnings notices) l
    /\ StronglySorted ranks_before l.
Proof.
  pose proof (records_of_records errors warnings notices) as Hrec.
  destruct (sorted_records_exists errors warnings notices) as [ks Hl].
  exists (map snd (Py2.sorted ks)).
  destruct (sorted_issues_ok _ _ Hl) as (Hp & Hs & _).
  split; [exact Hl|]. split; [exact Hp|].
  eapply StronglySorted_weaken; [|exact Hs].
  intros a b Ha Hb (ka & kb & Hka & Hkb & Hle).
  rewrite Forall_forall in Hrec.
  destruct (Hrec a (Permutation_in a (Permutation_sym Hp) Ha)) as (sa & ea & ->).
  destruct (Hrec b (Permutation_in b (Permutation_sym Hp) Hb)) as (sb & eb & ->).
  rewrite sort_key_record in Hka, Hkb.
  injection Hka as <-. injection Hkb as <-.
  unfold ranks_before.
  change (count_of (issue_record sa ea)) with (entry_count ea).
  change (count_of (issue_record sb eb)) with (entry_count eb).
  unfold Py2.key_le in Hle. cbn [fst snd] in Hle.
  apply orb_true_iff in Hle as [H|H].
  - left. apply Z.ltb_lt in H. lia.
  - right. apply andb_true_iff in H as [H1 H2].
    apply Z.eqb_eq in H1. apply Z.leb_le in H2. split; lia.
Qed.

(* --------------------------------------------------------------------- *)
(** ** Counts by severity *)

Lemma has_severity_dict (severity : string) (d : dict) :
  has_severity severity (VDict d)
  = match dict_get d "severity" with
    | Some v => Py.is_str severity v
    | None => false
    end.
Proof.
  unfold has_severity. cbn [severity_of].
  destruct (dict_get d "severity") as [[| | |s| |]|]; reflexivity.
Qed.

Lemma with_severity_acc (severity : string) (items : list value) :
  Forall is_dict items ->
  forall acc,
    for_each (fun acc i =>
                s <- Py.get i "severity" VNone ;;
                ret (if Py.is_str severity s then (acc ++ [i])%list else acc))
             items acc
    = Ok (acc ++ filter (has_severity severity) items)%list.
Proof.
  induction 1 as [|i items [d ->] _ IH]; intros acc.
  - cbn. rewrite app_nil_r. reflexivity.
  - cbn [for_each bind result_monad Py.get filter].
    rewrite has_severity_dict.
    destruct (dict_get d "severity") as [v|];
      cbn [bind result_monad ret Py.is_str];
      [destruct (Py.is_str severity v)|];
      rewrite IH, <- ?app_assoc; reflexivity.
Qed.

Lemma with_severity_raises (severity : string) (items : list value) :
  Exists (fun v => ~ is_dict v) items ->
  forall acc, exists e,
    for_each (fun acc i =>
                s <- Py.get i "severity" VNone ;;
                ret (if Py.is_str severity s then (acc ++ [i])%list else acc))
             items acc
    = Raise e.
Proof.
  induction 1 as [i items Hi|i items _ IH]; intros acc.
  - cbn [for_each bind result_monad].
    destruct i; try (eexists; reflexivity).
    exfalso. apply Hi. eexists. reflexivity.
  - cbn [for_each bind result_monad].
    destruct (Py.get i "severity" VNone); [apply IH | eexists; reflexivity].
Qed.

Lemma one_severity (v : value) :
  Nat.b2n (has_severity "Error" v) + Nat.b2n (has_severity "Warning" v)
  + Nat.b2n (has_severity "Notice" v) <= 1.
Proof.
  unfold has_severity. destruct (severity_of v) as [x|]; [|cbn; lia].
  destruct x as [ | b | z | s | l | d ]; try (cbn; lia).
  destruct (String.eqb_spec s "Error") as [E1|];
    destruct (String.eqb_spec s "Warning") as [E2|];
    destruct (String.eqb_spec s "Notice") as [E3|];
    subst; try discriminate; cbn; lia.
Qed.

Lemma severity_filters (items : list value) :
  length (filter (has_severity "Error") items)
  + length (filter (has_severity "Warning") items)
  + length (filter (has_severity "Notice") items) <= length items.
Proof.
  induction items as [|v items IH]; [reflexivity|].
  cbn [filter length]. pose proof (one_severity v) as H.
  destruct (has_severity "Error" v), (has_severity "Warning" v),
    (has_severity "Notice" v); cbn [length Nat.b2n] in *; lia.
Qed.

Lemma with_severity_sections (errors warnings notices : list entry) :
  AuditContext.with_severity "Error" (records_of errors warnings notices)
  = Ok (emitted "Error" errors)
  /\ AuditContext.with_severity "Warning" (records_of errors warnings notices)
     = Ok (emitted "Warning" warnings)
  /\ AuditContext.with_severity "Notice" (records_of errors warnings notices)
     = Ok (emitted "Notice" notices).
Proof.
  assert (Hd : Forall is_dict (records_of errors warnings notices)).
  { eapply Forall_impl; [|apply records_of_records].
    intros v (s & e & ->). eexists. reflexivity. }
  unfold AuditContext.with_severity.
  rewrite (with_severity_acc "Error" _ Hd []).
  rewrite (with_severity_acc "Warning" _ Hd []).
  rewrite (with_severity_acc "Notice" _ Hd []). cbn [app].
  unfold records_of. rewrite !filter_app, !filter_emitted_same.
  rewrite !filter_emitted_other by reflexivity.
  cbn [app]. rewrite !app_nil_r. repeat split.
Qed.

(** X15. The three lists of the audit context are the issues whose severity
    is Error, Warning and Notice, each in the order of the issues; an issue
    that is not a mapping makes the selection raise. The three counts never
    exceed the number of issues, and for the records of a summary the lists
    are the records of the three sections, so that the counts add up to the
    total. *)
Theorem with_severity_spec (items : list value) :
  (Forall is_dict items ->
   forall severity,
     AuditContext.with_severity severity items
     = Ok (filter (has_severity severity) items))
  /\ (Exists (fun v => ~ is_dict v) items ->
      forall severity, exists e,
        AuditContext.with_severity severity items = Raise e)
  /\ (forall errors warnings notices,
        AuditContext.with_severity "Error" items = Ok errors ->
        AuditContext.with_severity "Warning" items = Ok warnings ->
        AuditContext.with_severity "Notice" items = Ok notices ->
        (list_len errors + list_len warnings + list_len notices
         <= list_len items)%Z)
  /\ (forall errors warnings notices,
        items = records_of errors warnings notices ->
        AuditContext.with_severity "Error" items = Ok (emitted "Error" errors)
        /\ AuditContext.with_severity "Warning" items
           = Ok (emitted "Warning" warnings)
        /\ AuditContext.with_severity "Notice" items
           = Ok (emitted "Notice" notices)
        /\ (list_len (emitted "Error" errors)
            + list_len (emitted "Warning" warnings)
            + list_len (emitted "Notice" notices) = list_len items)%Z).
Proof.
  unfold AuditContext.with_severity.
  assert (Hdec : Forall is_dict items \/ Exists (fun v => ~ is_dict v) items).
  { induction items as [|v items [IH|IH]].
    - left. constructor.
    - destruct v; try (right; left; intros [d E]; discriminate E).
      left. constructor; [eexists; reflexivity | exact IH].
    - right. right. exact IH. }
  split; [|split; [|split]].
  - intros Hd severity. apply (with_severity_acc severity items Hd []).
  - intros Hx severity. apply (with_severity_raises severity items Hx []).
  - intros errors warnings notices He Hw Hn.
    destruct Hdec as [Hd|Hx].
    + rewrite (with_severity_acc "Error" items Hd []) in He.
      rewrite (with_severity_acc "Warning" items Hd []) in Hw.
      rewrite (with_severity_acc "Notice" items Hd []) in Hn.
      injection He as <-. injection Hw as <-. injection Hn as <-.
      pose proof (severity_filters items). unfold list_len. cbn [app]. lia.
    + destruct (with_severity_raises "Error" items Hx []) as [e E].
      rewrite E in He. discriminate He.
  - intros errors warnings notices ->. fold (AuditContext.with_severity "Error").
    destruct (with_severity_sections errors warnings notices) as (He & Hw & Hn).
    unfold AuditContext.with_severity in He, Hw, Hn.
    split; [exact He|]. split; [exact Hw|]. split; [exact Hn|].
    unfold records_of, list_len. rewrite !length_app. lia.
Qed.

(** The lists of five records of a summary. *)
Lemma with_severity_spec_witness :
  AuditContext.with_severity "Warning" Cases.issues
  = Ok [ issue_record "Warning" (Entry 101 2 (Some (-1)%Z));
         issue_record "Warning" (Entry 103 2 None) ].
Proof.
  refine (proj1 (with_severity_spec Cases.issues) _ "Warning").
  repeat constructor; eexists; reflexivity.
Defined.

(* ===================================================================== *)
(** * Further properties: the crawler *)
(* ===================================================================== *)

(** X16. The word count of a page that was crawled with success is the
    number of words of the text of the tree left by the decomposition, the
    words being the runs of characters between white space: the step that
    collapses the runs of white space changes no word and no count. *)
Theorem word_count_is_split
        (network : request -> result response) (bs4 : SoupAPI) (con : Console)
        (domain : string) (log log' : list request) (d : dict) :
  crawl_website_onpage network domain log = (Ok d, log') ->
  dict_get d "crawl_success" = Some (VBool true) ->
  exists r s,
    network (crawl_request domain) = Ok r
    /\ BeautifulSoup (text r) = Ok s
    /\ dict_get d "word_count"
       = Some (VInt (list_len (PyStr.split_ws (get_text (content_tree s)))))
    /\ forall t, PyStr.split_ws (PyStr.collapse_ws t) = PyStr.split_ws t.
Proof.
  intros Hrun Hok.
  destruct (crawl_success_inv network domain log log' d Hrun Hok)
    as (r & s & Hnet & Hs & ->).
  exists r, s. split; [exact Hnet|]. split; [exact Hs|].
  split; [|exact split_ws_collapse].
  rewrite page_signals_values. reflexivity.
Qed.

(** The sample page holds eleven words. *)
Lemma word_count_is_split_witness :
  dict_get Samples.page_result "word_count" = Some (VInt 11).
Proof.
  destruct (word_count_is_split Samples.page_network Samples.page_api
              Samples.terminal "example.com" [] _ Samples.page_result eq_refl eq_refl)
    as (r & s & _ & Hs & Hw & _).
  injection Hs as <-. rewrite Hw. reflexivity.
Defined.

(** X17. The outcomes of the crawler. A result it returns has one of two
    shapes. A success holds exactly the sixteen signal fields and
    [crawl_success]: the counts are not negative, [h1_text] is a list of
    texts with as many entries as [h1_count] says, and each status is one
    of its values. A failure holds exactly [crawl_success] and [error], a
    text. When the fetch, the status check or the parser raises, the
    crawler returns the failure record if the exception is an [Exception]
    and the console writes the line that reports it; it raises the
    exception of [print] if writing that line raises; and it raises the
    exception itself if that is no [Exception]. *)
Theorem crawl_result_shape
        (network : request -> result response) (bs4 : SoupAPI) (con : Console)
        (domain : string) (log : list request) :
  let out := fst (crawl_website_onpage network domain log) in
  let raised e :=
    network (crawl_request domain) = Raise e
    \/ exists r, network (crawl_request domain) = Ok r
                 /\ (raise_for_status r = Raise e
                     \/ (raise_for_status r = Ok tt
                         /\ BeautifulSoup (text r) = Raise e)) in
  let report e := "Crawl error: " ++ exn_str e in
  (forall d, out = Ok d ->
     (dict_get d "crawl_success" = Some (VBool true)
      /\ dict_keys d = (signal_fields ++ ["crawl_success"])%list
      /\ NoDup (dict_keys d)
      /\ Forall (count_field d)
                [ "meta_desc_length"; "title_length"; "h1_count"; "h2_count";
                  "h3_count"; "h4_count"; "word_count"; "images_total";
                  "images_without_alt" ]
      /\ (exists texts,
             dict_get d "h1_text" = Some (VList texts)
             /\ dict_get d "h1_count" = Some (VInt (list_len texts))
             /\ Forall (fun t => exists s, t = VStr s) texts)
      /\ status_among d "meta_desc_status" ["Good"; "Needs Fix"]
      /\ status_among d "title_status" ["Good"; "Needs Fix"]
      /\ status_among d "h1_status" ["Good"; "Multiple"; "Missing"]
      /\ status_among d "content_status" ["Good"; "Thin"; "Moderate"])
     \/ (dict_get d "crawl_success" = Some (VBool false)
         /\ dict_keys d = ["crawl_success"; "error"]
         /\ exists msg, dict_get d "error" = Some (VStr msg)))
  /\ (forall e, raised e -> is_Exception e = true -> prints (report e) ->
        out = Ok (crawl_failure e))
  /\ (forall e e', raised e -> is_Exception e = true ->
        print (report e) = Raise e' -> out = Raise e')
  /\ (forall e, raised e -> is_Exception e = false -> out = Raise e)
  /\ ((forall e, ~ raised e) -> exists d, out = Ok d).
Proof.
  cbv zeta. rewrite crawl_cases. cbn [fst].
  assert (Hfail : forall e d,
             handled "Crawl error: " (crawl_failure e) e = Ok d ->
             dict_get d "crawl_success" = Some (VBool false)
             /\ dict_keys d = ["crawl_success"; "error"]
             /\ exists msg, dict_get d "error" = Some (VStr msg)).
  { intros e d H. apply handled_value in H. subst d.
    repeat split. eexists. reflexivity. }
  assert (Hout : forall e,
             network (crawl_request domain) = Raise e
             \/ (exists r, network (crawl_request domain) = Ok r
                           /\ (raise_for_status r = Raise e
                               \/ (raise_for_status r = Ok tt
                                   /\ BeautifulSoup (text r) = Raise e))) ->
             match network (crawl_request domain) with
             | Ok r =>
                 match raise_for_status r with
                 | Ok _ =>
                     match BeautifulSoup (text r) with
                     | Ok s => Ok (page_signals s)
                     | Raise e0 => handled "Crawl error: " (crawl_failure e0) e0
                     end
                 | Raise e0 => handled "Crawl error: " (crawl_failure e0) e0
                 end
             | Raise e0 => handled "Crawl error: " (crawl_failure e0) e0
             end = handled "Crawl error: " (crawl_failure e) e).
  { intros e [->|(r & -> & [->|[-> ->]])]; reflexivity. }
  split; [|split; [|split; [|split]]].
  - intros d Hd.
    destruct (network (crawl_request domain)) as [r|e]; [|right; exact (Hfail e d Hd)].
    destruct (raise_for_status r) as [|e]; [|right; exact (Hfail e d Hd)].
    destruct (BeautifulSoup (text r)) as [s|e]; [|right; exact (Hfail e d Hd)].
    injection Hd as <-.
    left. split; [reflexivity|]. split; [reflexivity|]. split.
    { unfold page_signals, dict_keys. cbv zeta. cbn [map fst].
      repeat (constructor; [cbn; intuition discriminate|]). constructor. }
    unfold page_signals. cbv zeta. split.
    { pose proof (filter_length_le has_alt (find_all (content_tree s) ["img"])) as Hle.
      repeat (constructor;
              [eexists; split; [reflexivity|];
               try apply list_len_nonneg; unfold list_len, PyStr.len; try lia|]).
      all: try constructor.
      all: repeat match goal with
                  | |- context [match ?x with _ => _ end] => destruct x
                  end; unfold PyStr.len; lia. }
    split.
    { eexists. split; [reflexivity|]. split.
      - cbn [dict_get String.eqb Ascii.eqb Bool.eqb]. unfold list_len.
        rewrite length_map. reflexivity.
      - apply Forall_map, Forall_forall. intros t _. eexists. reflexivity. }
    unfold status_among. cbn [dict_get String.eqb Ascii.eqb Bool.eqb].
    repeat split;
      repeat match goal with
             | |- context [if ?b then _ else _] => destruct b
             end;
      eexists; (split; [reflexivity|]); cbn; tauto.
  - intros e He Hx Hp. rewrite (Hout e He). apply handled_prints; assumption.
  - intros e e' He Hx Hp. rewrite (Hout e He).
    unfold handled, printed. rewrite Hx, Hp. reflexivity.
  - intros e He Hx. rewrite (Hout e He). unfold handled. rewrite Hx. reflexivity.
  - intros Hnone.
    destruct (network (crawl_request domain)) as [r|e];
      [|destruct (Hnone e); left; reflexivity].
    destruct (raise_for_status r) as [[]|e] eqn:Hst;
      [|destruct (Hnone e); right; exists r; split; [reflexivity | left; exact Hst]].
    destruct (BeautifulSoup (text r)) as [s|e] eqn:Hs; [eexists; reflexivity|].
    destruct (Hnone e). right. exists r. split; [reflexivity|].
    right. split; [exact Hst | exact Hs].
Qed.

(** The three outcomes of a page fetch that fails on its URL, which holds
    a letter with two dots: the record of the failure on a console that
    writes every line, and the exception of [print] on a console encoded in
    ASCII. *)
Lemma crawl_result_shape_witness :
  fst (crawl_website_onpage (bs4 := Samples.page_api) (con := Samples.terminal)
         Cases.schema_network Cases.UMLAUT_DOMAIN [])
  = Ok (crawl_failure Cases.missing_schema)
  /\ fst (crawl_website_onpage (bs4 := Samples.page_api)
            (con := Cases.ascii_terminal)
            Cases.schema_network Cases.UMLAUT_DOMAIN [])
     = Raise Cases.umlaut_error.
Proof.
  split.
  - exact (proj1 (proj2 (crawl_result_shape Cases.schema_network Samples.page_api
                           Samples.terminal Cases.UMLAUT_DOMAIN []))
                 Cases.missing_schema (or_introl eq_refl) eq_refl eq_refl).
  - exact (proj1 (proj2 (proj2 (crawl_result_shape Cases.schema_network
                                  Samples.page_api Cases.ascii_terminal
                                  Cases.UMLAUT_DOMAIN [])))
                 Cases.missing_schema Cases.umlaut_error
                 (or_introl eq_refl) eq_refl eq_refl).
Defined.

(** X18. The URL the crawler fetches always begins with [http]: it is the
    input when the input does, and the input after [https://] otherwise, so
    normalising twice changes nothing. Whatever the outcome, the crawler
    sends this one request and no other: it does not try again. *)
Theorem crawl_url_normal
        (network : request -> result response) (bs4 : SoupAPI) (con : Console)
        (domain : string) (log : list request) :
  PyStr.startswith "http" (crawl_url domain) = true
  /\ (crawl_url domain = domain \/ crawl_url domain = "https://" ++ domain)
  /\ crawl_url (crawl_url domain) = crawl_url domain
  /\ snd (crawl_website_onpage network domain log)
     = (log ++ [Request (crawl_url domain) [] [("User-Agent", USER_AGENT)]
                        (Some 10%Z) true])%list.
Proof.
  assert (H : PyStr.startswith "http" (crawl_url domain) = true).
  { unfold crawl_url. destruct (PyStr.startswith "http" domain) eqn:E;
      [exact E | reflexivity]. }
  split; [exact H|]. split; [|split].
  - unfold crawl_url. destruct (PyStr.startswith "http" domain); auto.
  - unfold crawl_url at 1. rewrite H. reflexivity.
  - rewrite crawl_cases. reflexivity.
Qed.

(* ===================================================================== *)
(** * Further properties: the paging loop *)
(* ===================================================================== *)

(** The loop is left after a page that is among the first [max(1, total)]. *)
Lemma first_stop_bounded (pages : Z -> list value) (total : Z) :
  exists k, 1 <= k <= Nat.max 1 (Z.to_nat total)
            /\ stops_at pages total k
            /\ forall j, 1 <= j < k -> continues_at pages total j.
Proof.
  set (b := Nat.max 1 (Z.to_nat total)).
  destruct (search_stop pages total b) as [(n & Hn & Hs)|Hgo].
  - destruct (first_index (stops_at pages total) n (stops_dec pages total)
                ltac:(lia) Hs) as (k & Hk & Hsk & Hfirst).
    exists k. split; [lia|]. split; [exact Hsk|].
    intros j Hj. apply not_stops, Hfirst, Hj.
  - exfalso. pose proof (collected_grows pages total b Hgo) as Hlen.
    destruct (Hgo b ltac:(lia)) as [_ Hlt]. lia.
Qed.

(** X19. Against a provider that serves pages and reports their total with
    every page, the loop of [get_issue_details] is left after at most
    [max(1, total)] requests: that many iterations always suffice. The
    records of the pages before the last were fewer than [max(1, total)],
    and the last page is empty or completes the total. *)
Theorem get_issue_details_bound
        (pages : Z -> list value) (total : Z) (SEMRUSH_API_KEY : option string)
        (con : Console) (project_id snapshot_id : string) (issue_id limit : Z)
        (log : list request) :
  exists k,
    1 <= k <= Nat.max 1 (Z.to_nat total)
    /\ (forall fuel, Nat.max 1 (Z.to_nat total) <= fuel ->
          exists sent,
            get_issue_details (paged_provider pages total) SEMRUSH_API_KEY fuel
                              project_id snapshot_id issue_id limit log
            = (Ok (Some (pages_upto pages k, VInt total)), (log ++ sent)%list)
            /\ length sent = k)
    /\ (list_len (pages_upto pages (k - 1)) < Z.max 1 total)%Z
    /\ (pages (Z.of_nat k) <> [] -> (total <= list_len (pages_upto pages k))%Z).
Proof.
  destruct (first_stop_bounded pages total) as (k & Hk & Hstop & Hgo).
  exists k. split; [exact Hk|]. split; [|split].
  - intros fuel Hfuel. destruct k as [|m]; [lia|].
    eexists. unfold get_issue_details, except_Exception.
    change (@nil value) with (pages_upto pages 0).
    change 1%Z with (Z.of_nat 1).
    rewrite (fetch_pages_run pages total SEMRUSH_API_KEY _ limit m 0 fuel log);
      [|intros j Hj; apply Hgo; lia | exact Hstop | lia].
    split; [reflexivity|]. rewrite length_map, length_seq. reflexivity.
  - destruct k as [|[|m]]; [lia | cbn; lia |].
    replace (S (S m) - 1) with (S m) by lia.
    destruct (Hgo (S m) ltac:(lia)) as [_ Hlt]. lia.
  - intros Hne. destruct Hstop as [E|E]; [congruence | exact E].
Qed.

Section Untotalled.

Variable pages : Z -> list value.
Variable SEMRUSH_API_KEY : option string.
Variables (url : string) (limit : Z).

Lemma fetch_pages_untotalled (fuel : nat) (log : list request) :
fetch_pages (untotalled_provider pages) SEMRUSH_API_KEY (S fuel) url limit
            [] 1%Z log
= (Ok (Some (pages 1%Z, VInt 0)),
   (log ++ [page_request SEMRUSH_API_KEY url limit 1%Z])%list).
Proof.
cbn [fetch_pages bind M_monad requests_get lift].
unfold untotalled_provider at 1. cbn [page_request req_params req_url].
change (dict_get [("key", api_key SEMRUSH_API_KEY); ("limit", VInt limit);
                  ("page", VInt 1)] "page")
  with (Some (VInt 1)).
cbn [raise_for_status status_code json].
change ((400 <=? 200)%Z && (200 <? 500)%Z) with false.
change ((500 <=? 200)%Z && (200 <? 600)%Z) with false.
cbn [Py.contains Py.subscript Py.get].
change (dict_get [("data", VList (pages 1%Z))] "data")
  with (Some (VList (pages 1%Z))).
change (dict_get [("data", VList (pages 1%Z))] "total") with (@None value).
cbn [Py.truthy].
destruct (pages 1%Z) as [|x l] eqn:E; [reflexivity|].
cbn [negb Py.iter Py.int_ge finish lift bind M_monad Py.get app].
change (dict_get [("data", VList (x :: l))] "total") with (@None value).
assert (H : (0 <=? list_len (x :: l))%Z = true).
{ apply Z.leb_le. unfold list_len. lia. }
rewrite H. reflexivity.
Qed.

End Untotalled.

(** X20. When the provider reports no total, [get_issue_details] takes the
    total to be 0: it sends one request, returns the records of the first
    page with the total 0, and asks for no further page, however many
    pages the provider would serve. *)
Theorem get_issue_details_without_total
        (pages : Z -> list value) (SEMRUSH_API_KEY : option string)
        (con : Console) (fuel : nat) (project_id snapshot_id : string) (issue_id limit : Z)
        (log : list request) :
  get_issue_details (untotalled_provider pages) SEMRUSH_API_KEY (S fuel)
                    project_id snapshot_id issue_id limit log
  = (Ok (Some (pages 1%Z, VInt 0)),
     (log ++ [page_request SEMRUSH_API_KEY
                           (issue_url project_id snapshot_id issue_id)
                           limit 1%Z])%list).
Proof.
  unfold get_issue_details, except_Exception.
  rewrite fetch_pages_untotalled. reflexivity.
Qed.

Section Failing.

Variable pages : Z -> list value.
Variable total : Z.
Variable bad : nat.
Variable e : exn.
Variable SEMRUSH_API_KEY : option string.
Variables (url : string) (limit : Z).

Let network := failing_provider pages total (Z.of_nat bad) e.
Let sent (j : nat) : request :=
page_request SEMRUSH_API_KEY url limit (Z.of_nat j).

Lemma failing_provider_other (n : nat) :
n <> bad -> network (sent n) = paged_provider pages total (sent n).
Proof.
intros Hne. unfold network, failing_provider, sent.
cbn [page_request req_params].
change (dict_get [("key", api_key SEMRUSH_API_KEY); ("limit", VInt limit);
                  ("page", VInt (Z.of_nat n))] "page")
  with (Some (VInt (Z.of_nat n))).
cbv beta iota.
destruct (Z.of_nat n =? Z.of_nat bad)%Z eqn:E; [|reflexivity].
apply Z.eqb_eq in E. lia.
Qed.

Lemma failing_provider_bad : network (sent bad) = Raise e.
Proof.
unfold network, failing_provider, sent. cbn [page_request req_params].
change (dict_get [("key", api_key SEMRUSH_API_KEY); ("limit", VInt limit);
                  ("page", VInt (Z.of_nat bad))] "page")
  with (Some (VInt (Z.of_nat bad))).
cbv beta iota. rewrite Z.eqb_refl. reflexivity.
Qed.

(** One iteration on a page that is served. *)
Lemma fetch_pages_step_other (fuel : nat) (all_pages : list value) (n : nat)
    (log : list request) :
n <> bad ->
pages (Z.of_nat n) <> [] ->
(list_len (all_pages ++ pages (Z.of_nat n)) < total)%Z ->
fetch_pages network SEMRUSH_API_KEY (S fuel) url limit all_pages
            (Z.of_nat n) log
= fetch_pages network SEMRUSH_API_KEY fuel url limit
              (all_pages ++ pages (Z.of_nat n))%list
              (Z.of_nat n + 1)%Z (log ++ [sent n])%list.
Proof.
intros Hne Hpage Hlt.
cbn [fetch_pages bind M_monad requests_get lift].
fold (sent n). rewrite (failing_provider_other n Hne).
unfold paged_provider, sent. cbn [page_request req_params req_url].
change (dict_get [("key", api_key SEMRUSH_API_KEY); ("limit", VInt limit);
                  ("page", VInt (Z.of_nat n))] "page")
  with (Some (VInt (Z.of_nat n))).
cbn [raise_for_status status_code json].
change ((400 <=? 200)%Z && (200 <? 500)%Z) with false.
change ((500 <=? 200)%Z && (200 <? 600)%Z) with false.
cbn [Py.contains Py.subscript Py.get].
change (dict_get [("data", VList (pages (Z.of_nat n))); ("total", VInt total)]
                 "data")
  with (Some (VList (pages (Z.of_nat n)))).
change (dict_get [("data", VList (pages (Z.of_nat n))); ("total", VInt total)]
                 "total")
  with (Some (VInt total)).
cbn [Py.truthy].
destruct (pages (Z.of_nat n)) as [|x l] eqn:E; [congruence|].
cbn [negb Py.iter Py.int_ge lift bind M_monad].
apply Z.leb_gt in Hlt. rewrite Hlt. reflexivity.
Qed.

Lemma fetch_pages_fails (m n fuel : nat) (log : list request) :
n + S m = bad ->
(forall j, n < j < bad -> continues_at pages total j) ->
S m <= fuel ->
fetch_pages network SEMRUSH_API_KEY fuel url limit (pages_upto pages n)
            (Z.of_nat (S n)) log
= (Raise e, (log ++ map sent (seq (S n) (S m)))%list).
Proof.
revert n fuel log. induction m as [|m IH]; intros n fuel log Hbad Hgo Hfuel;
  (destruct fuel as [|fuel]; [lia|]).
- replace (S n) with bad by lia.
  cbn [fetch_pages bind M_monad requests_get lift].
  fold (sent bad). rewrite failing_provider_bad. reflexivity.
- destruct (Hgo (S n) ltac:(lia)) as [Hne Hlt].
  rewrite pages_upto_S in Hlt.
  rewrite (fetch_pages_step_other fuel _ (S n) log ltac:(lia) Hne Hlt).
  rewrite <- pages_upto_S.
  replace (Z.of_nat (S n) + 1)%Z with (Z.of_nat (S (S n))) by lia.
  rewrite (IH (S n) fuel); [|lia | intros j Hj; apply Hgo; lia | lia].
  rewrite <- app_assoc. reflexivity.
Qed.

End Failing.

(** X21. When the request for a page raises, the records of the pages
    before it are given up. If the loop is still running when it reaches
    the page that fails, [get_issue_details] has sent the requests for the
    pages up to that one, and: it returns the empty list with the total 0
    when the exception is an [Exception] and the console writes the line
    that reports it; it raises the exception of [print] when writing that
    line raises; and it raises the exception itself when that is no
    [Exception]. *)
Theorem get_issue_details_failure
        (pages : Z -> list value) (total : Z) (bad : nat) (e : exn)
        (SEMRUSH_API_KEY : option string) (con : Console) (fuel : nat)
        (project_id snapshot_id : string) (issue_id limit : Z)
        (log : list request) :
  let run :=
    get_issue_details (failing_provider pages total (Z.of_nat bad) e)
                      SEMRUSH_API_KEY fuel project_id snapshot_id issue_id limit
                      log in
  let report := "Error fetching issue details: " ++ exn_str e in
  1 <= bad ->
  (forall j, 1 <= j < bad -> continues_at pages total j) ->
  bad <= fuel ->
  snd run
  = (log ++ map (fun j => page_request SEMRUSH_API_KEY
                            (issue_url project_id snapshot_id issue_id) limit
                            (Z.of_nat j)) (seq 1 bad))%list
  /\ (is_Exception e = true -> prints report ->
      fst run = Ok (Some ([], VInt 0)))
  /\ (forall e', is_Exception e = true -> print report = Raise e' ->
                 fst run = Raise e')
  /\ (is_Exception e = false -> fst run = Raise e).
Proof.
  cbv zeta. intros Hbad Hgo Hfuel. unfold get_issue_details, except_Exception.
  destruct bad as [|m]; [lia|].
  pose proof (fetch_pages_fails pages total (S m) e SEMRUSH_API_KEY
                (issue_url project_id snapshot_id issue_id) limit
                m 0 fuel log ltac:(lia)
                ltac:(intros j Hj; apply Hgo; lia) ltac:(lia)) as Hrun.
  change (pages_upto pages 0) with (@nil value) in Hrun.
  change (Z.of_nat 1) with 1%Z in Hrun.
  rewrite Hrun. unfold prints. cbn [bind M_monad lift].
  destruct (is_Exception e).
  - destruct (print _) as [[]|e0]; cbn [fst snd ret M_monad].
    + repeat split; try reflexivity; intros; discriminate.
    + repeat split; try reflexivity; try (intros; discriminate).
      intros e' _ H. injection H as <-. reflexivity.
  - cbn [fst snd]. repeat split; try reflexivity; intros; discriminate.
Qed.

(** The second page of the pages of 100, 100 and 37 records fails. *)
Lemma get_issue_details_failure_witness :
  get_issue_details (con := Samples.terminal)
                    (failing_provider Samples.pages_237 237 2
                                      (Exn "ConnectionError" "Connection aborted."))
                    None 10 "26460775" "S1" 3 100 []
  = (Ok (Some ([], VInt 0)),
     map (fun p => page_request None (issue_url "26460775" "S1" 3) 100 p)
         [1; 2]%Z).
Proof.
  destruct (get_issue_details_failure Samples.pages_237 237 2
              (Exn "ConnectionError" "Connection aborted.") None
              Samples.terminal 10 "26460775" "S1" 3 100 [])
    as (Hlog & Hret & _).
  - repeat constructor.
  - intros j Hj. assert (E : j = 1) by lia. subst j.
    split; [discriminate | vm_compute; reflexivity].
  - repeat constructor.
  - apply injective_projections; [exact (Hret eq_refl eq_refl) | exact Hlog].
Defined.

(* ===================================================================== *)
(** * Further properties: the issue summary on any response *)
(* ===================================================================== *)

Lemma mapping_names_not_empty (k : Z) (name : string) :
  mapping_find ISSUE_MAPPING k = Some name -> name <> "".
Proof.
  assert (H : forallb (fun p => negb (String.eqb (snd p) "")) ISSUE_MAPPING = true)
    by (vm_compute; reflexivity).
  revert H. induction ISSUE_MAPPING as [|[k' n] m IH]; [discriminate|].
  cbn [forallb mapping_find snd]. intros H E.
  apply andb_true_iff in H as [Hn Hm].
  destruct (Z.eqb k' k).
  - injection E as <-. apply negb_true_iff, String.eqb_neq in Hn. exact Hn.
  - apply IH; assumption.
Qed.

Lemma ISSUE_MAPPING_get_name (id name : value) :
  ISSUE_MAPPING_get id = Ok name -> exists s, name = VStr s /\ s <> "".
Proof.
  unfold ISSUE_MAPPING_get.
  assert (Hfound : forall k shown,
             exists s,
               match mapping_find ISSUE_MAPPING k with
               | Some n => VStr n
               | None => VStr ("Unknown Issue " ++ shown)
               end = VStr s /\ s <> "").
  { intros k shown. destruct (mapping_find ISSUE_MAPPING k) as [n|] eqn:E.
    - exists n. split; [reflexivity | exact (mapping_names_not_empty k n E)].
    - eexists. split; [reflexivity | discriminate]. }
  destruct id as [ | [|] | z | s | l | d ]; intros H; try discriminate H;
    injection H as <-; try apply Hfound;
    eexists; (split; [reflexivity | discriminate]).
Qed.

Lemma add_issue_shape (severity : string) (acc acc' : list value) (v : value) :
  add_issue severity acc v = Ok acc' ->
  acc' = acc \/ exists record, acc' = (acc ++ [record])%list
                               /\ is_record_of severity record.
Proof.
  unfold add_issue. cbn [bind result_monad].
  destruct (Py.subscript v "id") as [id|]; [|discriminate].
  destruct (Py.subscript v "count") as [count|]; [|discriminate].
  destruct (Py.gt_zero count) as [[|]|] eqn:Hpos; [| |discriminate].
  - destruct (ISSUE_MAPPING_get id) as [name|] eqn:Hname; [|discriminate].
    destruct (Py.get v "delta" (VInt 0)) as [delta|]; [|discriminate].
    cbn [ret result_monad]. intros H. injection H as <-. right.
    destruct (ISSUE_MAPPING_get_name id name Hname) as (s & -> & Hs).
    eexists. split; [reflexivity|]. exists id, s, count, delta.
    split; [reflexivity|]. split; [exact Hs | exact Hpos].
  - cbn [ret result_monad]. intros H. injection H as <-. left. reflexivity.
Qed.

Lemma for_each_shape (severity : string) (l : list value) :
  forall acc acc',
    for_each (add_issue severity) l acc = Ok acc' ->
    exists new, acc' = (acc ++ new)%list
                /\ Forall (is_record_of severity) new
                /\ length new <= length l.
Proof.
  induction l as [|v l IH]; intros acc acc' H.
  - cbn in H. injection H as <-. exists []. rewrite app_nil_r.
    repeat split; [constructor | reflexivity].
  - cbn [for_each bind result_monad] in H.
    destruct (add_issue severity acc v) as [acc1|] eqn:Hv; [|discriminate H].
    destruct (IH _ _ H) as (new & -> & Hnew & Hlen).
    destruct (add_issue_shape _ _ _ _ Hv) as [->|(record & -> & Hrec)].
    + exists new. repeat split; [exact Hnew | cbn; lia].
    + exists (record :: new). rewrite <- app_assoc.
      repeat split; [constructor; assumption | cbn; lia].
Qed.

Lemma process_section_shape (section severity : string) (data : value)
      (acc acc' : list value) :
  process_section section severity data acc = Ok acc' ->
  exists new, acc' = (acc ++ new)%list /\ Forall (is_record_of severity) new.
Proof.
  unfold process_section. cbn [bind result_monad].
  destruct (Py.contains section data) as [[|]|]; [| |discriminate].
  - destruct (Py.subscript data section) as [entries|]; [|discriminate].
    destruct (Py.iter entries) as [l|]; [|discriminate].
    intros H. destruct (for_each_shape _ _ _ _ H) as (new & -> & Hnew & _).
    exists new. split; [reflexivity | exact Hnew].
  - cbn [ret result_monad]. intros H. injection H as <-.
    exists []. rewrite app_nil_r. split; [reflexivity | constructor].
Qed.

Lemma rank_of_record (severity : string) (n : nat) (l : list value) :
  (forall v, is_record_of severity v -> severity_rank v = n) ->
  Forall (is_record_of severity) l -> Forall (fun v => severity_rank v = n) l.
Proof. intros H. apply Forall_impl. exact H. Qed.

(** X22. Whatever the provider answers, every record of the summary holds
    the five fields, a name that is not empty, one of the three severities
    and a count above zero; the Error records come first, then the Warning
    records, then the Notice records. *)
Theorem get_all_issues_summary_records
        (network : request -> result response) (SEMRUSH_API_KEY : option string)
        (con : Console) (project_id : string) (log : list request)
        (issues : list value) (snapshot_id : value) :
  fst (get_all_issues_summary network SEMRUSH_API_KEY project_id log)
  = Ok (issues, snapshot_id) ->
  exists errors warnings notices,
    issues = (errors ++ warnings ++ notices)%list
    /\ Forall (is_record_of "Error") errors
    /\ Forall (is_record_of "Warning") warnings
    /\ Forall (is_record_of "Notice") notices
    /\ StronglySorted (fun a b => severity_rank a <= severity_rank b) issues.
Proof.
  intros H.
  assert (Hshape : exists errors warnings notices,
             issues = (errors ++ warnings ++ notices)%list
             /\ Forall (is_record_of "Error") errors
             /\ Forall (is_record_of "Warning") warnings
             /\ Forall (is_record_of "Notice") notices).
  { destruct (summary_returned network SEMRUSH_API_KEY project_id log
                issues snapshot_id H)
      as [[-> _]|(r & data & l1 & l2 & _ & _ & _ & _ & H1 & H2 & H3)].
    - exists [], [], []. repeat split; constructor.
    - destruct (process_section_shape _ _ _ _ _ H1) as (e1 & -> & He).
      destruct (process_section_shape _ _ _ _ _ H2) as (w1 & -> & Hw).
      destruct (process_section_shape _ _ _ _ _ H3) as (n1 & -> & Hn).
      exists e1, w1, n1. cbn [app]. rewrite <- app_assoc.
      repeat split; assumption. }
  destruct Hshape as (errors & warnings & notices & -> & He & Hw & Hn).
  exists errors, warnings, notices. split; [reflexivity|].
  split; [exact He|]. split; [exact Hw|]. split; [exact Hn|].
  assert (R0 : Forall (fun v => severity_rank v = 0) errors).
  { eapply rank_of_record; [|exact He].
    intros v (id & name & count & delta & -> & _). reflexivity. }
  assert (R1 : Forall (fun v => severity_rank v = 1) warnings).
  { eapply rank_of_record; [|exact Hw].
    intros v (id & name & count & delta & -> & _). reflexivity. }
  assert (R2 : Forall (fun v => severity_rank v = 2) notices).
  { eapply rank_of_record; [|exact Hn].
    intros v (id & name & count & delta & -> & _). reflexivity. }
  apply sorted_app; [eapply sorted_constant; exact R0 | |].
  - apply sorted_app;
      [eapply sorted_constant; exact R1 | eapply sorted_constant; exact R2 |].
    rewrite Forall_forall in R1, R2.
    intros a b Ha Hb. rewrite (R1 a Ha), (R2 b Hb). lia.
  - rewrite Forall_forall in R0, R1, R2.
    intros a b Ha Hb. rewrite (R0 a Ha).
    apply in_app_or in Hb as [Hb|Hb];
      [rewrite (R1 b Hb) | rewrite (R2 b Hb)]; lia.
Qed.

(** The two records of the specification's example. *)
Lemma get_all_issues_summary_records_witness :
  exists errors warnings notices,
    records_of [Entry 3 5 None; Entry 999 0 None] [Entry 101 2 (Some (-1)%Z)] []
    = (errors ++ warnings ++ notices)%list
    /\ Forall (is_record_of "Error") errors
    /\ Forall (is_record_of "Warning") warnings
    /\ Forall (is_record_of "Notice") notices.
Proof.
  destruct (get_all_issues_summary_records Samples.audit_network None
              Samples.terminal "26460775" [] _ (VStr "S1") eq_refl)
    as (e & w & n & H & He & Hw & Hn & _).
  exists e, w, n. split; [exact H|]. repeat split; assumption.
Defined.

(* --------------------------------------------------------------------- *)
(** ** Entries that lack a field *)

Lemma for_each_app {A S : Type} (body : S -> A -> result S) (l1 l2 : list A)
      (s : S) :
  for_each body (l1 ++ l2) s
  = match for_each body l1 s with
    | Ok s' => for_each body l2 s'
    | Raise e => Raise e
    end.
Proof.
  revert s. induction l1 as [|x l1 IH]; intros s; [reflexivity|].
  cbn [app for_each bind result_monad].
  destruct (body s x); [apply IH | reflexivity].
Qed.

Lemma add_issue_lacks (severity : string) (acc : list value) (v : value) :
  lacks_field v -> exists e, add_issue severity acc v = Raise e.
Proof.
  intros (d & -> & H). unfold add_issue, Py.subscript. cbn [bind result_monad].
  destruct (dict_get d "id") as [id|]; [|eexists; reflexivity].
  destruct H as [H|H]; [discriminate H|]. rewrite H. eexists. reflexivity.
Qed.

Lemma process_section_lacks (section severity : string) (data : dict)
      (good rest : list value) (es : list entry) (bad : value)
      (acc : list value) :
  dict_get data section = Some (VList (good ++ bad :: rest)) ->
  Forall2 describes good es ->
  lacks_field bad ->
  exists e, process_section section severity (VDict data) acc = Raise e.
Proof.
  intros Hsec Hgood Hbad.
  unfold process_section, Py.contains, Py.subscript. rewrite Hsec.
  cbn [bind result_monad Py.iter].
  rewrite for_each_app, (for_each_emitted severity good es Hgood).
  cbn [for_each bind result_monad].
  destruct (add_issue_lacks severity (acc ++ emitted severity es)%list bad Hbad)
    as [e ->].
  exists e. reflexivity.
Qed.

(** What the operations on values raise is caught by [except Exception]. *)
Lemma py_raises (v : value) (key : string) (default : value) (e : exn) :
  (Py.subscript v key = Raise e -> is_Exception e = true)
  /\ (Py.get v key default = Raise e -> is_Exception e = true)
  /\ (Py.contains key v = Raise e -> is_Exception e = true)
  /\ (Py.iter v = Raise e -> is_Exception e = true)
  /\ (Py.gt_zero v = Raise e -> is_Exception e = true)
  /\ (ISSUE_MAPPING_get v = Raise e -> is_Exception e = true).
Proof.
  repeat split; destruct v as [ | [|] | z | s | l | d ]; cbn;
    try destruct (dict_get d key);
    intros H; try discriminate H; injection H as <-; reflexivity.
Qed.

Lemma add_issue_raises (severity : string) (acc : list value) (v : value)
      (e : exn) :
  add_issue severity acc v = Raise e -> is_Exception e = true.
Proof.
  unfold add_issue. cbn [bind result_monad].
  destruct (Py.subscript v "id") as [id|e0] eqn:H1;
    [|intros H; injection H as <-; exact (proj1 (py_raises v "id" VNone e0) H1)].
  destruct (Py.subscript v "count") as [count|e0] eqn:H2;
    [|intros H; injection H as <-; exact (proj1 (py_raises v "count" VNone e0) H2)].
  destruct (Py.gt_zero count) as [[|]|e0] eqn:H3;
    [| discriminate
     | intros H; injection H as <-;
       exact (proj1 (proj2 (proj2 (proj2 (proj2 (py_raises count "" VNone e0))))) H3)].
  destruct (ISSUE_MAPPING_get id) as [name|e0] eqn:H4;
    [|intros H; injection H as <-;
      exact (proj2 (proj2 (proj2 (proj2 (proj2 (py_raises id "" VNone e0))))) H4)].
  destruct (Py.get v "delta" (VInt 0)) as [delta|e0] eqn:H5;
    [discriminate|].
  intros H. injection H as <-.
  exact (proj1 (proj2 (py_raises v "delta" (VInt 0) e0)) H5).
Qed.

Lemma for_each_raises (severity : string) (l : list value) :
  forall acc e,
    for_each (add_issue severity) l acc = Raise e -> is_Exception e = true.
Proof.
  induction l as [|v l IH]; intros acc e; [discriminate|].
  cbn [for_each bind result_monad].
  destruct (add_issue severity acc v) as [acc1|e0] eqn:Hv.
  - apply IH.
  - intros H. injection H as <-. exact (add_issue_raises _ _ _ _ Hv).
Qed.

Lemma process_section_raises (section severity : string) (data : value)
      (acc : list value) (e : exn) :
  process_section section severity data acc = Raise e -> is_Exception e = true.
Proof.
  unfold process_section. cbn [bind result_monad].
  destruct (Py.contains section data) as [[|]|e0] eqn:H1;
    [| discriminate
     | intros H; injection H as <-;
       exact (proj1 (proj2 (proj2 (py_raises data section VNone e0))) H1)].
  destruct (Py.subscript data section) as [entries|e0] eqn:H2;
    [|intros H; injection H as <-;
      exact (proj1 (py_raises data section VNone e0) H2)].
  destruct (Py.iter entries) as [l|e0] eqn:H3;
    [apply for_each_raises|].
  intros H. injection H as <-.
  exact (proj1 (proj2 (proj2 (proj2 (py_raises entries "" VNone e0)))) H3).
Qed.

(** X23. One entry without its id or its count spoils the whole summary.
    When a response with a good status lists such an entry in a section,
    whatever the entries before and after it and whatever the other
    sections hold, the body of [get_all_issues_summary] raises an
    [Exception]; on a console that writes the line that reports it, the
    function returns the empty list with [None] for the snapshot, and the
    records of the entries that were in order are not returned. *)
Theorem get_all_issues_summary_lacks_field
        (network : request -> result response) (SEMRUSH_API_KEY : option string)
        (con : Console) (project_id : string) (log : list request)
        (r : response) (data : dict) (section : string)
        (good rest : list value) (es : list entry) (bad : value) :
  network (snapshot_request SEMRUSH_API_KEY project_id) = Ok r ->
  status_ok r ->
  json r = Ok (VDict data) ->
  In section ["errors"; "warnings"; "notices"] ->
  dict_get data section = Some (VList (good ++ bad :: rest)) ->
  Forall2 describes good es ->
  lacks_field bad ->
  (forall msg, prints ("Error fetching issues summary: " ++ msg)) ->
  get_all_issues_summary network SEMRUSH_API_KEY project_id log
  = (Ok ([], VNone),
     (log ++ [snapshot_request SEMRUSH_API_KEY project_id])%list).
Proof.
  intros Hnet Hst Hjson Hin Hsec Hgood Hbad Hp.
  unfold get_all_issues_summary, except_Exception.
  cbn [bind M_monad requests_get lift].
  rewrite Hnet, (raise_for_status_ok r Hst), Hjson.
  cbn [Py.get].
  assert (Hh : forall e (l : list request),
             is_Exception e = true ->
             (if is_Exception e
              then
                match print ("Error fetching issues summary: " ++ exn_str e) with
                | Ok _ => (Ok (([] : list value), VNone), l)
                | Raise e0 => (Raise e0, l)
                end
              else (Raise e, l))
             = (Ok ([], VNone), l)).
  { intros e l ->. rewrite (Hp (exn_str e)). reflexivity. }
  assert (Hraise : forall severity acc,
             exists e, process_section section severity (VDict data) acc
                       = Raise e).
  { intros severity acc.
    exact (process_section_lacks section severity data good rest es bad acc
             Hsec Hgood Hbad). }
  destruct (dict_get data "snapshot_id") as [snapshot_id|];
    destruct Hin as [<-|[<-|[<-|[]]]].
  all: destruct (process_section "errors" "Error" (VDict data) []) as [l1|e1]
         eqn:H1;
    [|apply Hh; exact (process_section_raises _ _ _ _ _ H1)].
  all: try (destruct (Hraise "Error" []) as [e E]; rewrite E in H1;
            discriminate H1).
  all: destruct (process_section "warnings" "Warning" (VDict data) l1) as [l2|e2]
         eqn:H2;
    [|apply Hh; exact (process_section_raises _ _ _ _ _ H2)].
  all: try (destruct (Hraise "Warning" l1) as [e E]; rewrite E in H2;
            discriminate H2).
  all: destruct (process_section "notices" "Notice" (VDict data) l2) as [l3|e3]
         eqn:H3;
    [|apply Hh; exact (process_section_raises _ _ _ _ _ H3)].
  all: destruct (Hraise "Notice" l2) as [e E]; rewrite E in H3; discriminate H3.
Qed.

(** An audit whose second error has no count: the first is not returned. *)
Lemma get_all_issues_summary_lacks_field_witness :
  get_all_issues_summary (con := Samples.terminal)
    Cases.broken_audit_network None "26460775" []
  = (Ok ([], VNone), [snapshot_request None "26460775"]).
Proof.
  refine (get_all_issues_summary_lacks_field Cases.broken_audit_network None
            Samples.terminal "26460775" [] _ Cases.broken_audit "errors"
            [VDict [("id", VInt 3); ("count", VInt 5)]] []
            [Entry 3 5 None] (VDict [("id", VInt 8)])
            eq_refl _ eq_refl _ eq_refl _ _ _).
  - unfold status_ok, Samples.ok_response; simpl; lia.
  - left. reflexivity.
  - repeat constructor. eexists. repeat split; reflexivity.
  - eexists. split; [reflexivity|]. right. reflexivity.
  - intros msg. reflexivity.
Defined.

(* ===================================================================== *)
(** * Further properties: the audit context of a summary *)
(* ===================================================================== *)

Lemma issue_line_record (severity : string) (e : entry) :
  AuditContext.issue_line (issue_record severity e)
  = Ok (record_line (issue_record severity e)).
Proof. reflexivity. Qed.

Lemma append_assoc3 (a b c : string) : ((a ++ b) ++ c = a ++ (b ++ c))%string.
Proof. induction a as [|x a IH]; cbn; [reflexivity | rewrite IH; reflexivity]. Qed.

Lemma append_empty (a : string) : (a ++ "")%string = a.
Proof. induction a as [|x a IH]; cbn; [reflexivity | rewrite IH; reflexivity]. Qed.

Lemma lines_of_records (l : list value) :
  Forall (fun v => exists severity e, v = issue_record severity e) l ->
  forall text,
    for_each (fun text issue =>
                line <- AuditContext.issue_line issue ;; ret (text ++ line))
             l text
    = Ok (text ++ lines_text (map record_line l)).
Proof.
  induction 1 as [|v l (s & e & ->) _ IH]; intros text.
  - cbn. rewrite append_empty. reflexivity.
  - cbn [for_each bind result_monad]. rewrite issue_line_record.
    cbn [bind result_monad ret]. rewrite IH.
    cbn [map lines_text fold_right]. rewrite append_assoc3. reflexivity.
Qed.

(** X24. For the records of a summary the audit context is always built,
    and raises nothing. Without a record it is the empty text. Otherwise
    it opens with the number of records and the numbers of the records of
    the three sections, which add up to it, and goes on with one line for
    each of the first ten records in their ranking, and with no line for
    any further record. *)
Theorem audit_context_records (errors warnings notices : list entry) :
  let records := records_of errors warnings notices in
  let data := VDict [("issues", VList records)] in
  (records = [] -> AuditContext.audit_context data = Ok "")
  /\ (records <> [] ->
      exists ranked,
        AuditContext.sorted_issues records = Ok ranked
        /\ AuditContext.audit_context data
           = Ok (audit_head (list_len records)
                            (list_len (emitted "Error" errors))
                            (list_len (emitted "Warning" warnings))
                            (list_len (emitted "Notice" notices))
                 ++ lines_text (map record_line (firstn 10 ranked)))
        /\ length (firstn 10 ranked) = Nat.min 10 (length records)
        /\ (list_len (emitted "Error" errors)
            + list_len (emitted "Warning" warnings)
            + list_len (emitted "Notice" notices) = list_len records)%Z).
Proof.
  cbv zeta. split.
  - intros ->. reflexivity.
  - intros Hne.
    destruct (sorted_records_exists errors warnings notices) as [ks Hl].
    destruct (sorted_issues_ok _ _ Hl) as (Hperm & _).
    destruct (with_severity_sections errors warnings notices) as (He & Hw & Hn).
    exists (map snd (Py2.sorted ks)).
    split; [exact Hl|]. split; [|split].
    + unfold AuditContext.audit_context.
      cbn [Py.truthy Py.get Py.subscript Py.iter bind result_monad].
      change (dict_get [("issues", VList (records_of errors warnings notices))]
                       "issues")
        with (Some (VList (records_of errors warnings notices))).
      cbn [Py.truthy Py.iter bind result_monad].
      destruct (records_of errors warnings notices) as [|x l] eqn:E;
        [congruence|].
      rewrite <- E in *. rewrite He, Hw, Hn, Hl.
      cbn [bind result_monad].
      rewrite lines_of_records; [reflexivity|].
      apply Forall_forall. intros v Hv.
      pose proof (records_of_records errors warnings notices) as Hrec.
      rewrite Forall_forall in Hrec. apply Hrec.
      apply (Permutation_in v (Permutation_sym Hperm)).
      rewrite <- (firstn_skipn 10). apply in_or_app. left. exact Hv.
    + rewrite length_firstn, (Permutation_length Hperm). reflexivity.
    + unfold records_of, list_len. rewrite !length_app. lia.
Qed.

(** The audit context of five records. *)
Lemma audit_context_records_witness :
  let records :=
    records_of [Entry 3 5 None; Entry 8 40 None]
               [Entry 101 2 (Some (-1)%Z); Entry 103 2 None]
               [Entry 201 7 None] in
  exists ranked,
    AuditContext.sorted_issues records = Ok ranked
    /\ AuditContext.audit_context (VDict [("issues", VList records)])
       = Ok (audit_head 5 2 2 1
             ++ lines_text (map record_line (firstn 10 ranked)))
    /\ length (firstn 10 ranked) = 5.
Proof.
  destruct (proj2 (audit_context_records
                     [Entry 3 5 None; Entry 8 40 None]
                     [Entry 101 2 (Some (-1)%Z); Entry 103 2 None]
                     [Entry 201 7 None]) ltac:(discriminate))
    as (ranked & Hs & Hc & Hlen & _).
  exists ranked. split; [exact Hs|]. split; [exact Hc | exact Hlen].
Defined.
